(** * Synthetic food-delivery dataset generator: model and checked properties

    The three generator scripts (Stage 1: reference and identity tables,
    Stage 2: orders, order items, delivery tracking, Stage 3: sessions and
    carts) are embedded as Rocq functions.

    - A DataFrame is the list of its rows, in row order; the default
      RangeIndex is the position in the list.
    - The random generators are explicit state: Python's [random], NumPy's
      global generator (also used by [DataFrame.sample]) and Faker's own
      generator are three independent streams of draws.  Every primitive
      reads the next draw and maps it into the range the library function
      can return, so a statement quantified over all streams covers every
      seed.
    - A Python exception is a [Raise] result; the state reached so far is
      kept, as it is when an exception propagates.
    - Python [float] arithmetic is written against the interface [Num],
      with two instances: IEEE binary64 (primitive floats, what the
      interpreter computes) and exact rationals (the reading "up to
      floating rounding").
    - A [datetime] is a number of minutes since Monday 2024-01-01 00:00;
      the scripts build every timestamp from whole days, hours and
      minutes.
    - A CSV file holds a typed table: what [read_csv] returns is the list
      of rows that [to_csv] was given, and the text of the file is not
      modelled.
    - Not embedded: the [print] calls and the script body of Stage 2
      (its functions are). *)

From Stdlib Require Import ZArith QArith Qcanon Qround Floats.
From Stdlib Require Import List String Ascii DecimalString Bool Lia Lqa.
From Stdlib Require Finite.
From Stdlib Require Import Permutation Sorted.
Import ListNotations.

Abbreviation length := List.length.

Local Open Scope Z_scope.

(* ================================================================== *)
(** * Numbers *)

(** The operations the scripts apply to Python floats. *)
Class Num (F : Type) : Type := {
  of_Z : Z -> F;               (* int -> float *)
  fadd : F -> F -> F;
  fsub : F -> F -> F;
  fmul : F -> F -> F;
  fdiv : F -> F -> F;
  fltb : F -> F -> bool;       (* x < y *)
  feqb : F -> F -> bool;       (* x == y *)
  round2 : F -> F;             (* round(x, 2) *)
  trunc : F -> Z               (* int(x) *)
}.

(** A decimal literal [p/q], e.g. [lit 3 100] for [0.03]. *)
Definition lit {F} `{Num F} (p q : Z) : F := fdiv (of_Z p) (of_Z q).

(** Round half to even, on an exact value. *)
Definition round_half_even (q : Q) : Z :=
  let f := Qfloor q in
  match Qcompare (q - inject_Z f) (1 # 2) with
  | Lt => f
  | Gt => f + 1
  | Eq => if Z.even f then f else f + 1
  end.

(** Truncation toward zero, as [int(x)] does. *)
Definition q_trunc (q : Q) : Z := Z.quot (Qnum q) (Zpos (Qden q)).

(** ** Exact rationals *)

Definition qc_ltb (x y : Qc) : bool :=
  match Qccompare x y with Lt => true | _ => false end.

Definition qc_round2 (x : Qc) : Qc :=
  Q2Qc (inject_Z (round_half_even (inject_Z 100 * x)) / inject_Z 100).

#[export] Instance Exact : Num Qc := {
  of_Z z := Q2Qc (inject_Z z);
  fadd := Qcplus;
  fsub := Qcminus;
  fmul := Qcmult;
  fdiv := Qcdiv;
  fltb := qc_ltb;
  feqb := Qc_eq_bool;
  round2 := qc_round2;
  trunc x := q_trunc x
}.

(** ** IEEE binary64 *)

(** [float(z)] for an integer of magnitude below 2^63. *)
Definition float_of_Z (z : Z) : float :=
  if z <? 0 then PrimFloat.opp (PrimFloat.of_uint63 (Uint63.of_Z (- z)))
  else PrimFloat.of_uint63 (Uint63.of_Z z).

(** The exact value of a finite float. *)
Definition float_to_Q (x : float) : option Q :=
  match Prim2SF x with
  | S754_zero _ => Some 0%Q
  | S754_finite s m e =>
      let v := (inject_Z (Zpos m) * Qpower 2 e)%Q in
      Some (if s then Qopp v else v)
  | _ => None
  end.

(** [round(x, 2)]: the exact value is rounded half-even to two decimals
    and the decimal result is converted back to the nearest float, with
    the sign of [x].  A float of magnitude at least 2^46 is further than
    0.01 from its neighbours and rounds to itself; below that, the
    number of hundredths is an integer a float holds exactly, and its
    quotient by 100 is the nearest float to the decimal result.  Zeros,
    infinities and NaN are returned as they are. *)
Definition float_round2 (x : float) : float :=
  match Prim2SF x with
  | S754_finite s m e =>
      let v := (inject_Z (Zpos m) * Qpower 2 e)%Q in
      if Qle_bool (inject_Z (2 ^ 46)) v then x
      else
        let r := PrimFloat.div (float_of_Z (round_half_even (inject_Z 100 * v)))
                               (float_of_Z 100) in
        if s then PrimFloat.opp r else r
  | _ => x
  end.

(** [int(x)] for a finite float; the scripts apply it to products and
    quotients of finite values. *)
Definition float_trunc (x : float) : Z :=
  match float_to_Q x with Some q => q_trunc q | None => 0 end.

#[export] Instance Binary64 : Num float := {
  of_Z := float_of_Z;
  fadd := PrimFloat.add;
  fsub := PrimFloat.sub;
  fmul := PrimFloat.mul;
  fdiv := PrimFloat.div;
  fltb := PrimFloat.ltb;
  feqb := PrimFloat.eqb;
  round2 := float_round2;
  trunc := float_trunc
}.

(** [round(x)]: the nearest integer, a half going to the even one. *)
Class Nearest (F : Type) : Type := nearest : F -> Z.

#[export] Instance ExactNearest : Nearest Qc :=
  fun x => round_half_even x.

(** For a finite float. *)
#[export] Instance Binary64Nearest : Nearest float :=
  fun x => match float_to_Q x with Some q => round_half_even q | None => 0 end.

(* ================================================================== *)
(** * Exceptions and state *)

Inductive exn : Type :=
| IndexError
| ValueError
| ZeroDivisionError
| KeyError (column : string)
| FileNotFoundError (msg : string).

Inductive result (A : Type) : Type :=
| Ok (a : A)
| Raise (e : exn).
Arguments Ok {A} a.
Arguments Raise {A} e.

(** A computation over a state [W] that returns or raises. *)
Definition M (W A : Type) : Type := W -> result A * W.

Definition ret {W A} (a : A) : M W A := fun s => (Ok a, s).
Definition raise {W A} (e : exn) : M W A := fun s => (Raise e, s).
Definition bind {W A B} (m : M W A) (k : A -> M W B) : M W B :=
  fun s => match m s with
           | (Ok a, s') => k a s'
           | (Raise e, s') => (Raise e, s')
           end.

Notation "x <- m ;; k" := (bind m (fun x => k))
  (at level 61, m at next level, right associativity).
Notation "' pat <- m ;; k" := (bind m (fun x => match x with pat => k end))
  (at level 61, pat pattern, m at next level, right associativity).

(** [for x in l: st = body x st] *)
Fixpoint foreach {W A St} (l : list A) (body : A -> St -> M W St) (st : St)
  : M W St :=
  match l with
  | [] => ret st
  | x :: l' => st' <- body x st ;; foreach l' body st'
  end.

(** [for _ in range(n): st = body st] *)
Fixpoint repeat_n {W St} (n : nat) (body : St -> M W St) (st : St) : M W St :=
  match n with
  | O => ret st
  | S n' => st' <- body st ;; repeat_n n' body st'
  end.

(* ================================================================== *)
(** * Random sources *)

(** A stream of draws and the position of the next one. *)
Record Stream : Type := { pos : nat; src : nat -> Z }.

Definition next (s : Stream) : Z * Stream :=
  (src s (pos s), {| pos := S (pos s); src := src s |}).

(** [py]: the module-level generator of [random]; [np]: NumPy's global
    generator; [fk]: the generator Faker keeps for itself. *)
Record Rand : Type := { py : Stream; np : Stream; fk : Stream }.

Definition py_draw : M Rand Z :=
  fun r => let (d, s) := next (py r) in
           (Ok d, {| py := s; np := np r; fk := fk r |}).

Definition np_draw : M Rand Z :=
  fun r => let (d, s) := next (np r) in
           (Ok d, {| py := py r; np := s; fk := fk r |}).

Definition fk_draw : M Rand Z :=
  fun r => let (d, s) := next (fk r) in
           (Ok d, {| py := py r; np := np r; fk := s |}).

(** The element a draw selects in a non-empty list. *)
Definition pick {A} (d : Z) (x : A) (l : list A) : A :=
  nth (Z.to_nat (d mod Z.of_nat (length (x :: l)))) (x :: l) x.

(** [random.random()]: a multiple of 2^-53 in [0, 1). *)
Definition random_random {F} `{Num F} : M Rand F :=
  d <- py_draw ;; ret (fdiv (of_Z (d mod 2 ^ 53)) (of_Z (2 ^ 53))).

(** [random.uniform(a, b)] is [a + (b - a) * random()]. *)
Definition random_uniform {F} `{Num F} (a b : F) : M Rand F :=
  u <- random_random ;; ret (fadd a (fmul (fsub b a) u)).

(** [random.randint(a, b)], both ends included. *)
Definition randint (a b : Z) : M Rand Z :=
  if b <? a then raise ValueError
  else d <- py_draw ;; ret (a + d mod (b - a + 1)).

(** [random.choice(seq)] *)
Definition choice {A} (l : list A) : M Rand A :=
  match l with
  | [] => raise IndexError
  | x :: l' => d <- py_draw ;; ret (pick d x l')
  end.

(** [np.random.choice(values, p=weights)] with positive weights: any of
    the values. *)
Definition np_choice {A} (l : list A) : M Rand A :=
  match l with
  | [] => raise ValueError
  | x :: l' => d <- np_draw ;; ret (pick d x l')
  end.

(** Splits a list at a position: the element there and the others. *)
Fixpoint extract {A} (i : nat) (l : list A) {struct l}
  : option (A * list A) :=
  match l with
  | [] => None
  | x :: l' =>
      match i with
      | O => Some (x, l')
      | S i' => match extract i' l' with
                | Some (y, r) => Some (y, x :: r)
                | None => None
                end
      end
  end.

(** [k] rows drawn without replacement. *)
Fixpoint sample_rows {A} (k : nat) (l : list A) : M Rand (list A) :=
  match k with
  | O => ret []
  | S k' =>
      d <- np_draw ;;
      match extract (Z.to_nat (d mod Z.of_nat (length l))) l with
      | Some (x, rest) => xs <- sample_rows k' rest ;; ret (x :: xs)
      | None => raise ValueError
      end
  end.

(** [df.sample(n=n)]: raises when [n] is negative or exceeds the number
    of rows. *)
Definition sample {A} (n : Z) (l : list A) : M Rand (list A) :=
  if (n <? 0) || (Z.of_nat (length l) <? n) then raise ValueError
  else sample_rows (Z.to_nat n) l.

(** [df.iloc[0]] *)
Definition iloc0 {W A} (l : list A) : M W A :=
  match l with
  | [] => raise IndexError
  | x :: _ => ret x
  end.

(** [df.sample(1).iloc[0]] *)
Definition sample1 {A} (l : list A) : M Rand A :=
  rows <- sample 1 l ;; iloc0 rows.

(* ================================================================== *)
(** * Dates and times *)

(** Minutes since Monday 2024-01-01 00:00. *)
Abbreviation datetime := Z (only parsing).

Definition minutes_per_day : Z := 1440.

(** [dt.date()], as a day number. *)
Definition date_of (dt : datetime) : Z := dt / minutes_per_day.

(** [dt.weekday()]: 0 is Monday, 5 and 6 are Saturday and Sunday. *)
Definition weekday (dt : datetime) : Z := date_of dt mod 7.

(** [dt + timedelta(days=n)] and [dt + timedelta(minutes=n)] *)
Definition add_days (dt : datetime) (n : Z) : datetime :=
  dt + n * minutes_per_day.
Definition add_minutes (dt : datetime) (n : Z) : datetime := dt + n.

(** [(a - b).days] *)
Definition days_between (a b : datetime) : Z := (a - b) / minutes_per_day.

(** [dt.replace(hour=h, minute=m)] *)
Definition replace_hm (dt : datetime) (h m : Z) : datetime :=
  date_of dt * minutes_per_day + 60 * h + m.

(** [dt.strftime('%A')] *)
Definition day_name (dt : datetime) : string :=
  nth (Z.to_nat (weekday dt))
      ["Monday"; "Tuesday"; "Wednesday"; "Thursday"; "Friday"; "Saturday";
       "Sunday"]%string ""%string.

(** The days [start, start + 1 day, ...] visited by
    [while current_date <= end_date: ...; current_date += timedelta(days=1)]. *)
Definition day_range (start_date end_date : datetime) : list datetime :=
  map (fun k => add_days start_date (Z.of_nat k))
      (seq 0 (Z.to_nat (days_between end_date start_date + 1))).

(** A computation that leaves Faker's generator alone. *)
Definition keeps_fk {A} (m : M Rand A) : Prop :=
  forall s a s', m s = (Ok a, s') -> fk s' = fk s.

(** A computation that returns in every state, with a result that
    satisfies [P]. *)
Definition yields {W A} (m : M W A) (P : A -> Prop) : Prop :=
  forall s, exists a s', m s = (Ok a, s') /\ P a.

(** The state with Faker's generator replaced. *)
Definition with_fk (f : Stream) (r : Rand) : Rand :=
  {| py := py r; np := np r; fk := f |}.

(** A computation that neither reads nor moves Faker's generator. *)
Definition ignores_fk {A} (m : M Rand A) : Prop :=
  forall s f, m (with_fk f s) = (fst (m s), with_fk f (snd (m s))).

(* ================================================================== *)
(** * Tables *)

Module User.
Record t : Type := {
  UserID : Z;
  Username : string;
  Email : string;
  PasswordHash : string;
  Phone : string;
  Address : string;
  CityID : Z;
  SignUpDate : datetime;
  AcquisitionChannelID : Z;
  ReferredBy : option Z;
  LastLoginDate : datetime;
  IsActive : bool;
  Preferences : string
}.
End User.

Module Restaurant.
Record t (F : Type) : Type := {
  RestaurantID : Z;
  Name : string;
  Address : string;
  CityID : Z;
  Cuisine : string;
  Rating : F;
  OperatingHours : string;
  ContactNumber : string;
  IsActive : bool;
  OpeningDate : string
}.
Arguments RestaurantID {F} _.
Arguments Name {F} _.
Arguments Address {F} _.
Arguments CityID {F} _.
Arguments Cuisine {F} _.
Arguments Rating {F} _.
Arguments OperatingHours {F} _.
Arguments ContactNumber {F} _.
Arguments IsActive {F} _.
Arguments OpeningDate {F} _.
End Restaurant.

Module Menu.
Record t (F : Type) : Type := {
  MenuID : Z;
  RestaurantID : Z;
  ItemName : string;
  Description : string;
  Price : F;
  Category : string;
  CuisineType : string;
  IsVegetarian : bool;
  IsAvailable : bool
}.
Arguments MenuID {F} _.
Arguments RestaurantID {F} _.
Arguments ItemName {F} _.
Arguments Description {F} _.
Arguments Price {F} _.
Arguments Category {F} _.
Arguments CuisineType {F} _.
Arguments IsVegetarian {F} _.
Arguments IsAvailable {F} _.
End Menu.

Inductive order_status : Type := Delivered | Cancelled.

Module Order.
Record t (F : Type) : Type := {
  OrderID : Z;
  UserID : Z;
  RestaurantID : Z;
  OrderTime : datetime;
  OrderDate : Z;
  OrderDay : string;
  OrderHour : Z;
  TotalAmount : F;
  DeliveryFee : Z;
  DiscountAmount : F;
  FinalAmount : F;
  OrderStatus : order_status;
  DeliveryAddress : string;
  PaymentMethod : string
}.
Arguments OrderID {F} _.
Arguments UserID {F} _.
Arguments RestaurantID {F} _.
Arguments OrderTime {F} _.
Arguments OrderDate {F} _.
Arguments OrderDay {F} _.
Arguments OrderHour {F} _.
Arguments TotalAmount {F} _.
Arguments DeliveryFee {F} _.
Arguments DiscountAmount {F} _.
Arguments FinalAmount {F} _.
Arguments OrderStatus {F} _.
Arguments DeliveryAddress {F} _.
Arguments PaymentMethod {F} _.
End Order.

Module OrderItem.
Record t (F : Type) : Type := {
  OrderItemID : Z;
  OrderID : Z;
  MenuID : Z;
  Quantity : Z;
  ItemPrice : F;
  Subtotal : F
}.
Arguments OrderItemID {F} _.
Arguments OrderID {F} _.
Arguments MenuID {F} _.
Arguments Quantity {F} _.
Arguments ItemPrice {F} _.
Arguments Subtotal {F} _.
End OrderItem.

Module Delivery.
Record t : Type := {
  DeliveryID : Z;
  OrderID : Z;
  DispatchTime : datetime;
  EstimatedDeliveryTime : datetime;
  ActualDeliveryTime : datetime;
  ActualDeliveryMinutes : Z;
  DeliveryPartnerID : Z;
  DeliveryStatus : string
}.
End Delivery.

Module Review.
Record t : Type := {
  ReviewID : Z;
  UserID : Z;
  RestaurantID : Z;
  OrderID : Z;
  Rating : Z;
  Comment : option string;
  ReviewDate : datetime;
  IsVerifiedPurchase : bool
}.
End Review.

(* ================================================================== *)
(** * Stage 2: orders and order items ([generate_orders]) *)

Module Stage2.

Record Config (F : Type) : Type := {
  start_date : datetime;
  end_date : datetime;
  target_total_orders : Z;
  avg_items_per_order : F;
  power_user_percentage : F;
  weekend_only_user_percentage : F;
  bot_users_count : Z
}.
Arguments start_date {F} _.
Arguments end_date {F} _.
Arguments target_total_orders {F} _.
Arguments avg_items_per_order {F} _.
Arguments power_user_percentage {F} _.
Arguments weekend_only_user_percentage {F} _.
Arguments bot_users_count {F} _.

(** The four accumulators of [generate_orders]. *)
Record GenState (F : Type) : Type := {
  orders_data : list (Order.t F);
  order_items_data : list (OrderItem.t F);
  order_id : Z;
  order_item_id : Z
}.
Arguments orders_data {F} _.
Arguments order_items_data {F} _.
Arguments order_id {F} _.
Arguments order_item_id {F} _.

Section Generator.
Context {F : Type} `{Num F}.

Definition CONFIG : Config F := {|
  start_date := 0;
  end_date := 365 * minutes_per_day;
  target_total_orders := 300000;
  avg_items_per_order := lit 15 10;
  power_user_percentage := lit 20 100;
  weekend_only_user_percentage := lit 15 100;
  bot_users_count := 50
|}.

Definition get_order_hour_with_peaks : M Rand Z :=
  rand <- random_random (F := F) ;;
  if fltb rand (lit 40 100) then randint 19 22
  else if fltb rand (lit 65 100) then randint 12 15
  else if fltb rand (lit 80 100) then randint 16 18
  else if fltb rand (lit 90 100) then randint 8 11
  else choice [23; 0; 1].

(** [df[~df['UserID'].isin(ids)]] *)
Definition not_isin (ids : list Z) (users : list User.t) : list User.t :=
  filter (fun u => negb (existsb (Z.eqb (User.UserID u)) ids)) users.

(** [menu_df[(RestaurantID == rid) & (IsAvailable == True)]] *)
Definition available_menu (menu_df : list (Menu.t F)) (rid : Z)
  : list (Menu.t F) :=
  filter (fun m => (Menu.RestaurantID m =? rid) && Menu.IsAvailable m) menu_df.

(** [users_df[users_df['UserID'] == user_id]] *)
Definition user_rows (users_df : list User.t) (user_id : Z) : list User.t :=
  filter (fun u => User.UserID u =? user_id) users_df.

(** The restaurants an order of a user of [user_city] is drawn from. *)
Definition candidate_restaurants (restaurants_df : list (Restaurant.t F))
  (user_city : Z) : list (Restaurant.t F) :=
  let city_restaurants :=
    filter (fun r => (Restaurant.CityID r =? user_city) && Restaurant.IsActive r)
           restaurants_df in
  if (length city_restaurants =? 0)%nat
  then filter (fun r => Restaurant.IsActive r) restaurants_df
  else city_restaurants.

(** One turn of [for _, item in selected_items.iterrows()]. *)
Definition add_item (oid : Z) (item : Menu.t F)
  (acc : F * list (OrderItem.t F) * Z) : M Rand (F * list (OrderItem.t F) * Z) :=
  let '(total_amount, order_items_for_order, item_id) := acc in
  quantity <- choice [1; 1; 1; 2] ;;
  let item_price := Menu.Price item in
  let subtotal := fmul item_price (of_Z quantity) in
  ret (fadd total_amount subtotal,
       order_items_for_order ++
         [{| OrderItem.OrderItemID := item_id;
             OrderItem.OrderID := oid;
             OrderItem.MenuID := Menu.MenuID item;
             OrderItem.Quantity := quantity;
             OrderItem.ItemPrice := item_price;
             OrderItem.Subtotal := subtotal |}],
       item_id + 1).

(** One turn of [for _ in range(daily_orders)]; [pool] is the cohort list
    the user is chosen from on that day. *)
Definition order_iteration (users_df : list User.t)
  (restaurants_df : list (Restaurant.t F)) (menu_df : list (Menu.t F))
  (pool : list Z) (current_date : datetime) (st : GenState F)
  : M Rand (GenState F) :=
  user_id <- choice pool ;;
  user <- iloc0 (user_rows users_df user_id) ;;
  let user_city := User.CityID user in
  restaurant <- sample1 (candidate_restaurants restaurants_df user_city) ;;
  order_hour <- get_order_hour_with_peaks ;;
  order_minute <- randint 0 59 ;;
  let order_time := replace_hm current_date order_hour order_minute in
  let restaurant_menu :=
    available_menu menu_df (Restaurant.RestaurantID restaurant) in
  if (length restaurant_menu =? 0)%nat then ret st
  else
    num_items <- np_choice [1; 2; 3; 4] ;;
    selected_items <-
      sample (Z.min num_items (Z.of_nat (length restaurant_menu)))
             restaurant_menu ;;
    '(total_amount, order_items_for_order, item_id) <-
      foreach selected_items (add_item (order_id st))
              (of_Z 0, [], order_item_id st) ;;
    delivery_fee <- choice [0; 0; 30; 40; 50; 60] ;;
    discount_amount <-
      (if fltb (of_Z 500) total_amount
       then r <- choice [of_Z 0; of_Z 0; lit 10 100; lit 15 100] ;;
            ret (round2 (fmul total_amount r))
       else ret (of_Z 0)) ;;
    let final_amount :=
      fsub (fadd total_amount (of_Z delivery_fee)) discount_amount in
    status <- choice (repeat Delivered 90 ++ repeat Cancelled 10) ;;
    address_row <- iloc0 (user_rows users_df user_id) ;;
    payment <- choice ["Credit Card"; "Debit Card"; "UPI"; "UPI"; "UPI";
                       "Cash on Delivery"]%string ;;
    ret {| orders_data := orders_data st ++
             [{| Order.OrderID := order_id st;
                 Order.UserID := user_id;
                 Order.RestaurantID := Restaurant.RestaurantID restaurant;
                 Order.OrderTime := order_time;
                 Order.OrderDate := date_of current_date;
                 Order.OrderDay := day_name current_date;
                 Order.OrderHour := order_hour;
                 Order.TotalAmount := round2 total_amount;
                 Order.DeliveryFee := delivery_fee;
                 Order.DiscountAmount := discount_amount;
                 Order.FinalAmount := round2 final_amount;
                 Order.OrderStatus := status;
                 Order.DeliveryAddress := User.Address address_row;
                 Order.PaymentMethod := payment |}];
           order_items_data := order_items_data st ++ order_items_for_order;
           order_id := order_id st + 1;
           order_item_id := item_id |}.

(** [daily_orders] for a day: the target spread over 365 days, the 3%
    growth per 30 days and the weekend factor 1.4. *)
Definition daily_orders (config : Config F) (current_date : datetime) : Z :=
  let days_passed := days_between current_date (start_date config) in
  let month_factor :=
    fadd (of_Z 1) (fmul (fdiv (of_Z days_passed) (of_Z 30)) (lit 3 100)) in
  let base_daily_orders :=
    fdiv (of_Z (target_total_orders config)) (of_Z 365) in
  if 5 <=? weekday current_date
  then trunc (fmul (fmul base_daily_orders (lit 14 10)) month_factor)
  else trunc (fmul base_daily_orders month_factor).

(** The body of [while current_date <= config['end_date']]. *)
Definition day_iteration (users_df : list User.t)
  (restaurants_df : list (Restaurant.t F)) (menu_df : list (Menu.t F))
  (config : Config F) (power_users weekend_users regular_users : list Z)
  (current_date : datetime) (st : GenState F) : M Rand (GenState F) :=
  let pool :=
    if 5 <=? weekday current_date
    then power_users ++ weekend_users ++ regular_users
    else power_users ++ regular_users in
  repeat_n (Z.to_nat (daily_orders config current_date))
           (order_iteration users_df restaurants_df menu_df pool current_date)
           st.

(** One turn of the inner loop of the bot pass. *)
Definition bot_iteration (users_df : list User.t)
  (restaurants_df : list (Restaurant.t F)) (menu_df : list (Menu.t F))
  (bot_user : Z) (bot_date : datetime) (st : GenState F)
  : M Rand (GenState F) :=
  restaurant <- sample1 restaurants_df ;;
  let restaurant_menu :=
    available_menu menu_df (Restaurant.RestaurantID restaurant) in
  if (length restaurant_menu =? 0)%nat then ret st
  else
    item <- sample1 restaurant_menu ;;
    order_hour <- randint 0 23 ;;
    order_minute <- randint 0 59 ;;
    let order_time := replace_hm bot_date order_hour order_minute in
    let total_amount := Menu.Price item in
    address_row <- iloc0 (user_rows users_df bot_user) ;;
    ret {| orders_data := orders_data st ++
             [{| Order.OrderID := order_id st;
                 Order.UserID := bot_user;
                 Order.RestaurantID := Restaurant.RestaurantID restaurant;
                 Order.OrderTime := order_time;
                 Order.OrderDate := date_of bot_date;
                 Order.OrderDay := day_name bot_date;
                 Order.OrderHour := order_hour;
                 Order.TotalAmount := total_amount;
                 Order.DeliveryFee := 0;
                 Order.DiscountAmount := of_Z 0;
                 Order.FinalAmount := total_amount;
                 Order.OrderStatus := Delivered;
                 Order.DeliveryAddress := User.Address address_row;
                 Order.PaymentMethod := "UPI"%string |}];
           order_items_data := order_items_data st ++
             [{| OrderItem.OrderItemID := order_item_id st;
                 OrderItem.OrderID := order_id st;
                 OrderItem.MenuID := Menu.MenuID item;
                 OrderItem.Quantity := 1;
                 OrderItem.ItemPrice := Menu.Price item;
                 OrderItem.Subtotal := Menu.Price item |}];
           order_id := order_id st + 1;
           order_item_id := order_item_id st + 1 |}.

(** The body of [for bot_user in bot_users[:25]]. *)
Definition bot_burst (users_df : list User.t)
  (restaurants_df : list (Restaurant.t F)) (menu_df : list (Menu.t F))
  (config : Config F) (bot_user : Z) (st : GenState F) : M Rand (GenState F) :=
  d <- randint 0 300 ;;
  let bot_date := add_days (start_date config) d in
  n <- randint 50 100 ;;
  repeat_n (Z.to_nat n)
           (bot_iteration users_df restaurants_df menu_df bot_user bot_date) st.

(** The cohorts: power, weekend-only, bot and regular users. *)
Definition segment_users (users_df : list User.t) (config : Config F)
  : M Rand (list Z * list Z * list Z * list Z) :=
  let total_users := Z.of_nat (length users_df) in
  let num_power_users :=
    trunc (fmul (of_Z total_users) (power_user_percentage config)) in
  let num_weekend_users :=
    trunc (fmul (of_Z total_users) (weekend_only_user_percentage config)) in
  let num_bot_users := bot_users_count config in
  power_rows <- sample num_power_users users_df ;;
  let power_users := map User.UserID power_rows in
  weekend_rows <- sample num_weekend_users (not_isin power_users users_df) ;;
  let weekend_users := map User.UserID weekend_rows in
  bot_rows <-
    sample num_bot_users (not_isin (power_users ++ weekend_users) users_df) ;;
  let bot_users := map User.UserID bot_rows in
  let regular_users :=
    map User.UserID
        (not_isin (power_users ++ weekend_users ++ bot_users) users_df) in
  ret (power_users, weekend_users, bot_users, regular_users).

Definition initial_state : GenState F :=
  {| orders_data := []; order_items_data := []; order_id := 1;
     order_item_id := 1 |}.

(** The daily loop over the configured date range. *)
Definition daily_loop (users_df : list User.t)
  (restaurants_df : list (Restaurant.t F)) (menu_df : list (Menu.t F))
  (config : Config F) (power_users weekend_users regular_users : list Z)
  (st : GenState F) : M Rand (GenState F) :=
  foreach (day_range (start_date config) (end_date config))
          (day_iteration users_df restaurants_df menu_df config
                         power_users weekend_users regular_users) st.

(** The bot pass over the first 25 bot users. *)
Definition bot_pass (users_df : list User.t)
  (restaurants_df : list (Restaurant.t F)) (menu_df : list (Menu.t F))
  (config : Config F) (bot_users : list Z) (st : GenState F)
  : M Rand (GenState F) :=
  foreach (firstn 25 bot_users)
          (bot_burst users_df restaurants_df menu_df config) st.

Definition generate_orders (users_df : list User.t)
  (restaurants_df : list (Restaurant.t F)) (menu_df : list (Menu.t F))
  (config : Config F) : M Rand (list (Order.t F) * list (OrderItem.t F)) :=
  '(power_users, weekend_users, bot_users, regular_users) <-
    segment_users users_df config ;;
  st <- daily_loop users_df restaurants_df menu_df config
                   power_users weekend_users regular_users initial_state ;;
  st' <- bot_pass users_df restaurants_df menu_df config bot_users st ;;
  ret (orders_data st', order_items_data st').

(** [generate_delivery_tracking] *)
Definition track_order (order : Order.t F) (delivery_data : list Delivery.t)
  : M Rand (list Delivery.t) :=
  match Order.OrderStatus order with
  | Cancelled => ret delivery_data
  | Delivered =>
      dispatch_delay <- randint 5 15 ;;
      let dispatch_time := add_minutes (Order.OrderTime order) dispatch_delay in
      estimated_minutes <- randint 20 40 ;;
      let estimated_delivery := add_minutes dispatch_time estimated_minutes in
      actual_variation <- randint (-10) 15 ;;
      let actual_minutes := estimated_minutes + actual_variation in
      let actual_delivery := add_minutes dispatch_time actual_minutes in
      outlier <- random_random (F := F) ;;
      '(actual_minutes, actual_delivery) <-
        (if fltb outlier (lit 5 100)
         then m <- randint 60 120 ;; ret (m, add_minutes dispatch_time m)
         else ret (actual_minutes, actual_delivery)) ;;
      partner <- randint 1 1000 ;;
      ret (delivery_data ++
             [{| Delivery.DeliveryID := Order.OrderID order;
                 Delivery.OrderID := Order.OrderID order;
                 Delivery.DispatchTime := dispatch_time;
                 Delivery.EstimatedDeliveryTime := estimated_delivery;
                 Delivery.ActualDeliveryTime := actual_delivery;
                 Delivery.ActualDeliveryMinutes := actual_minutes;
                 Delivery.DeliveryPartnerID := partner;
                 Delivery.DeliveryStatus := "Delivered"%string |}])
  end.

Definition generate_delivery_tracking (orders_df : list (Order.t F))
  : M Rand (list Delivery.t) :=
  foreach orders_df track_order [].

(** ** Reviews *)

Context `{Nearest F}.

(** [df.sample(frac=frac)]: [round(frac * len(df))] rows drawn without
    replacement.  A fraction below 0 or above 1 is refused with
    ValueError, and so is one that is not a number, which [round] does
    not take. *)
Definition sample_frac {A} (frac : F) (l : list A) : M Rand (list A) :=
  let fleb a b := fltb a b || feqb a b in
  if fleb (of_Z 0) frac && fleb frac (of_Z 1)
  then sample (nearest (fmul frac (of_Z (Z.of_nat (length l))))) l
  else raise ValueError.

Definition comments : list string :=
  ["Great food and quick delivery!";
   "Loved the taste, will order again.";
   "Food was cold when it arrived.";
   "Excellent service and quality.";
   "Not up to the mark, expected better.";
   "Amazing experience!";
   "Decent food, nothing special.";
   "Highly recommended!";
   "Won't order again.";
   "Best restaurant in the area!"]%string.

(** One turn of [for _, order in reviewed_orders.iterrows()]; the
    accumulator is the review list and the next [review_id]. *)
Definition add_review (order : Order.t F) (acc : list Review.t * Z)
  : M Rand (list Review.t * Z) :=
  let '(reviews_data, review_id) := acc in
  rating <- np_choice [1; 2; 3; 4; 5] ;;
  days <- randint 0 7 ;;
  let review_date := add_days (Order.OrderTime order) days in
  commented <- random_random (F := F) ;;
  comment <-
    (if fltb commented (lit 7 10)
     then c <- choice comments ;; ret (Some c)
     else ret None) ;;
  ret (reviews_data ++
         [{| Review.ReviewID := review_id;
             Review.UserID := Order.UserID order;
             Review.RestaurantID := Order.RestaurantID order;
             Review.OrderID := Order.OrderID order;
             Review.Rating := rating;
             Review.Comment := comment;
             Review.ReviewDate := review_date;
             Review.IsVerifiedPurchase := true |}],
       review_id + 1).

(** [orders_df[orders_df['OrderStatus'] == 'Delivered']] *)
Definition delivered_orders (orders_df : list (Order.t F)) : list (Order.t F) :=
  filter (fun o => match Order.OrderStatus o with
                   | Delivered => true
                   | Cancelled => false
                   end) orders_df.

(** The order table is the [pd.DataFrame(orders_data)] of
    [generate_orders]: built from no row it has no column, and selecting
    on [OrderStatus] raises.  [users_df] and [restaurants_df] are not
    used. *)
Definition generate_reviews (orders_df : list (Order.t F))
  (users_df : list User.t) (restaurants_df : list (Restaurant.t F))
  (review_rate : F) : M Rand (list Review.t) :=
  match orders_df with
  | [] => raise (KeyError "OrderStatus")
  | _ :: _ =>
      reviewed_orders <- sample_frac review_rate (delivered_orders orders_df) ;;
      acc <- foreach reviewed_orders add_review ([], 1) ;;
      ret (fst acc)
  end.

End Generator.
End Stage2.

(* ================================================================== *)
(** * Stage 1: reference and identity tables *)

Module City.
Record t : Type := { CityID : Z; CityName : string; State : string }.
End City.

Module Channel.
Record t : Type := { ChannelID : Z; ChannelName : string; Description : string }.
End Channel.

Module Referral.
Record t : Type := {
  ReferralID : Z;
  ReferrerUserID : Z;
  ReferredUserID : Z;
  ReferralDate : datetime;
  RewardAmount : Z;
  RewardStatus : string
}.
End Referral.

(** The fake-value provider.  Its values are opaque: each call reads the
    provider's own generator, and [date_between] with relative bounds
    also reads today's date. *)
Record Faker : Type := {
  user_name : Z -> string;
  email : Z -> string;
  sha256 : Z -> string;
  phone_number : Z -> string;
  address : Z -> string;
  sentence : Z -> string;
  date_between : Z -> Z -> string
}.

Module Stage1.

Record Config : Type := {
  start_date : datetime;
  end_date : datetime;
  num_users : Z;
  num_restaurants : Z;
  num_cities : Z;
  avg_menu_items_per_restaurant : Z;
  target_total_orders : Z
}.

Definition CONFIG : Config := {|
  start_date := 0;
  end_date := 365 * minutes_per_day;
  num_users := 10000;
  num_restaurants := 500;
  num_cities := 50;
  avg_menu_items_per_restaurant := 30;
  target_total_orders := 300000
|}.

(** [enumerate(l, 1)] *)
Definition enumerate1 {A} (l : list A) : list (Z * A) :=
  combine (map (fun k => Z.of_nat k) (seq 1 (length l))) l.

(** [l[:n]] for the list slices of this stage. *)
Definition slice_to {A} (n : Z) (l : list A) : list A :=
  if n <? 0 then firstn (length l - Z.to_nat (- n)) l
  else firstn (Z.to_nat n) l.

Definition indian_cities : list (string * string) :=
  [("Mumbai", "Maharashtra"); ("Delhi", "Delhi"); ("Bangalore", "Karnataka");
   ("Hyderabad", "Telangana"); ("Chennai", "Tamil Nadu");
   ("Kolkata", "West Bengal"); ("Pune", "Maharashtra");
   ("Ahmedabad", "Gujarat"); ("Jaipur", "Rajasthan"); ("Surat", "Gujarat");
   ("Lucknow", "Uttar Pradesh"); ("Kanpur", "Uttar Pradesh");
   ("Nagpur", "Maharashtra"); ("Indore", "Madhya Pradesh");
   ("Thane", "Maharashtra"); ("Bhopal", "Madhya Pradesh");
   ("Visakhapatnam", "Andhra Pradesh"); ("Pimpri-Chinchwad", "Maharashtra");
   ("Patna", "Bihar"); ("Vadodara", "Gujarat"); ("Ghaziabad", "Uttar Pradesh");
   ("Ludhiana", "Punjab"); ("Agra", "Uttar Pradesh"); ("Nashik", "Maharashtra");
   ("Faridabad", "Haryana"); ("Meerut", "Uttar Pradesh"); ("Rajkot", "Gujarat");
   ("Kalyan-Dombivali", "Maharashtra"); ("Vasai-Virar", "Maharashtra");
   ("Varanasi", "Uttar Pradesh"); ("Srinagar", "Jammu and Kashmir");
   ("Aurangabad", "Maharashtra"); ("Dhanbad", "Jharkhand");
   ("Amritsar", "Punjab"); ("Navi Mumbai", "Maharashtra");
   ("Allahabad", "Uttar Pradesh"); ("Ranchi", "Jharkhand");
   ("Howrah", "West Bengal"); ("Coimbatore", "Tamil Nadu");
   ("Jabalpur", "Madhya Pradesh"); ("Gwalior", "Madhya Pradesh");
   ("Vijayawada", "Andhra Pradesh"); ("Jodhpur", "Rajasthan");
   ("Madurai", "Tamil Nadu"); ("Raipur", "Chhattisgarh"); ("Kota", "Rajasthan");
   ("Chandigarh", "Chandigarh"); ("Guwahati", "Assam");
   ("Solapur", "Maharashtra"); ("Hubli-Dharwad", "Karnataka")]%string.

Definition generate_cities (num_cities : Z) : list City.t :=
  map (fun '(i, (city, state)) =>
         {| City.CityID := i; City.CityName := city; City.State := state |})
      (enumerate1 (slice_to num_cities indian_cities)).

Definition channels : list (string * string) :=
  [("Organic Search", "Users from search engines");
   ("Google Ads", "Google advertising");
   ("Facebook Ads", "Facebook advertising");
   ("Instagram Ads", "Instagram advertising");
   ("Referral Program", "User referrals");
   ("App Store Featured", "App store featuring");
   ("Email Marketing", "Email campaigns");
   ("Influencer Marketing", "Influencer promotions");
   ("Direct", "Direct visits");
   ("YouTube Ads", "YouTube advertising")]%string.

Definition generate_acquisition_channels : list Channel.t :=
  map (fun '(i, (name, desc)) =>
         {| Channel.ChannelID := i; Channel.ChannelName := name;
            Channel.Description := desc |})
      (enumerate1 channels).

(** [s.replace('\n', ', ')] *)
Fixpoint replace_newlines (s : string) : string :=
  match s with
  | EmptyString => EmptyString
  | String c s' =>
      if Ascii.eqb c (Ascii.ascii_of_nat 10)
      then String ","%char (String " "%char (replace_newlines s'))
      else String c (replace_newlines s')
  end.

(** [json.dumps({'dietary': v})] *)
Definition dietary_json (v : string) : string :=
  let q := String (Ascii.ascii_of_nat 34) EmptyString in
  ("{" ++ q ++ "dietary" ++ q ++ ": " ++ q ++ v ++ q ++ "}")%string.

(** [str(i)] for an integer. *)
Definition str_of_Z (i : Z) : string :=
  DecimalString.NilZero.string_of_int (Z.to_int i).

Section Generator.
Context {F : Type} `{Num F}.
Variable fake : Faker.
(** The day on which the script runs. *)
Variable today : Z.

Definition fake_user_name : M Rand string := d <- fk_draw ;; ret (user_name fake d).
Definition fake_email : M Rand string := d <- fk_draw ;; ret (email fake d).
Definition fake_sha256 : M Rand string := d <- fk_draw ;; ret (sha256 fake d).
Definition fake_phone_number : M Rand string :=
  d <- fk_draw ;; ret (phone_number fake d).
Definition fake_address : M Rand string := d <- fk_draw ;; ret (address fake d).
Definition fake_sentence : M Rand string := d <- fk_draw ;; ret (sentence fake d).
Definition fake_date_between : M Rand string :=
  d <- fk_draw ;; ret (date_between fake today d).

Definition generate_realistic_price (category : string) : M Rand F :=
  let '(min_price, max_price) :=
    if String.eqb category "Appetizer" then (50, 250)
    else if String.eqb category "Main Course" then (150, 600)
    else if String.eqb category "Dessert" then (80, 200)
    else if String.eqb category "Beverage" then (30, 150)
    else if String.eqb category "Bread" then (20, 80)
    else if String.eqb category "Salad" then (100, 250)
    else if String.eqb category "Soup" then (80, 180)
    else (100, 400) in
  u <- random_uniform (of_Z min_price) (of_Z max_price) ;;
  ret (round2 u).

(** [sorted(dates)] *)
Fixpoint insert_sorted (x : datetime) (l : list datetime) : list datetime :=
  match l with
  | [] => [x]
  | y :: l' => if x <=? y then x :: l else y :: insert_sorted x l'
  end.

Definition sorted (l : list datetime) : list datetime :=
  fold_right insert_sorted [] l.

(** One turn of the loop of [generate_dates_with_patterns]: a date on a
    Saturday or Sunday is appended a second time with probability 0.4. *)
Definition add_event (start : datetime) (days_diff : Z)
  (dates : list datetime) : M Rand (list datetime) :=
  random_days <- randint 0 days_diff ;;
  let date := add_days start random_days in
  dates <-
    (if 5 <=? weekday date
     then r <- random_random (F := F) ;;
          ret (if fltb r (lit 4 10) then dates ++ [date] else dates)
     else ret dates) ;;
  ret (dates ++ [date]).

Definition generate_dates_with_patterns (start end_ : datetime)
  (num_events : Z) : M Rand (list datetime) :=
  let days_diff := days_between end_ start in
  dates <- repeat_n (Z.to_nat num_events) (add_event start days_diff) [] ;;
  ret (slice_to num_events (sorted dates)).

(** The signup schedule: one turn of [while current_date <= end_date]. *)
Definition schedule_day (start_date : datetime) (base_signups_per_day : Z)
  (current_date : datetime) (signup_dates : list datetime)
  : M Rand (list datetime) :=
  let months_passed := days_between current_date start_date / 30 in
  let growth_factor :=
    fadd (of_Z 1) (fmul (of_Z months_passed) (lit 3 100)) in
  u <- random_uniform (lit 7 10) (lit 13 10) ;;
  let daily_signups :=
    trunc (fmul (fmul (of_Z base_signups_per_day) growth_factor) u) in
  ret (signup_dates ++ repeat current_date (Z.to_nat daily_signups)).

Definition channel_weights : list F :=
  [lit 30 100; lit 15 100; lit 12 100; lit 10 100; lit 15 100; lit 5 100;
   lit 5 100; lit 3 100; lit 3 100; lit 2 100].

(** One turn of [for i in range(1, num_users + 1)]. *)
Definition add_user (cities_df : list City.t) (channels_df : list Channel.t)
  (start_date : datetime) (signup_dates : list datetime) (i : Z)
  (users_data : list User.t) : M Rand (list User.t) :=
  city <- sample1 cities_df ;;
  channel_id <-
    (if (length channels_df =? length channel_weights)%nat
     then np_choice (map Channel.ChannelID channels_df)
     else raise ValueError) ;;
  signup_date <-
    match nth_error signup_dates (Z.to_nat (i - 1)) with
    | Some d => ret d
    | None => n <- randint 0 364 ;; ret (add_days start_date n)
    end ;;
  username <- fake_user_name ;;
  mail <- fake_email ;;
  password_hash <- fake_sha256 ;;
  phone <- fake_phone_number ;;
  addr <- fake_address ;;
  login_offset <- randint 0 30 ;;
  is_active <- choice (repeat true 95 ++ repeat false 5) ;;
  dietary <- choice ["None"; "Vegetarian"; "Vegan"; "Jain"]%string ;;
  ret (users_data ++
         [{| User.UserID := i;
             User.Username := username;
             User.Email := mail;
             User.PasswordHash := password_hash;
             User.Phone := phone;
             User.Address := replace_newlines addr;
             User.CityID := City.CityID city;
             User.SignUpDate := signup_date;
             User.AcquisitionChannelID := channel_id;
             User.ReferredBy := None;
             User.LastLoginDate := add_days signup_date login_offset;
             User.IsActive := is_active;
             User.Preferences := dietary_json dietary |}]).

Definition generate_users (num_users : Z) (cities_df : list City.t)
  (channels_df : list Channel.t) (start_date end_date : datetime)
  : M Rand (list User.t) :=
  let base_signups_per_day := num_users / 365 in
  signup_dates <-
    foreach (day_range start_date end_date)
            (schedule_day start_date base_signups_per_day) [] ;;
  let signup_dates := slice_to num_users signup_dates in
  foreach (map Z.of_nat (seq 1 (Z.to_nat num_users)))
          (add_user cities_df channels_df start_date signup_dates) [].

(** [users_df.at[idx, 'ReferredBy'] = v] *)
Fixpoint set_referred_by (idx : nat) (v : Z) (users_df : list User.t)
  {struct users_df} : list User.t :=
  match users_df with
  | [] => []
  | u :: rest =>
      match idx with
      | O => {| User.UserID := User.UserID u;
                User.Username := User.Username u;
                User.Email := User.Email u;
                User.PasswordHash := User.PasswordHash u;
                User.Phone := User.Phone u;
                User.Address := User.Address u;
                User.CityID := User.CityID u;
                User.SignUpDate := User.SignUpDate u;
                User.AcquisitionChannelID := User.AcquisitionChannelID u;
                User.ReferredBy := Some v;
                User.LastLoginDate := User.LastLoginDate u;
                User.IsActive := User.IsActive u;
                User.Preferences := User.Preferences u |} :: rest
      | S idx' => u :: set_referred_by idx' v rest
      end
  end.

(** [users_df[(SignUpDate < user.SignUpDate) & (UserID != user.UserID)]] *)
Definition potential_referrers (users_df : list User.t) (user : User.t)
  : list User.t :=
  filter (fun r => (User.SignUpDate r <? User.SignUpDate user)
                   && negb (User.UserID r =? User.UserID user)) users_df.

(** The rows with [AcquisitionChannelID == 5], with their index. *)
Definition users_with_channel_5 (users_df : list User.t) : list (nat * User.t) :=
  filter (fun p => User.AcquisitionChannelID (snd p) =? 5)
         (combine (seq 0 (length users_df)) users_df).

(** One turn of [for idx, user in users_with_channel_5.iterrows()]. *)
Definition refer (p : nat * User.t)
  (acc : list User.t * list Referral.t) : M Rand (list User.t * list Referral.t) :=
  let '(idx, user) := p in
  let '(users_df, referrals_data) := acc in
  let candidates := potential_referrers users_df user in
  if (0 <? length candidates)%nat then
    referrer <- sample1 candidates ;;
    let users_df := set_referred_by idx (User.UserID referrer) users_df in
    reward <- choice [50; 75; 100] ;;
    status <- choice ["Paid"; "Paid"; "Paid"; "Pending"]%string ;;
    ret (users_df,
         referrals_data ++
           [{| Referral.ReferralID := Z.of_nat (length referrals_data) + 1;
               Referral.ReferrerUserID := User.UserID referrer;
               Referral.ReferredUserID := User.UserID user;
               Referral.ReferralDate := User.SignUpDate user;
               Referral.RewardAmount := reward;
               Referral.RewardStatus := status |}])
  else ret acc.

(** The users table is [pd.DataFrame(users_data)]: built from no row it
    has no column, and selecting the channel column raises. *)
Definition add_referrals (users_df : list User.t)
  : M Rand (list User.t * list Referral.t) :=
  match users_df with
  | [] => raise (KeyError "AcquisitionChannelID")
  | _ :: _ => foreach (users_with_channel_5 users_df) refer (users_df, [])
  end.

Definition cuisines : list string :=
  ["North Indian"; "South Indian"; "Chinese"; "Italian"; "Continental";
   "Fast Food"; "Desserts"; "Beverages"; "Bakery"; "Street Food";
   "Mughlai"; "Bengali"; "Punjabi"; "Gujarati"; "Rajasthani"]%string.

Definition restaurant_names : list string :=
  ["The Great Kabab Factory"; "Barbeque Nation"; "Mainland China";
   "Paradise Biryani"; "Dominos Pizza"; "Pizza Hut"; "KFC"; "McDonalds";
   "Subway"; "Burger King"; "Cafe Coffee Day"; "Starbucks"; "The Beer Cafe";
   "Social"; "The Brew House"; "Haldirams"; "Bikanervala"; "Sagar Ratna";
   "Saravana Bhavan"; "MTR"; "Kareem's"; "Moti Mahal"; "Punjab Grill";
   "Oh! Calcutta"; "Arsalan"; "Empire Restaurant"; "Meghana Foods";
   "Truffles"; "Toit"; "Smoke House Deli"]%string.

Definition metro_cities : list string :=
  ["Mumbai"; "Delhi"; "Bangalore"; "Hyderabad"; "Chennai"]%string.

(** [city['CityName'] in ['Mumbai', 'Delhi', ...]] *)
Definition is_metro (city : City.t) : bool :=
  existsb (String.eqb (City.CityName city)) metro_cities.

Definition rating_bias (city : City.t) : F :=
  if is_metro city then lit 3 10 else of_Z 0.

(** One turn of [for i in range(1, num_restaurants + 1)]. *)
Definition add_restaurant (cities_df : list City.t) (i : Z)
  (restaurants_data : list (Restaurant.t F)) : M Rand (list (Restaurant.t F)) :=
  city <- sample1 cities_df ;;
  cuisine <- choice cuisines ;;
  name <- choice restaurant_names ;;
  addr <- fake_address ;;
  u <- random_uniform (lit 30 10) (lit 50 10) ;;
  contact <- fake_phone_number ;;
  is_active <- choice (repeat true 95 ++ repeat false 5) ;;
  opening <- fake_date_between ;;
  ret (restaurants_data ++
         [{| Restaurant.RestaurantID := i;
             Restaurant.Name :=
               (name ++ " - " ++ City.CityName city ++ " " ++ str_of_Z i)%string;
             Restaurant.Address := replace_newlines addr;
             Restaurant.CityID := City.CityID city;
             Restaurant.Cuisine := cuisine;
             Restaurant.Rating := round2 (fadd u (rating_bias city));
             Restaurant.OperatingHours := "10:00 AM - 11:00 PM"%string;
             Restaurant.ContactNumber := contact;
             Restaurant.IsActive := is_active;
             Restaurant.OpeningDate := opening |}]).

Definition generate_restaurants (num_restaurants : Z) (cities_df : list City.t)
  : M Rand (list (Restaurant.t F)) :=
  foreach (map Z.of_nat (seq 1 (Z.to_nat num_restaurants)))
          (add_restaurant cities_df) [].

Definition categories : list string :=
  ["Appetizer"; "Main Course"; "Dessert"; "Beverage"; "Bread"; "Salad";
   "Soup"]%string.

(** [menu_items_by_cuisine.get(cuisine, ['Special Dish', ...])] *)
Definition base_items_of (cuisine : string) : list string :=
  (if String.eqb cuisine "North Indian"
   then ["Paneer Tikka"; "Butter Chicken"; "Dal Makhani"; "Naan"; "Biryani";
         "Tandoori Chicken"]
   else if String.eqb cuisine "South Indian"
   then ["Dosa"; "Idli"; "Vada"; "Uttapam"; "Sambar"; "Coconut Chutney"]
   else if String.eqb cuisine "Chinese"
   then ["Fried Rice"; "Chowmein"; "Manchurian"; "Spring Rolls"; "Soup";
         "Hakka Noodles"]
   else if String.eqb cuisine "Italian"
   then ["Pizza Margherita"; "Pasta Alfredo"; "Lasagna"; "Garlic Bread";
         "Bruschetta"; "Tiramisu"]
   else if String.eqb cuisine "Fast Food"
   then ["Burger"; "French Fries"; "Pizza"; "Sandwich"; "Wrap"; "Nuggets"]
   else if String.eqb cuisine "Desserts"
   then ["Ice Cream"; "Cake"; "Brownie"; "Pastry"; "Gulab Jamun"; "Rasmalai"]
   else ["Special Dish"; "House Special"; "Chef Special"])%string.

(** [s.strip()] for the item names built here: spaces at both ends. *)
Fixpoint lstrip (s : string) : string :=
  match s with
  | String c s' => if Ascii.eqb c " "%char then lstrip s' else s
  | EmptyString => EmptyString
  end.

Fixpoint rstrip (s : string) : string :=
  match s with
  | EmptyString => EmptyString
  | String c s' =>
      match rstrip s' with
      | EmptyString => if Ascii.eqb c " "%char then EmptyString
                       else String c EmptyString
      | r => String c r
      end
  end.

Definition strip (s : string) : string := rstrip (lstrip s).

(** One turn of [for i in range(num_items)]; the accumulator is the menu
    built so far and the next [menu_id]. *)
Definition add_menu_item (restaurant : Restaurant.t F)
  (acc : list (Menu.t F) * Z) : M Rand (list (Menu.t F) * Z) :=
  let '(menu_data, menu_id) := acc in
  let cuisine := Restaurant.Cuisine restaurant in
  category <- choice categories ;;
  base <- choice (base_items_of cuisine) ;;
  suffix <- choice ["Deluxe"; "Special"; "Classic"; "Royal"; ""]%string ;;
  let item_name := (base ++ " " ++ suffix)%string in
  description <- fake_sentence ;;
  price <- generate_realistic_price category ;;
  is_vegetarian <- choice [true; false] ;;
  is_available <- choice (repeat true 90 ++ repeat false 10) ;;
  ret (menu_data ++
         [{| Menu.MenuID := menu_id;
             Menu.RestaurantID := Restaurant.RestaurantID restaurant;
             Menu.ItemName := strip item_name;
             Menu.Description := description;
             Menu.Price := price;
             Menu.Category := category;
             Menu.CuisineType := cuisine;
             Menu.IsVegetarian := is_vegetarian;
             Menu.IsAvailable := is_available |}],
       menu_id + 1).

(** One turn of [for _, restaurant in restaurants_df.iterrows()]. *)
Definition add_restaurant_menu (restaurant : Restaurant.t F)
  (acc : list (Menu.t F) * Z) : M Rand (list (Menu.t F) * Z) :=
  num_items <- randint 20 40 ;;
  repeat_n (Z.to_nat num_items) (add_menu_item restaurant) acc.

Definition generate_menu (restaurants_df : list (Restaurant.t F))
  : M Rand (list (Menu.t F)) :=
  acc <- foreach restaurants_df add_restaurant_menu ([], 1) ;;
  ret (fst acc).

(** The six tables the script writes, in that order: cities, channels,
    users, referrals, restaurants and menu. *)
Record Tables : Type := {
  cities_csv : list City.t;
  acquisition_channels_csv : list Channel.t;
  users_csv : list User.t;
  referrals_csv : list Referral.t;
  restaurants_csv : list (Restaurant.t F);
  menu_csv : list (Menu.t F)
}.

(** The script body after [random.seed(42)] and [np.random.seed(42)]. *)
Definition generate_all (config : Config) : M Rand Tables :=
  let cities_df := generate_cities (num_cities config) in
  let channels_df := generate_acquisition_channels in
  users_df <- generate_users (num_users config) cities_df channels_df
                             (start_date config) (end_date config) ;;
  '(users_df, referrals_df) <- add_referrals users_df ;;
  restaurants_df <- generate_restaurants (num_restaurants config) cities_df ;;
  menu_df <- generate_menu restaurants_df ;;
  ret {| cities_csv := cities_df;
         acquisition_channels_csv := channels_df;
         users_csv := users_df;
         referrals_csv := referrals_df;
         restaurants_csv := restaurants_df;
         menu_csv := menu_df |}.

(** A run of the script.  [random.seed(42)] and [np.random.seed(42)] fix
    the two seeded generators ([py_seed] and [np_seed] are the generators'
    seeding functions).  [fake = Faker('en_IN')] is created without a
    seed: its generator starts from the state [fk0] the process happens
    to give it. *)
Definition run (py_seed np_seed : Z -> Stream) (fk0 : Stream)
  (config : Config) : result Tables :=
  fst (generate_all config {| py := py_seed 42; np := np_seed 42; fk := fk0 |}).

End Generator.
Arguments Tables F : clear implicits.
End Stage1.

(* ================================================================== *)
(** * Stage 3: sessions and carts *)

Module Session.
Record t : Type := {
  SessionID : Z;
  UserID : Z;
  SessionStart : datetime;
  SessionEnd : datetime;
  OrderPlaced : bool;
  OrderID : option Z;
  PagesViewed : Z;
  DeviceType : string
}.
End Session.

Module Cart.
Record t : Type := {
  CartID : Z;
  UserID : Z;
  RestaurantID : Z;
  MenuID : Z;
  Quantity : Z;
  AddedAt : datetime;
  IsOrdered : bool;
  OrderID : option Z
}.
End Cart.

(** The content of a table file. *)
Inductive File (F : Type) : Type :=
| UsersFile (rows : list User.t)
| RestaurantsFile (rows : list (Restaurant.t F))
| MenuFile (rows : list (Menu.t F))
| OrdersFile (rows : list (Order.t F))
| OrderItemsFile (rows : list (OrderItem.t F))
| SessionsFile (rows : list Session.t)
| CartFile (rows : list Cart.t).
Arguments UsersFile {F} rows.
Arguments RestaurantsFile {F} rows.
Arguments MenuFile {F} rows.
Arguments OrdersFile {F} rows.
Arguments OrderItemsFile {F} rows.
Arguments SessionsFile {F} rows.
Arguments CartFile {F} rows.

(** The file system: the files by path. *)
Definition FS (F : Type) : Type := list (string * File F).

Definition fs_lookup {F} (fs : FS F) (path : string) : option (File F) :=
  match find (fun e => String.eqb (fst e) path) fs with
  | Some e => Some (snd e)
  | None => None
  end.

(** [os.path.exists(path)] *)
Definition path_exists {F} (fs : FS F) (path : string) : bool :=
  match fs_lookup fs path with Some _ => true | None => false end.

(** Writing a file creates it or replaces its content. *)
Definition fs_write {F} (fs : FS F) (path : string) (f : File F) : FS F :=
  (path, f) :: filter (fun e => negb (String.eqb (fst e) path)) fs.

(** [os.path.join(dir, name)] *)
Definition path_join (dir name : string) : string := (dir ++ "/" ++ name)%string.

Module Stage3.

Record Config (F : Type) : Type := {
  sessions_per_user_per_month : Z;
  abandoned_cart_rate : F
}.
Arguments sessions_per_user_per_month {F} _.
Arguments abandoned_cart_rate {F} _.

Section Generator.
Context {F : Type} `{Num F}.

Definition CONFIG : Config F := {|
  sessions_per_user_per_month := 8;
  abandoned_cart_rate := lit 30 100
|}.

(** [datetime(2024, 12, 31)] *)
Definition dataset_end : datetime := 365 * minutes_per_day.

(** One turn of [for _ in range(total_sessions)]; the accumulator is the
    session list and the next [session_id]. *)
Definition add_session (user : User.t) (user_orders : list (Order.t F))
  (acc : list Session.t * Z) : M Rand (list Session.t * Z) :=
  let '(sessions, session_id) := acc in
  let signup_date := User.SignUpDate user in
  random_days <- randint 0 (days_between dataset_end signup_date) ;;
  let session_start := add_days signup_date random_days in
  duration <- randint 2 30 ;;
  let session_end := add_minutes session_start duration in
  let order_match :=
    filter (fun o => (session_start <=? Order.OrderTime o)
                     && (Order.OrderTime o <=? session_end)) user_orders in
  let order_placed := negb (length order_match =? 0)%nat in
  let order_id :=
    match order_match with o :: _ => Some (Order.OrderID o) | [] => None end in
  pages <- (if order_placed then randint 5 20 else randint 1 8) ;;
  device <- choice ["Mobile"; "Mobile"; "Mobile"; "Desktop"; "Tablet"]%string ;;
  ret (sessions ++
         [{| Session.SessionID := session_id;
             Session.UserID := User.UserID user;
             Session.SessionStart := session_start;
             Session.SessionEnd := session_end;
             Session.OrderPlaced := order_placed;
             Session.OrderID := order_id;
             Session.PagesViewed := pages;
             Session.DeviceType := device |}],
       session_id + 1).

(** One turn of [for _, user in users_df.iterrows()]. *)
Definition add_user_sessions (config : Config F) (orders_df : list (Order.t F))
  (user : User.t) (acc : list Session.t * Z) : M Rand (list Session.t * Z) :=
  let user_id := User.UserID user in
  let signup_date := User.SignUpDate user in
  let months_active :=
    Z.max 1 (trunc (fdiv (of_Z (days_between dataset_end signup_date))
                         (of_Z 30))) in
  let total_sessions := months_active * sessions_per_user_per_month config in
  let user_orders := filter (fun o => Order.UserID o =? user_id) orders_df in
  repeat_n (Z.to_nat total_sessions) (add_session user user_orders) acc.

Definition generate_user_sessions (config : Config F) (users_df : list User.t)
  (orders_df : list (Order.t F)) : M Rand (list Session.t) :=
  acc <- foreach users_df (add_user_sessions config orders_df) ([], 1) ;;
  ret (fst acc).

(** [order_items_df[order_items_df['OrderID'] == oid]] *)
Definition items_of (order_items_df : list (OrderItem.t F)) (oid : Z)
  : list (OrderItem.t F) :=
  filter (fun i => OrderItem.OrderID i =? oid) order_items_df.

(** One turn of the inner loop of the first pass: a cart row for an order
    line.  The accumulator is the cart and the next [cart_id]. *)
Definition add_ordered_item (order : Order.t F) (item : OrderItem.t F)
  (acc : list Cart.t * Z) : M Rand (list Cart.t * Z) :=
  let '(cart, cart_id) := acc in
  minutes <- randint 1 10 ;;
  ret (cart ++
         [{| Cart.CartID := cart_id;
             Cart.UserID := Order.UserID order;
             Cart.RestaurantID := Order.RestaurantID order;
             Cart.MenuID := OrderItem.MenuID item;
             Cart.Quantity := OrderItem.Quantity item;
             Cart.AddedAt := add_minutes (Order.OrderTime order) (- minutes);
             Cart.IsOrdered := true;
             Cart.OrderID := Some (Order.OrderID order) |}],
       cart_id + 1).

(** One turn of [for _, order in orders_df.iterrows()]. *)
Definition add_order_cart (order_items_df : list (OrderItem.t F))
  (order : Order.t F) (acc : list Cart.t * Z) : M Rand (list Cart.t * Z) :=
  foreach (items_of order_items_df (Order.OrderID order))
          (add_ordered_item order) acc.

(** [int(len(cart) * rate / (1 - rate))] *)
Definition abandoned_target (config : Config F) (ordered : Z) : Z :=
  let rate := abandoned_cart_rate config in
  trunc (fdiv (fmul (of_Z ordered) rate) (fsub (of_Z 1) rate)).

(** The same with the division by zero Python raises when the rate is 1. *)
Definition target_abandoned (config : Config F) (ordered : Z) : M Rand Z :=
  if feqb (fsub (of_Z 1) (abandoned_cart_rate config)) (of_Z 0)
  then raise ZeroDivisionError
  else ret (abandoned_target config ordered).

(** One turn of [for _ in range(target_abandoned)]. *)
Definition add_abandoned (users_df : list User.t)
  (restaurants_df : list (Restaurant.t F)) (menu_df : list (Menu.t F))
  (acc : list Cart.t * Z) : M Rand (list Cart.t * Z) :=
  let '(cart, cart_id) := acc in
  user <- sample1 users_df ;;
  restaurant <-
    sample1 (filter (fun r => Restaurant.IsActive r) restaurants_df) ;;
  let menu_items :=
    Stage2.available_menu menu_df (Restaurant.RestaurantID restaurant) in
  if (length menu_items =? 0)%nat then ret acc
  else
    item <- sample1 menu_items ;;
    quantity <- choice [1; 1; 2] ;;
    days <- randint 0 364 ;;
    ret (cart ++
           [{| Cart.CartID := cart_id;
               Cart.UserID := User.UserID user;
               Cart.RestaurantID := Restaurant.RestaurantID restaurant;
               Cart.MenuID := Menu.MenuID item;
               Cart.Quantity := quantity;
               Cart.AddedAt := add_days 0 days;
               Cart.IsOrdered := false;
               Cart.OrderID := None |}],
         cart_id + 1).

Definition generate_cart_items (config : Config F) (users_df : list User.t)
  (restaurants_df : list (Restaurant.t F)) (menu_df : list (Menu.t F))
  (orders_df : list (Order.t F)) (order_items_df : list (OrderItem.t F))
  : M Rand (list Cart.t) :=
  ordered <- foreach orders_df (add_order_cart order_items_df) ([], 1) ;;
  target <- target_abandoned config (Z.of_nat (length (fst ordered))) ;;
  acc <- repeat_n (Z.to_nat target)
                  (add_abandoned users_df restaurants_df menu_df) ordered ;;
  ret (fst acc).

(** ** The script *)

(** What the script acts on: the files and the random generators. *)
Record World : Type := { fs : FS F; rnd : Rand }.

(** A generator step run inside the script. *)
Definition lift {A} (m : M Rand A) : M World A :=
  fun w => let (r, s) := m (rnd w) in (r, {| fs := fs w; rnd := s |}).

Definition required_master : list string :=
  ["users.csv"; "restaurants.csv"; "menu.csv"]%string.

Definition required_txn : list string :=
  ["orders.csv"; "order_items.csv"]%string.

(** [if not os.path.exists(path): raise FileNotFoundError(prefix + path)] *)
Definition require_file (prefix dir : string) (f : string) (_ : unit)
  : M World unit :=
  fun w =>
    let path := path_join dir f in
    if path_exists (fs w) path then (Ok tt, w)
    else (Raise (FileNotFoundError (prefix ++ path)%string), w).

(** [random.seed(42); np.random.seed(42)] *)
Definition seed_generators (py_seed np_seed : Z -> Stream) : M World unit :=
  fun w => (Ok tt, {| fs := fs w;
                      rnd := {| py := py_seed 42; np := np_seed 42;
                                fk := fk (rnd w) |} |}).

(** [pd.read_csv(path)], for each kind of table. *)
Definition read_csv {A} (select : File F -> option A) (path : string)
  : M World A :=
  fun w =>
    match fs_lookup (fs w) path with
    | None => (Raise (FileNotFoundError path), w)
    | Some f => match select f with
                | Some rows => (Ok rows, w)
                | None => (Raise ValueError, w)
                end
    end.

Definition as_users (f : File F) : option (list User.t) :=
  match f with UsersFile rows => Some rows | _ => None end.
Definition as_restaurants (f : File F) : option (list (Restaurant.t F)) :=
  match f with RestaurantsFile rows => Some rows | _ => None end.
Definition as_menu (f : File F) : option (list (Menu.t F)) :=
  match f with MenuFile rows => Some rows | _ => None end.
Definition as_orders (f : File F) : option (list (Order.t F)) :=
  match f with OrdersFile rows => Some rows | _ => None end.
Definition as_order_items (f : File F) : option (list (OrderItem.t F)) :=
  match f with OrderItemsFile rows => Some rows | _ => None end.

(** [df.to_csv(path, index=False)] *)
Definition to_csv (path : string) (f : File F) : M World unit :=
  fun w => (Ok tt, {| fs := fs_write (fs w) path f; rnd := rnd w |}).

(** The whole script, for the directory [base_dir] it lives in. *)
Definition main (base_dir : string) (py_seed np_seed : Z -> Stream)
  (config : Config F) : M World unit :=
  let master_dir := path_join base_dir "1_csv_files" in
  let txn_dir := base_dir in
  let output_dir := base_dir in
  _ <- foreach required_master
               (require_file "Missing master file: " master_dir) tt ;;
  _ <- foreach required_txn
               (require_file "Missing transaction file: " txn_dir) tt ;;
  _ <- seed_generators py_seed np_seed ;;
  users_df <- read_csv as_users (path_join master_dir "users.csv") ;;
  restaurants_df <-
    read_csv as_restaurants (path_join master_dir "restaurants.csv") ;;
  menu_df <- read_csv as_menu (path_join master_dir "menu.csv") ;;
  orders_df <- read_csv as_orders (path_join txn_dir "orders.csv") ;;
  order_items_df <-
    read_csv as_order_items (path_join txn_dir "order_items.csv") ;;
  sessions_df <- lift (generate_user_sessions config users_df orders_df) ;;
  cart_df <- lift (generate_cart_items config users_df restaurants_df menu_df
                                       orders_df order_items_df) ;;
  _ <- to_csv (path_join output_dir "user_sessions.csv")
              (SessionsFile sessions_df) ;;
  to_csv (path_join output_dir "cart_items.csv") (CartFile cart_df).

End Generator.
Arguments World F : clear implicits.
End Stage3.
(* ================================================================== *)
(** * What a generated order and its lines look like *)

Module OrderSpec.
Import Stage2.

Section Spec.
Context {F : Type} `{Num F}.

(** The running total [total_amount] over the lines of an order. *)
Definition sum_subtotals (g : list (OrderItem.t F)) : F :=
  fold_left (fun acc i => fadd acc (OrderItem.Subtotal i)) g (of_Z 0).

(** A line of order [oid] placed at restaurant [rid] by the daily loop. *)
Definition daily_line (menu_df : list (Menu.t F)) (rid oid : Z)
  (i : OrderItem.t F) : Prop :=
  OrderItem.OrderID i = oid /\
  In (OrderItem.Quantity i) [1; 2] /\
  OrderItem.Subtotal i =
    fmul (OrderItem.ItemPrice i) (of_Z (OrderItem.Quantity i)) /\
  exists m, In m (available_menu menu_df rid) /\
            OrderItem.MenuID i = Menu.MenuID m /\
            OrderItem.ItemPrice i = Menu.Price m.

(** An order [o] with lines [g] as one turn of the daily loop builds it
    on [current_date] for a user of [pool]. *)
Record daily_order (users_df : list User.t)
  (restaurants_df : list (Restaurant.t F)) (menu_df : list (Menu.t F))
  (pool : list Z) (current_date : datetime)
  (o : Order.t F) (g : list (OrderItem.t F)) : Prop := {
  do_user : In (Order.UserID o) pool;
  do_restaurant :
    exists u rest r,
      user_rows users_df (Order.UserID o) = u :: rest /\
      In r (candidate_restaurants restaurants_df (User.CityID u)) /\
      Order.RestaurantID o = Restaurant.RestaurantID r /\
      Order.DeliveryAddress o = User.Address u;
  do_time :
    0 <= Order.OrderHour o <= 23 /\
    exists minute, 0 <= minute <= 59 /\
      Order.OrderTime o = replace_hm current_date (Order.OrderHour o) minute;
  do_date : Order.OrderDate o = date_of current_date;
  do_lines :
    Forall (daily_line menu_df (Order.RestaurantID o) (Order.OrderID o)) g;
  do_count : (1 <= length g <= 4)%nat;
  do_total : Order.TotalAmount o = round2 (sum_subtotals g);
  do_fee : In (Order.DeliveryFee o) [0; 30; 40; 50; 60];
  do_discount :
    if fltb (of_Z 500) (sum_subtotals g)
    then exists r, In r [of_Z 0; lit 10 100; lit 15 100] /\
                   Order.DiscountAmount o = round2 (fmul (sum_subtotals g) r)
    else Order.DiscountAmount o = of_Z 0;
  do_final :
    Order.FinalAmount o =
      round2 (fsub (fadd (sum_subtotals g) (of_Z (Order.DeliveryFee o)))
                   (Order.DiscountAmount o))
}.

(** An order [o] with lines [g] as one turn of the bot pass builds it. *)
Record bot_order (users_df : list User.t)
  (restaurants_df : list (Restaurant.t F)) (menu_df : list (Menu.t F))
  (config : Config F) (bot_users : list Z)
  (o : Order.t F) (g : list (OrderItem.t F)) : Prop := {
  bo_user : In (Order.UserID o) (firstn 25 bot_users);
  bo_address :
    exists u rest,
      user_rows users_df (Order.UserID o) = u :: rest /\
      Order.DeliveryAddress o = User.Address u;
  bo_restaurant :
    exists r, In r restaurants_df /\
              Order.RestaurantID o = Restaurant.RestaurantID r;
  bo_time :
    exists d minute,
      0 <= d <= 300 /\ 0 <= Order.OrderHour o <= 23 /\ 0 <= minute <= 59 /\
      Order.OrderTime o =
        replace_hm (add_days (start_date config) d) (Order.OrderHour o) minute /\
      Order.OrderDate o = date_of (add_days (start_date config) d);
  bo_line :
    exists m i,
      In m (available_menu menu_df (Order.RestaurantID o)) /\
      g = [i] /\
      OrderItem.OrderID i = Order.OrderID o /\
      OrderItem.MenuID i = Menu.MenuID m /\
      OrderItem.Quantity i = 1 /\
      OrderItem.ItemPrice i = Menu.Price m /\
      OrderItem.Subtotal i = Menu.Price m /\
      Order.TotalAmount o = Menu.Price m /\
      Order.FinalAmount o = Menu.Price m;
  bo_fee : Order.DeliveryFee o = 0;
  bo_discount : Order.DiscountAmount o = of_Z 0;
  bo_status : Order.OrderStatus o = Delivered
}.

(** The cohort list a day draws its users from. *)
Definition pool_of (power_users weekend_users regular_users : list Z)
  (current_date : datetime) : list Z :=
  if 5 <=? weekday current_date
  then power_users ++ weekend_users ++ regular_users
  else power_users ++ regular_users.

(** An order of the daily loop, on some day of the configured range. *)
Definition daily_row (users_df : list User.t)
  (restaurants_df : list (Restaurant.t F)) (menu_df : list (Menu.t F))
  (config : Config F) (power_users weekend_users regular_users : list Z)
  (o : Order.t F) (g : list (OrderItem.t F)) : Prop :=
  exists current_date,
    In current_date (day_range (start_date config) (end_date config)) /\
    daily_order users_df restaurants_df menu_df
                (pool_of power_users weekend_users regular_users current_date)
                current_date o g.

(** An order of either pass. *)
Definition any_row (users_df : list User.t)
  (restaurants_df : list (Restaurant.t F)) (menu_df : list (Menu.t F))
  (config : Config F) (power_users weekend_users bot_users regular_users : list Z)
  (o : Order.t F) (g : list (OrderItem.t F)) : Prop :=
  daily_row users_df restaurants_df menu_df config
            power_users weekend_users regular_users o g \/
  bot_order users_df restaurants_df menu_df config bot_users o g.

(** [order['OrderStatus'] == 'Delivered'] *)
Definition is_delivered (o : Order.t F) : bool :=
  match Order.OrderStatus o with Delivered => true | Cancelled => false end.

(** The tracking row [d] of the order [o]. *)
Definition tracks (o : Order.t F) (d : Delivery.t) : Prop :=
  Delivery.OrderID d = Order.OrderID o /\
  Order.OrderTime o <= Delivery.DispatchTime d <= Delivery.ActualDeliveryTime d.

(** The lines of an order carry its id. *)
Definition lines_of (o : Order.t F) (g : list (OrderItem.t F)) : Prop :=
  Forall (fun i => OrderItem.OrderID i = Order.OrderID o) g.

(** [st'] is [st] with the order [o] and its lines [g] appended. *)
Definition pushed (st st' : GenState F) (o : Order.t F)
  (g : list (OrderItem.t F)) : Prop :=
  Order.OrderID o = order_id st /\
  orders_data st' = orders_data st ++ [o] /\
  order_items_data st' = order_items_data st ++ g /\
  order_id st' = order_id st + 1.

(** The ids [first, first + 1, ...] of [n] consecutive rows. *)
Definition ids_from (first : Z) (n : nat) : list Z :=
  map (fun k => first + Z.of_nat k) (seq 0 n).

(** The two tables are made of orders with ids 1, 2, ... in row order,
    each followed in the line table by its own lines, and every order
    with its lines satisfies [P]. *)
Definition tables_grouped (P : Order.t F -> list (OrderItem.t F) -> Prop)
  (orders : list (Order.t F)) (items : list (OrderItem.t F)) : Prop :=
  exists gs,
    Forall2 (fun o g => P o g /\ lines_of o g) orders gs /\
    items = List.concat gs /\
    map Order.OrderID orders = ids_from 1 (length orders).

(** The invariant of the accumulators of [generate_orders]. *)
Definition grouped (P : Order.t F -> list (OrderItem.t F) -> Prop)
  (st : GenState F) : Prop :=
  tables_grouped P (orders_data st) (order_items_data st) /\
  order_id st = 1 + Z.of_nat (length (orders_data st)).




End Spec.
End OrderSpec.

(* ================================================================== *)
(** * Exact values with two decimals *)

(** A value with at most two decimals. *)
Definition two_decimals (x : Qc) : Prop :=
  exists n : Z, (x : Q) == inject_Z n / inject_Z 100.

(** Every price of the menu has at most two decimals. *)
Definition priced_in_cents (menu : list (Menu.t Qc)) : Prop :=
  Forall (fun m => two_decimals (Menu.Price m)) menu.


(* ================================================================== *)
(** * Small inputs the generators are run on *)

Module Examples.

(** A generator that yields the listed draws, then zeros. *)
Definition stream_of (draws : list Z) : Stream :=
  {| pos := 0; src := fun n => nth n draws 0 |}.

Definition rand_of (py_draws np_draws : list Z) : Rand :=
  {| py := stream_of py_draws; np := stream_of np_draws; fk := stream_of [] |}.

Definition user (id city : Z) (signup : datetime) : User.t :=
  {| User.UserID := id; User.Username := "user"; User.Email := "mail";
     User.PasswordHash := "hash"; User.Phone := "phone";
     User.Address := "address"; User.CityID := city;
     User.SignUpDate := signup; User.AcquisitionChannelID := 1;
     User.ReferredBy := None; User.LastLoginDate := signup;
     User.IsActive := true; User.Preferences := "{}" |}.

Section Rows.
Context {F : Type} `{Num F}.

Definition restaurant (id city : Z) (active : bool) : Restaurant.t F :=
  {| Restaurant.RestaurantID := id; Restaurant.Name := "name";
     Restaurant.Address := "address"; Restaurant.CityID := city;
     Restaurant.Cuisine := "Chinese"; Restaurant.Rating := lit 40 10;
     Restaurant.OperatingHours := "10:00 AM - 11:00 PM";
     Restaurant.ContactNumber := "phone"; Restaurant.IsActive := active;
     Restaurant.OpeningDate := "2020-01-01" |}.

(** A menu item priced [cents / 100]. *)
Definition menu_item (id rid cents : Z) (available : bool) : Menu.t F :=
  {| Menu.MenuID := id; Menu.RestaurantID := rid; Menu.ItemName := "Soup";
     Menu.Description := "text"; Menu.Price := lit cents 100;
     Menu.Category := "Soup"; Menu.CuisineType := "Chinese";
     Menu.IsVegetarian := true; Menu.IsAvailable := available |}.

(** One day (Monday 2024-01-01) with [per_day] orders and [bots] bot
    users. *)
Definition one_day (per_day bots : Z) : Stage2.Config F :=
  {| Stage2.start_date := 0; Stage2.end_date := 0;
     Stage2.target_total_orders := 365 * per_day;
     Stage2.avg_items_per_order := lit 15 10;
     Stage2.power_user_percentage := lit 20 100;
     Stage2.weekend_only_user_percentage := lit 15 100;
     Stage2.bot_users_count := bots |}.

End Rows.

(** One user, one restaurant with two items priced 50.10 and 50.20, one
    order of both items. *)
Definition two_item_users : list User.t := [user 1 1 0].
Definition two_item_restaurants : list (Restaurant.t float) :=
  [restaurant 1 1 true].
Definition two_item_menu : list (Menu.t float) :=
  [menu_item 1 1 5010 true; menu_item 2 1 5020 true].

(** Two users who sign up on 2024-12-31, an active and an inactive
    restaurant with one item each, one order on 2024-01-01 and one bot
    user. *)
Definition late_users : list User.t :=
  [user 1 1 (365 * minutes_per_day); user 2 1 (365 * minutes_per_day)].
Definition late_restaurants : list (Restaurant.t float) :=
  [restaurant 1 1 true; restaurant 2 1 false].
Definition late_menu : list (Menu.t float) :=
  [menu_item 1 1 12000 true; menu_item 2 2 8000 true].
Definition late_rand : Rand := rand_of [] [0; 0; 0; 0; 1].

(** One user and one restaurant with one item; two orders, the second
    one Cancelled. *)
Definition two_order_menu : list (Menu.t float) := [menu_item 1 1 12000 true].
Definition two_order_rand : Rand :=
  rand_of [0; 0; 0; 0; 0; 0; 0; 0; 0; 0; 0; 0; 0; 0; 95] [].

(** A restaurant without an available item and one with an item: the
    first turn draws the former, the second the latter. *)
Definition skip_restaurants : list (Restaurant.t float) :=
  [restaurant 1 1 true; restaurant 2 1 true].
Definition skip_menu : list (Menu.t float) :=
  [menu_item 1 1 12000 false; menu_item 2 2 8000 true].
Definition skip_rand : Rand := rand_of [] [0; 1].

(** Two orders of two items each, for the cart. *)
Definition cart_rand : Rand := rand_of [] [0; 1; 0; 0; 0; 1; 0; 0].

(** A user row on a given acquisition channel. *)
Definition user_on (id city : Z) (signup : datetime) (channel : Z) : User.t :=
  {| User.UserID := id; User.Username := "user"; User.Email := "mail";
     User.PasswordHash := "hash"; User.Phone := "phone";
     User.Address := "address"; User.CityID := city;
     User.SignUpDate := signup; User.AcquisitionChannelID := channel;
     User.ReferredBy := None; User.LastLoginDate := signup;
     User.IsActive := true; User.Preferences := "{}" |}.

(** A first user, a referred user who signs up a day later, and a user of
    the referral channel who signs up on the first day. *)
Definition referral_users : list User.t :=
  [user_on 1 1 0 1; user_on 2 1 minutes_per_day 5; user_on 3 1 0 5].

(** A provider whose values depend on its generator only through the
    user name. *)
Definition toy_faker : Faker :=
  {| user_name := fun d => if d =? 0 then "asha"%string else "ravi"%string;
     email := fun _ => "mail"%string;
     sha256 := fun _ => "hash"%string;
     phone_number := fun _ => "phone"%string;
     address := fun _ => "address"%string;
     sentence := fun _ => "text"%string;
     date_between := fun _ _ => "2021-01-01"%string |}.

(** One user in one city, no restaurant. *)
Definition one_user : Stage1.Config :=
  {| Stage1.start_date := 0; Stage1.end_date := 0; Stage1.num_users := 1;
     Stage1.num_restaurants := 0; Stage1.num_cities := 1;
     Stage1.avg_menu_items_per_restaurant := 30;
     Stage1.target_total_orders := 0 |}.

(** The draws of a Stage 1 menu whose first item is a main course priced
    near the top of its range, and of an order of two of it. *)
Definition priced_menu_rand : Rand :=
  rand_of [0; 1; 0; 0; 2 ^ 53 - 1] [].
Definition priced_order_rand : Rand :=
  rand_of [0; 0; 0; 0; 3; 0; 2] [].

(** The value a run returns ([default] if it raises). *)
Definition returned {A} (default : A) (r : result A * Rand) : A :=
  match fst r with Ok a => a | Raise _ => default end.

(** The daily loop on the two restaurants of which the first has no
    available item: two turns, one order. *)
Definition skip_run : result (Stage2.GenState float) * Rand :=
  Stage2.daily_loop two_item_users skip_restaurants skip_menu (one_day 2 0)
                    [] [] [1] Stage2.initial_state skip_rand.
Definition skip_state : Stage2.GenState float :=
  returned Stage2.initial_state skip_run.


(** The Delivered and the Cancelled order, and their tracking. *)
Definition two_order_run
  : result (list (Order.t float) * list (OrderItem.t float)) * Rand :=
  Stage2.generate_orders two_item_users two_item_restaurants two_order_menu
                         (one_day 2 0) two_order_rand.
Definition two_orders : list (Order.t float) :=
  fst (returned ([], []) two_order_run).
Definition two_order_lines : list (OrderItem.t float) :=
  snd (returned ([], []) two_order_run).
Definition tracking_run : result (list Delivery.t) * Rand :=
  Stage2.generate_delivery_tracking two_orders (snd two_order_run).
Definition two_order_tracking : list Delivery.t := returned [] tracking_run.

(** Two orders of two items and their cart. *)
Definition cart_orders_run
  : result (list (Order.t float) * list (OrderItem.t float)) * Rand :=
  Stage2.generate_orders two_item_users two_item_restaurants two_item_menu
                         (one_day 2 0) cart_rand.
Definition cart_orders : list (Order.t float) :=
  fst (returned ([], []) cart_orders_run).
Definition cart_lines : list (OrderItem.t float) :=
  snd (returned ([], []) cart_orders_run).
Definition cart_run : result (list Cart.t) * Rand :=
  Stage3.generate_cart_items Stage3.CONFIG two_item_users two_item_restaurants
                             two_item_menu cart_orders cart_lines
                             (rand_of [] []).
Definition cart_rows : list Cart.t := returned [] cart_run.

(** A Stage 1 menu in exact arithmetic and an order from it. *)
Definition priced_restaurants : list (Restaurant.t Qc) := [restaurant 1 1 true].
Definition priced_menu_run : result (list (Menu.t Qc)) * Rand :=
  Stage1.generate_menu toy_faker priced_restaurants priced_menu_rand.
Definition priced_menu : list (Menu.t Qc) := returned [] priced_menu_run.
Definition priced_run
  : result (list (Order.t Qc) * list (OrderItem.t Qc)) * Rand :=
  Stage2.generate_orders two_item_users priced_restaurants priced_menu
                         (one_day 1 0) priced_order_rand.
Definition priced_orders : list (Order.t Qc) :=
  fst (returned ([], []) priced_run).
Definition priced_lines : list (OrderItem.t Qc) :=
  snd (returned ([], []) priced_run).


(** The referrals of the three users. *)
Definition referral_run : result (list User.t * list Referral.t) * Rand :=
  Stage1.add_referrals referral_users (rand_of [] []).
Definition referred_users : list User.t := fst (returned ([], []) referral_run).
Definition referral_table : list Referral.t :=
  snd (returned ([], []) referral_run).

(** A directory without any of the files, and generators in any state. *)
Definition empty_world : Stage3.World float :=
  {| Stage3.fs := []; Stage3.rnd := rand_of [] [] |}.

(** The generators [random.seed] and [np.random.seed] leave, and two
    states of the provider's generator. *)
Definition toy_seed (seed : Z) : Stream := stream_of [seed].
Definition provider_state_a : Stream := stream_of [0].
Definition provider_state_b : Stream := stream_of [1].
Definition empty_tables : Stage1.Tables float :=
  {| Stage1.cities_csv := []; Stage1.acquisition_channels_csv := [];
     Stage1.users_csv := []; Stage1.referrals_csv := [];
     Stage1.restaurants_csv := []; Stage1.menu_csv := [] |}.
Definition tables_of (r : result (Stage1.Tables float)) : Stage1.Tables float :=
  match r with Ok t => t | Raise _ => empty_tables end.
Definition run_a : result (Stage1.Tables float) :=
  Stage1.run toy_faker 0 toy_seed toy_seed provider_state_a one_user.
Definition run_b : result (Stage1.Tables float) :=
  Stage1.run toy_faker 0 toy_seed toy_seed provider_state_b one_user.

End Examples.

(* ================================================================== *)
(** * What [add_referrals] produces *)

Module ReferralSpec.
Import Stage1.

(** [AcquisitionChannelID == 5] *)
Definition on_referral_channel (u : User.t) : bool :=
  User.AcquisitionChannelID u =? 5.

(** Some user signed up strictly before [u]. *)
Definition has_referrer (users_df : list User.t) (u : User.t) : bool :=
  (0 <? length (potential_referrers users_df u))%nat.

(** Two rows that differ at most in [ReferredBy]. *)
Definition same_user (u u' : User.t) : Prop :=
  User.UserID u' = User.UserID u /\
  User.SignUpDate u' = User.SignUpDate u /\
  User.AcquisitionChannelID u' = User.AcquisitionChannelID u /\
  User.Username u' = User.Username u.

(** The referral row [rho] links the user [snd p], at index [fst p], to
    a referrer of [users_df], and the row at that index of [users_out]
    carries the referrer's id. *)
Definition links (users_df users_out : list User.t) (p : nat * User.t)
  (rho : Referral.t) : Prop :=
  Referral.ReferredUserID rho = User.UserID (snd p) /\
  Referral.ReferralDate rho = User.SignUpDate (snd p) /\
  exists referrer updated,
    In referrer users_df /\
    Referral.ReferrerUserID rho = User.UserID referrer /\
    User.SignUpDate referrer < User.SignUpDate (snd p) /\
    User.UserID referrer <> User.UserID (snd p) /\
    nth_error users_out (fst p) = Some updated /\
    same_user (snd p) updated /\
    User.ReferredBy updated = Some (User.UserID referrer).

End ReferralSpec.

(* ================================================================== *)
(** * The input files Stage 3 requires *)

Module ScriptSpec.

(** The required files in the order the script checks them, each with
    the text that precedes its path in the error message. *)
Definition required_files (base_dir : string) : list (string * string) :=
  map (fun f => ("Missing master file: "%string,
                 path_join (path_join base_dir "1_csv_files") f))
      Stage3.required_master ++
  map (fun f => ("Missing transaction file: "%string, path_join base_dir f))
      Stage3.required_txn.

End ScriptSpec.

(* ================================================================== *)
(** * The order tables in full *)

Module OrderDetail.
Import Stage2 OrderSpec.

Section Spec.
Context {F : Type} `{Num F}.

(** The hours [get_order_hour_with_peaks] can return. *)
Definition peak_hour (h : Z) : Prop := h = 0 \/ h = 1 \/ 8 <= h <= 23.

Definition payment_methods : list string :=
  ["Credit Card"; "Debit Card"; "UPI"; "Cash on Delivery"]%string.

(** An order of either pass with its lines, with the columns the cohorts
    and the clock fix. *)
Definition full_row (users_df : list User.t)
  (restaurants_df : list (Restaurant.t F)) (menu_df : list (Menu.t F))
  (config : Config F) (power_users weekend_users bot_users regular_users : list Z)
  (o : Order.t F) (g : list (OrderItem.t F)) : Prop :=
  Order.OrderDay o = day_name (Order.OrderTime o) /\
  ((daily_row users_df restaurants_df menu_df config
              power_users weekend_users regular_users o g /\
    peak_hour (Order.OrderHour o) /\
    In (Order.PaymentMethod o) payment_methods) \/
   (bot_order users_df restaurants_df menu_df config bot_users o g /\
    Order.PaymentMethod o = "UPI"%string)).

(** The line ids are 1, 2, ... in row order and [order_item_id] is the
    next one. *)
Definition items_numbered (st : GenState F) : Prop :=
  map OrderItem.OrderItemID (order_items_data st)
  = ids_from 1 (length (order_items_data st)) /\
  order_item_id st = 1 + Z.of_nat (length (order_items_data st)).

(** The invariant of the accumulators of [generate_orders], in full. *)
Definition invariant (users_df : list User.t)
  (restaurants_df : list (Restaurant.t F)) (menu_df : list (Menu.t F))
  (config : Config F) (power_users weekend_users bot_users regular_users : list Z)
  (st : GenState F) : Prop :=
  grouped (full_row users_df restaurants_df menu_df config
                    power_users weekend_users bot_users regular_users) st /\
  items_numbered st.

(** The sizes of the power, weekend-only and bot cohorts. *)
Definition cohort_sizes (users_df : list User.t) (config : Config F)
  : Z * Z * Z :=
  let total_users := Z.of_nat (length users_df) in
  (trunc (fmul (of_Z total_users) (power_user_percentage config)),
   trunc (fmul (of_Z total_users) (weekend_only_user_percentage config)),
   bot_users_count config).

End Spec.
End OrderDetail.

(* ================================================================== *)
(** * What follows an order: tracking and reviews *)

Module FollowUp.
Import Stage2.

Section Spec.
Context {F : Type} `{Num F}.

(** The tracking row [d] of the Delivered order [o], in full: the
    dispatch 5 to 15 minutes after the order, the estimate 20 to 40
    minutes after the dispatch, and the delivery either within -10 to
    +15 minutes of the estimate or, for an outlier, 60 to 120 minutes
    after the dispatch. *)
Definition tracked (o : Order.t F) (d : Delivery.t) : Prop :=
  Delivery.DeliveryID d = Order.OrderID o /\
  Delivery.OrderID d = Order.OrderID o /\
  5 <= Delivery.DispatchTime d - Order.OrderTime o <= 15 /\
  20 <= Delivery.EstimatedDeliveryTime d - Delivery.DispatchTime d <= 40 /\
  Delivery.ActualDeliveryTime d
  = Delivery.DispatchTime d + Delivery.ActualDeliveryMinutes d /\
  (-10 <= Delivery.ActualDeliveryTime d - Delivery.EstimatedDeliveryTime d <= 15
   \/ 60 <= Delivery.ActualDeliveryMinutes d <= 120) /\
  1 <= Delivery.DeliveryPartnerID d <= 1000 /\
  Delivery.DeliveryStatus d = "Delivered"%string.

(** The review [r] of the order [o]. *)
Definition reviewed (o : Order.t F) (r : Review.t) : Prop :=
  Order.OrderStatus o = Delivered /\
  Review.OrderID r = Order.OrderID o /\
  Review.UserID r = Order.UserID o /\
  Review.RestaurantID r = Order.RestaurantID o /\
  1 <= Review.Rating r <= 5 /\
  (exists k, 0 <= k <= 7 /\
             Review.ReviewDate r = add_days (Order.OrderTime o) k) /\
  match Review.Comment r with
  | Some c => In c comments
  | None => True
  end /\
  Review.IsVerifiedPurchase r = true.

End Spec.
End FollowUp.

(* ================================================================== *)
(** * The rows of Stage 3 *)

Module Stage3Spec.
Import Stage3.

Section Spec.
Context {F : Type} `{Num F}.

(** [total_sessions] for a user. *)
Definition sessions_of (config : Config F) (u : User.t) : Z :=
  Z.max 1 (trunc (fdiv (of_Z (days_between dataset_end (User.SignUpDate u)))
                       (of_Z 30)))
  * sessions_per_user_per_month config.

(** The orders of user [u] placed from [start] to [stop], in the order
    of the order table. *)
Definition orders_within (orders_df : list (Order.t F)) (u : User.t)
  (start stop : datetime) : list (Order.t F) :=
  filter (fun o => (start <=? Order.OrderTime o) && (Order.OrderTime o <=? stop))
         (filter (fun o => Order.UserID o =? User.UserID u) orders_df).

(** A session row [x] of the user [u]: it starts a whole number of days
    after the signup, not after 2024-12-31, lasts 2 to 30 minutes, and
    is linked to the first order of the user placed within it, if
    any. *)
Definition session_of (orders_df : list (Order.t F)) (u : User.t)
  (x : Session.t) : Prop :=
  Session.UserID x = User.UserID u /\
  (exists k, 0 <= k <= days_between dataset_end (User.SignUpDate u) /\
             Session.SessionStart x = add_days (User.SignUpDate u) k) /\
  2 <= Session.SessionEnd x - Session.SessionStart x <= 30 /\
  In (Session.DeviceType x) ["Mobile"; "Desktop"; "Tablet"]%string /\
  match orders_within orders_df u (Session.SessionStart x) (Session.SessionEnd x) with
  | [] => Session.OrderPlaced x = false /\ Session.OrderID x = None /\
          1 <= Session.PagesViewed x <= 8
  | o :: _ => Session.OrderPlaced x = true /\
              Session.OrderID x = Some (Order.OrderID o) /\
              5 <= Session.PagesViewed x <= 20
  end.

(** A cart row rebuilt from an order line, and a cart row of an
    abandoned cart. *)
Definition ordered_cart (orders_df : list (Order.t F)) (c : Cart.t) : Prop :=
  exists o,
    In o orders_df /\
    Cart.OrderID c = Some (Order.OrderID o) /\
    Cart.UserID c = Order.UserID o /\
    Cart.RestaurantID c = Order.RestaurantID o /\
    1 <= Order.OrderTime o - Cart.AddedAt c <= 10.

Definition abandoned_cart (users_df : list User.t)
  (restaurants_df : list (Restaurant.t F)) (menu_df : list (Menu.t F))
  (c : Cart.t) : Prop :=
  Cart.OrderID c = None /\
  (exists u, In u users_df /\ Cart.UserID c = User.UserID u) /\
  (exists r m,
     In r restaurants_df /\ Restaurant.IsActive r = true /\
     Cart.RestaurantID c = Restaurant.RestaurantID r /\
     In m menu_df /\ Menu.RestaurantID m = Restaurant.RestaurantID r /\
     Menu.IsAvailable m = true /\ Cart.MenuID c = Menu.MenuID m) /\
  In (Cart.Quantity c) [1; 2] /\
  (exists k, 0 <= k <= 364 /\ Cart.AddedAt c = add_days 0 k).

(** What the cart holds at any point of [generate_cart_items]: ids 1,
    2, ..., the next id, and rows of the two kinds. *)
Definition cart_ok (users_df : list User.t)
  (restaurants_df : list (Restaurant.t F)) (menu_df : list (Menu.t F))
  (orders_df : list (Order.t F)) (acc : list Cart.t * Z) : Prop :=
  map Cart.CartID (fst acc) = OrderSpec.ids_from 1 (length (fst acc)) /\
  snd acc = 1 + Z.of_nat (length (fst acc)) /\
  Forall (fun c => if Cart.IsOrdered c then ordered_cart orders_df c
                   else abandoned_cart users_df restaurants_df menu_df c)
         (fst acc).

(** The generators after [random.seed(42); np.random.seed(42)]. *)
Definition seeded (py_seed np_seed : Z -> Stream) (w : World F) : Rand :=
  {| py := py_seed 42; np := np_seed 42; fk := fk (rnd w) |}.

(** Two states of the script with the same files and the same seeded
    generators: they differ at most in Faker's generator, which Stage 3
    does not have. *)
Definition alike (w1 w2 : World F) : Prop :=
  fs w1 = fs w2 /\ py (rnd w1) = py (rnd w2) /\ np (rnd w1) = np (rnd w2).

(** A step of the script that gives the same result and alike states in
    alike states. *)
Definition steady {A} (m : M (World F) A) : Prop :=
  forall w1 w2, alike w1 w2 ->
                fst (m w1) = fst (m w2) /\ alike (snd (m w1)) (snd (m w2)).

(** The two files the script writes. *)
Definition sessions_path (base_dir : string) : string :=
  path_join base_dir "user_sessions.csv".
Definition cart_path (base_dir : string) : string :=
  path_join base_dir "cart_items.csv".

(** The five tables the script reads, as the files hold them. *)
Record inputs (base_dir : string) (w : World F) (users_df : list User.t)
  (restaurants_df : list (Restaurant.t F)) (menu_df : list (Menu.t F))
  (orders_df : list (Order.t F)) (order_items_df : list (OrderItem.t F))
  : Prop := {
  in_users :
    fs_lookup (fs w) (path_join (path_join base_dir "1_csv_files") "users.csv")
    = Some (UsersFile users_df);
  in_restaurants :
    fs_lookup (fs w)
              (path_join (path_join base_dir "1_csv_files") "restaurants.csv")
    = Some (RestaurantsFile restaurants_df);
  in_menu :
    fs_lookup (fs w) (path_join (path_join base_dir "1_csv_files") "menu.csv")
    = Some (MenuFile menu_df);
  in_orders :
    fs_lookup (fs w) (path_join base_dir "orders.csv")
    = Some (OrdersFile orders_df);
  in_order_items :
    fs_lookup (fs w) (path_join base_dir "order_items.csv")
    = Some (OrderItemsFile order_items_df)
}.

End Spec.
End Stage3Spec.

(* ================================================================== *)
(** * The rows of Stage 1 *)

Module Stage1Spec.
Import Stage1 OrderSpec.

(** Whether the character [c] occurs in [s]. *)
Fixpoint occurs (c : ascii) (s : string) : bool :=
  match s with
  | EmptyString => false
  | String c' s' => Ascii.eqb c' c || occurs c s'
  end.

Definition newline : ascii := Ascii.ascii_of_nat 10.

(** The dictionary [price_ranges] and [price_ranges.get(category,
    (100, 400))]. *)
Definition price_ranges : list (string * (Z * Z)) :=
  [("Appetizer", (50, 250)); ("Main Course", (150, 600));
   ("Dessert", (80, 200)); ("Beverage", (30, 150)); ("Bread", (20, 80));
   ("Salad", (100, 250)); ("Soup", (80, 180))]%string.

Definition price_range (category : string) : Z * Z :=
  match find (fun e => String.eqb (fst e) category) price_ranges with
  | Some e => snd e
  | None => (100, 400)
  end.

(** A string without a space at either end. *)
Definition trimmed (s : string) : Prop :=
  (forall t, s <> String " " t) /\ (forall t, s <> (t ++ " ")%string).

(** A signup date drawn when the schedule has run out. *)
Definition fallback_signup (start_date : datetime) (d : datetime) : Prop :=
  exists k, 0 <= k <= 364 /\ d = add_days start_date k.

(** A row of [generate_users], apart from its id, its signup date and
    its fake values. *)
Definition user_row (cities_df : list City.t) (channels_df : list Channel.t)
  (u : User.t) : Prop :=
  (exists city, In city cities_df /\ User.CityID u = City.CityID city) /\
  In (User.AcquisitionChannelID u) (map Channel.ChannelID channels_df) /\
  User.ReferredBy u = None /\
  (exists k, 0 <= k <= 30 /\
             User.LastLoginDate u = add_days (User.SignUpDate u) k) /\
  In (User.Preferences u)
     (map dietary_json ["None"; "Vegetarian"; "Vegan"; "Jain"]%string) /\
  occurs newline (User.Address u) = false.

(** The row [u] with [ReferredBy] set to [v]. *)
Definition referred_by (v : Z) (u : User.t) : User.t :=
  {| User.UserID := User.UserID u;
     User.Username := User.Username u;
     User.Email := User.Email u;
     User.PasswordHash := User.PasswordHash u;
     User.Phone := User.Phone u;
     User.Address := User.Address u;
     User.CityID := User.CityID u;
     User.SignUpDate := User.SignUpDate u;
     User.AcquisitionChannelID := User.AcquisitionChannelID u;
     User.ReferredBy := Some v;
     User.LastLoginDate := User.LastLoginDate u;
     User.IsActive := User.IsActive u;
     User.Preferences := User.Preferences u |}.

(** A row of the users table after [add_referrals]: the row as it was,
    or, for a user of channel 5, the row with a user's id as referrer. *)
Definition kept_or_referred (users_df : list User.t) (u u' : User.t) : Prop :=
  u' = u \/
  (User.AcquisitionChannelID u = 5 /\
   exists r, In r users_df /\ u' = referred_by (User.UserID r) u).

(** A referral row for a user of [users_df]. *)
Definition referral_row (users_df : list User.t) (rho : Referral.t) : Prop :=
  Referral.ReferrerUserID rho <> Referral.ReferredUserID rho /\
  In (Referral.RewardAmount rho) [50; 75; 100] /\
  In (Referral.RewardStatus rho) ["Paid"; "Pending"]%string /\
  exists r u, In r users_df /\ In u users_df /\
              Referral.ReferrerUserID rho = User.UserID r /\
              Referral.ReferredUserID rho = User.UserID u /\
              Referral.ReferralDate rho = User.SignUpDate u /\
              User.SignUpDate r < User.SignUpDate u.

Section Spec.
Context {F : Type} `{Num F}.

(** A row of [generate_restaurants], apart from its id, its rating and
    its fake values. *)
Definition restaurant_row (cities_df : list City.t) (r : Restaurant.t F)
  : Prop :=
  (exists city base,
     In city cities_df /\ Restaurant.CityID r = City.CityID city /\
     In base restaurant_names /\
     Restaurant.Name r
     = (base ++ " - " ++ City.CityName city ++ " "
             ++ str_of_Z (Restaurant.RestaurantID r))%string) /\
  In (Restaurant.Cuisine r) cuisines /\
  Restaurant.OperatingHours r = "10:00 AM - 11:00 PM"%string /\
  occurs newline (Restaurant.Address r) = false.

(** A menu row of the restaurant [r]. *)
Definition menu_row (r : Restaurant.t F) (m : Menu.t F) : Prop :=
  Menu.RestaurantID m = Restaurant.RestaurantID r /\
  Menu.CuisineType m = Restaurant.Cuisine r /\
  In (Menu.Category m) categories /\
  exists base suffix,
    In base (base_items_of (Restaurant.Cuisine r)) /\
    In suffix ["Deluxe"; "Special"; "Classic"; "Royal"; ""]%string /\
    Menu.ItemName m = strip (base ++ " " ++ suffix)%string /\
    trimmed (Menu.ItemName m).

(** The keys of the six tables point at rows that exist: a user's city,
    channel and referrer, the two users of a referral, a restaurant's
    city and a menu row's restaurant. *)
Definition linked (t : Tables F) : Prop :=
  let city_ids := map City.CityID (cities_csv t) in
  let channel_ids := map Channel.ChannelID (acquisition_channels_csv t) in
  let user_ids := map User.UserID (users_csv t) in
  let restaurant_ids := map Restaurant.RestaurantID (restaurants_csv t) in
  Forall (fun u => In (User.CityID u) city_ids /\
                   In (User.AcquisitionChannelID u) channel_ids /\
                   match User.ReferredBy u with
                   | Some v => In v user_ids
                   | None => True
                   end) (users_csv t) /\
  Forall (fun rho => In (Referral.ReferrerUserID rho) user_ids /\
                     In (Referral.ReferredUserID rho) user_ids)
         (referrals_csv t) /\
  Forall (fun r => In (Restaurant.CityID r) city_ids) (restaurants_csv t) /\
  Forall (fun m => In (Menu.RestaurantID m) restaurant_ids) (menu_csv t).

End Spec.
End Stage1Spec.

(* ================================================================== *)
(** * More small inputs *)

Module Samples.
Import Examples.

(** The run with one order of the daily loop and one of the bot pass. *)
Definition late_run
  : result (list (Order.t float) * list (OrderItem.t float)) * Rand :=
  Stage2.generate_orders late_users late_restaurants late_menu (one_day 1 1)
                         late_rand.
Definition late_orders : list (Order.t float) :=
  fst (returned ([], []) late_run).
Definition late_lines : list (OrderItem.t float) :=
  snd (returned ([], []) late_run).

(** Ten users: two power users, one weekend-only user, one bot user and
    six regular users. *)
Definition ten_users : list User.t :=
  map (fun i => user (Z.of_nat i) 1 0) (seq 1 10).
Definition ten_run
  : result (list (Order.t float) * list (OrderItem.t float)) * Rand :=
  Stage2.generate_orders ten_users two_item_restaurants two_order_menu
                         (one_day 1 1) (rand_of [] []).
Definition ten_orders : list (Order.t float) :=
  fst (returned ([], []) ten_run).
Definition ten_lines : list (OrderItem.t float) :=
  snd (returned ([], []) ten_run).
Definition ten_cohorts
  : result (list Z * list Z * list Z * list Z) * Rand :=
  Stage2.segment_users ten_users (one_day (F := float) 1 1) (rand_of [] []).

(** Reviews of the orders of [late_run], at the rate 0.33. *)
Definition review_run : result (list Review.t) * Rand :=
  Stage2.generate_reviews late_orders late_users late_restaurants (lit 33 100)
                          (rand_of [] []).
Definition late_reviews : list Review.t := returned [] review_run.

(** The sessions of the user of the two orders of [cart_orders]. *)
Definition session_run : result (list Session.t) * Rand :=
  Stage3.generate_user_sessions Stage3.CONFIG two_item_users cart_orders
                                (rand_of [] []).
Definition session_table : list Session.t := returned [] session_run.

(** A user who signs up on 2025-01-01. *)
Definition new_year_users : list User.t := [user 1 1 (366 * minutes_per_day)].

(** A directory with the five input files, and the same directory with
    the generators in another state. *)
Definition input_files : FS float :=
  [("data/1_csv_files/users.csv", UsersFile two_item_users);
   ("data/1_csv_files/restaurants.csv", RestaurantsFile two_item_restaurants);
   ("data/1_csv_files/menu.csv", MenuFile two_item_menu);
   ("data/orders.csv", OrdersFile cart_orders);
   ("data/order_items.csv", OrderItemsFile cart_lines)]%string.
Definition full_world : Stage3.World float :=
  {| Stage3.fs := input_files; Stage3.rnd := rand_of [] [] |}.
Definition other_world : Stage3.World float :=
  {| Stage3.fs := input_files; Stage3.rnd := rand_of [1; 2] [3] |}.
Definition script_sessions_run : result (list Session.t) * Rand :=
  Stage3.generate_user_sessions
    Stage3.CONFIG two_item_users cart_orders
    (Stage3Spec.seeded toy_seed toy_seed full_world).
Definition script_cart_run : result (list Cart.t) * Rand :=
  Stage3.generate_cart_items
    Stage3.CONFIG two_item_users two_item_restaurants two_item_menu
    cart_orders cart_lines (snd script_sessions_run).

End Samples.


(* ================================================================== *)
(* ================================================================== *)
(** * Proofs *)

(* ================================================================== *)
(** * Lemmas on computations *)

Lemma bind_inv {W A B} (m : M W A) (k : A -> M W B) s b s2 :
  bind m k s = (Ok b, s2) ->
  exists a s1, m s = (Ok a, s1) /\ k a s1 = (Ok b, s2).
Proof.
  unfold bind. destruct (m s) as [[a|e] s1]; intros E.
  - exists a, s1. split; [reflexivity | exact E].
  - discriminate E.
Qed.

Lemma ret_inv {W A} (a b : A) (s s2 : W) :
  ret a s = (Ok b, s2) -> b = a /\ s2 = s.
Proof. unfold ret. intros E. inversion E. split; reflexivity. Qed.

(** Splits [x <- m ;; k] that returned into its two halves. *)
Tactic Notation "minv" hyp(H) :=
  let a := fresh "a" in
  let s1 := fresh "s" in
  let E := fresh "E" in
  apply bind_inv in H; destruct H as (a & s1 & E & H).

Tactic Notation "minv" hyp(H) "as" ident(a) ident(E) :=
  let s1 := fresh "s" in
  apply bind_inv in H; destruct H as (a & s1 & E & H).

Ltac rinv H :=
  let E1 := fresh "E" in
  let E2 := fresh "E" in
  apply ret_inv in H; destruct H as [E1 E2].

(** A property kept by every turn is kept by the loop. *)
Lemma foreach_inv {W A St} (P : St -> Prop) (body : A -> St -> M W St) l :
  (forall x st s st' s', In x l -> P st -> body x st s = (Ok st', s') -> P st') ->
  forall st s st' s', P st -> foreach l body st s = (Ok st', s') -> P st'.
Proof.
  induction l as [|x l IH]; intros Hbody st s st' s' HP E; simpl in E.
  - rinv E. subst. exact HP.
  - minv E. eapply (IH (fun y st0 s0 st1 s1 Hy => Hbody y st0 s0 st1 s1 (or_intror Hy))).
    + eapply Hbody; [left; reflexivity | exact HP | exact E0].
    + exact E.
Qed.

Lemma repeat_n_inv {W St} (P : St -> Prop) (body : St -> M W St) n :
  (forall st s st' s', P st -> body st s = (Ok st', s') -> P st') ->
  forall st s st' s', P st -> repeat_n n body st s = (Ok st', s') -> P st'.
Proof.
  intros Hbody. induction n as [|n IH]; intros st s st' s' HP E; simpl in E.
  - rinv E. subst. exact HP.
  - minv E. eapply IH; [eapply Hbody; eassumption | exact E].
Qed.

(* ================================================================== *)
(** * Lemmas on the random primitives *)

Lemma pick_In {A} d (x : A) l : In (pick d x l) (x :: l).
Proof.
  unfold pick. apply nth_In.
  assert (0 < Z.of_nat (length (x :: l))) by (simpl; lia).
  pose proof (Z.mod_pos_bound d _ H). lia.
Qed.

Lemma choice_inv {A} (l : list A) s a s' : choice l s = (Ok a, s') -> In a l.
Proof.
  destruct l as [|x l]; simpl; intros E.
  - discriminate E.
  - minv E. rinv E. subst. apply pick_In.
Qed.

Lemma np_choice_inv {A} (l : list A) s a s' : np_choice l s = (Ok a, s') -> In a l.
Proof.
  destruct l as [|x l]; simpl; intros E.
  - discriminate E.
  - minv E. rinv E. subst. apply pick_In.
Qed.

Lemma randint_inv a b s x s' : randint a b s = (Ok x, s') -> a <= x <= b.
Proof.
  unfold randint. destruct (b <? a) eqn:C; intros E.
  - discriminate E.
  - apply Z.ltb_ge in C. minv E. rinv E. subst.
    pose proof (Z.mod_pos_bound a0 (b - a + 1)). lia.
Qed.

Lemma extract_spec {A} i (l : list A) x r :
  extract i l = Some (x, r) ->
  In x l /\ incl r l /\ length l = S (length r).
Proof.
  revert i x r. induction l as [|y l IH]; intros i x r E; simpl in E.
  - discriminate E.
  - destruct i as [|i]; simpl in E.
    + inversion E; subst. repeat split; [left; reflexivity | apply incl_tl, incl_refl].
    + destruct (extract i l) as [[z r']|] eqn:Ei; [|discriminate E].
      inversion E; subst. destruct (IH _ _ _ Ei) as (Hin & Hincl & Hlen).
      repeat split.
      * right; exact Hin.
      * intros w [Hw|Hw]; [left; exact Hw | right; apply Hincl; exact Hw].
      * simpl. rewrite Hlen. reflexivity.
Qed.

Lemma sample_rows_inv {A} k (l : list A) s xs s' :
  sample_rows k l s = (Ok xs, s') -> length xs = k /\ incl xs l.
Proof.
  revert l s xs s'. induction k as [|k IH]; intros l s xs s' E; simpl in E.
  - rinv E. subst. split; [reflexivity | intros x []].
  - minv E.
    destruct (extract _ l) as [[x rest]|] eqn:Ex; [|discriminate E].
    minv E. rinv E. subst.
    destruct (extract_spec _ _ _ _ Ex) as (Hin & Hincl & _).
    destruct (IH _ _ _ _ E1) as (Hlen & Hsub).
    split; [simpl; rewrite Hlen; reflexivity|].
    intros y [Hy|Hy]; [subst; exact Hin | apply Hincl, Hsub, Hy].
Qed.

Lemma sample_inv {A} n (l : list A) s xs s' :
  sample n l s = (Ok xs, s') -> Z.of_nat (length xs) = n /\ incl xs l.
Proof.
  unfold sample. destruct ((n <? 0) || (Z.of_nat (length l) <? n)) eqn:C; intros E.
  - discriminate E.
  - apply orb_false_iff in C. destruct C as [C1 C2]. apply Z.ltb_ge in C1.
    destruct (sample_rows_inv _ _ _ _ _ E) as (Hlen & Hsub).
    split; [rewrite Hlen; lia | exact Hsub].
Qed.

Lemma iloc0_inv {W A} (l : list A) (s : W) x s' :
  iloc0 l s = (Ok x, s') -> exists l', l = x :: l'.
Proof.
  destruct l as [|y l]; simpl; intros E; [discriminate E|].
  rinv E. subst. eauto.
Qed.

Lemma sample1_inv {A} (l : list A) s x s' : sample1 l s = (Ok x, s') -> In x l.
Proof.
  unfold sample1. intros E. minv E.
  destruct (sample_inv _ _ _ _ _ E0) as (_ & Hsub).
  destruct (iloc0_inv _ _ _ _ E) as (l' & ->). apply Hsub. left; reflexivity.
Qed.

(* ================================================================== *)
(** * Lemmas on lists *)

Lemma Forall2_In_r {A B} (R : A -> B -> Prop) l l' y :
  Forall2 R l l' -> In y l' -> exists x, In x l /\ R x y.
Proof.
  induction 1 as [|x y' l l' Hxy _ IH]; intros Hin; [contradiction|].
  destruct Hin as [->|Hin].
  - exists x. split; [left; reflexivity | exact Hxy].
  - destruct (IH Hin) as (x' & Hx' & HR). exists x'. split; [right|]; assumption.
Qed.

(* ================================================================== *)
(** * Stage 2: the orders and their lines *)

Module OrderFacts.
Import Stage2 OrderSpec.

Section Facts.
Context {F : Type} `{Num F}.

Lemma hour_inv s h s' :
  get_order_hour_with_peaks (F := F) s = (Ok h, s') -> 0 <= h <= 23.
Proof.
  unfold get_order_hour_with_peaks. intros E. minv E.
  repeat match type of E with
         | (if ?c then _ else _) _ = _ => destruct c
         end;
    try (apply randint_inv in E; lia).
  apply choice_inv in E. simpl in E. intuition lia.
Qed.

Lemma add_item_inv oid m t0 l0 id0 s acc s' :
  add_item (F := F) oid m (t0, l0, id0) s = (Ok acc, s') ->
  exists q,
    In q [1; 2] /\
    acc = (fadd t0 (fmul (Menu.Price m) (of_Z q)),
           l0 ++ [{| OrderItem.OrderItemID := id0;
                     OrderItem.OrderID := oid;
                     OrderItem.MenuID := Menu.MenuID m;
                     OrderItem.Quantity := q;
                     OrderItem.ItemPrice := Menu.Price m;
                     OrderItem.Subtotal := fmul (Menu.Price m) (of_Z q) |}],
           id0 + 1).
Proof.
  unfold add_item. intros E. minv E. rinv E. exists a. split; [|exact E1].
  apply choice_inv in E0. simpl in E0. simpl. intuition.
Qed.

Lemma add_items_spec menu rid oid sel :
  forall t0 l0 id0 s t l id s',
    incl sel (available_menu menu rid) ->
    foreach sel (add_item oid) (t0, l0, id0) s = (Ok (t, l, id), s') ->
    exists l1,
      l = l0 ++ l1 /\ length l1 = length sel /\
      Forall (daily_line menu rid oid) l1 /\
      t = fold_left (fun acc i => fadd acc (OrderItem.Subtotal i)) l1 t0.
Proof.
  induction sel as [|m sel IH]; intros t0 l0 id0 s t l id s' Hin E; simpl in E.
  - rinv E. inversion E0; subst. exists []. rewrite app_nil_r.
    repeat split. constructor.
  - minv E. destruct (add_item_inv _ _ _ _ _ _ _ _ E0) as (q & Hq & ->).
    destruct (IH _ _ _ _ _ _ _ _ (fun x Hx => Hin x (or_intror Hx)) E)
      as (l1 & -> & Hlen & Hall & ->).
    eexists (_ :: l1). rewrite <- app_assoc. simpl.
    repeat split; [rewrite Hlen; reflexivity|].
    constructor; [|exact Hall].
    unfold daily_line; simpl. repeat split; [exact Hq|].
    exists m. repeat split. apply Hin. left; reflexivity.
Qed.

Lemma order_iteration_spec users restaurants menu pool current_date st s st' s' :
  order_iteration users restaurants menu pool current_date st s = (Ok st', s') ->
  st' = st \/
  exists o g, pushed st st' o g /\
              daily_order users restaurants menu pool current_date o g.
Proof.
  unfold order_iteration. intros E.
  minv E. rename a into user_id, E0 into Huser.
  minv E. rename a into user, E0 into Hrow.
  minv E. rename a into restaurant, E0 into Hrest.
  minv E. rename a into order_hour, E0 into Hhour.
  minv E. rename a into order_minute, E0 into Hminute.
  destruct (length (available_menu menu (Restaurant.RestaurantID restaurant)) =? 0)%nat
    eqn:Hmenu.
  { rinv E. left; exact E0. }
  right.
  minv E. rename a into num_items, E0 into Hnum.
  minv E. rename a into selected, E0 into Hsel.
  minv E. destruct a as [[total items] item_id]. rename E0 into Hitems.
  minv E. rename a into fee, E0 into Hfee.
  minv E. rename a into discount, E0 into Hdisc.
  minv E. rename a into status, E0 into Hstatus.
  minv E. rename a into address_row, E0 into Haddr.
  minv E. rename a into payment, E0 into Hpay.
  rinv E. subst st'.
  apply choice_inv in Huser.
  destruct (iloc0_inv _ _ _ _ Hrow) as (rest & Hrows).
  destruct (iloc0_inv _ _ _ _ Haddr) as (rest' & Hrows').
  rewrite Hrows in Hrows'. inversion Hrows'; subst address_row rest'.
  apply sample1_inv in Hrest. apply hour_inv in Hhour.
  apply randint_inv in Hminute.
  apply np_choice_inv in Hnum.
  destruct (sample_inv _ _ _ _ _ Hsel) as (Hsel_len & Hsel_in).
  destruct (add_items_spec _ _ _ _ _ _ _ _ _ _ _ _ Hsel_in Hitems)
    as (g & Hg & Hg_len & Hg_lines & Htotal).
  simpl in Hg. subst items.
  apply choice_inv in Hfee.
  eexists _, g. split.
  - unfold pushed; simpl.
    refine (conj _ (conj eq_refl (conj eq_refl eq_refl))). reflexivity.
  - constructor; simpl.
    + exact Huser.
    + exists user, rest, restaurant. repeat split; assumption.
    + split; [exact Hhour|]. exists order_minute. split; [exact Hminute | reflexivity].
    + reflexivity.
    + exact Hg_lines.
    + rewrite Hg_len. apply Nat.eqb_neq in Hmenu.
      simpl in Hnum. lia.
    + unfold sum_subtotals. rewrite <- Htotal. reflexivity.
    + simpl in Hfee. simpl. intuition.
    + unfold sum_subtotals. rewrite <- Htotal.
      destruct (fltb (of_Z 500) total).
      * minv Hdisc as r Hr. apply ret_inv in Hdisc. destruct Hdisc as [-> _].
        exists r. split; [|reflexivity].
        apply choice_inv in Hr. simpl in Hr. simpl. intuition.
      * apply ret_inv in Hdisc. destruct Hdisc as [-> _]. reflexivity.
    + unfold sum_subtotals. rewrite <- Htotal. reflexivity.
Qed.

Lemma bot_iteration_spec users restaurants menu config bot_users bot_user d st s st' s' :
  In bot_user (firstn 25 bot_users) -> 0 <= d <= 300 ->
  bot_iteration users restaurants menu bot_user
                (add_days (start_date config) d) st s = (Ok st', s') ->
  st' = st \/
  exists o g, pushed st st' o g /\
              bot_order users restaurants menu config bot_users o g.
Proof.
  unfold bot_iteration. intros Hbot Hd E.
  minv E as restaurant Hrest.
  destruct (length (available_menu menu (Restaurant.RestaurantID restaurant)) =? 0)%nat
    eqn:Hmenu.
  { apply ret_inv in E. destruct E as [-> _]. left; reflexivity. }
  right.
  minv E as item Hitem. minv E as order_hour Hhour.
  minv E as order_minute Hminute. minv E as address_row Haddr.
  apply ret_inv in E. destruct E as [-> _].
  apply sample1_inv in Hrest. apply sample1_inv in Hitem.
  apply randint_inv in Hhour. apply randint_inv in Hminute.
  destruct (iloc0_inv _ _ _ _ Haddr) as (rest & Hrows).
  eexists _, _. split.
  - unfold pushed; simpl.
    refine (conj _ (conj eq_refl (conj eq_refl eq_refl))). reflexivity.
  - constructor; simpl.
    + exact Hbot.
    + exists address_row, rest. split; [exact Hrows | reflexivity].
    + exists restaurant. split; [exact Hrest | reflexivity].
    + exists d, order_minute. repeat split; try reflexivity; try lia.
    + exists item. eexists. split; [exact Hitem|].
      split; [reflexivity|]. simpl. repeat split.
    + reflexivity.
    + reflexivity.
    + reflexivity.
Qed.

(** ** The invariant of the accumulators *)

Lemma ids_from_snoc first n :
  ids_from first (S n) = ids_from first n ++ [first + Z.of_nat n].
Proof. unfold ids_from. rewrite seq_S, map_app. reflexivity. Qed.

Lemma grouped_initial (P : Order.t F -> list (OrderItem.t F) -> Prop) :
  grouped P initial_state.
Proof.
  split; [|reflexivity]. exists []. simpl. repeat split. constructor.
Qed.

Lemma grouped_push (P : Order.t F -> list (OrderItem.t F) -> Prop) st st' o g :
  grouped P st -> pushed st st' o g -> P o g -> lines_of o g -> grouped P st'.
Proof.
  intros [(gs & Hall & Hitems & Hids) Hnext] (Hid & Ho & Hi & Hn) HP Hlines.
  split.
  - exists (gs ++ [g]). rewrite Ho, Hi, Hitems. repeat split.
    + apply Forall2_app; [exact Hall|]. constructor; [|constructor].
      split; assumption.
    + rewrite concat_app. simpl. rewrite app_nil_r. reflexivity.
    + rewrite map_app, length_app, Hids. simpl.
      rewrite Nat.add_1_r, ids_from_snoc. rewrite Hid, Hnext. reflexivity.
  - rewrite Hn, Hnext, Ho, length_app. cbn [List.length]. lia.
Qed.

Lemma grouped_weaken (P Q : Order.t F -> list (OrderItem.t F) -> Prop) st :
  (forall o g, P o g -> Q o g) -> grouped P st -> grouped Q st.
Proof.
  intros HPQ [(gs & Hall & Hitems & Hids) Hnext]. split; [|exact Hnext].
  exists gs. repeat split; try assumption.
  eapply Forall2_impl; [|exact Hall]. simpl. intros o g [HP Hl]. split; auto.
Qed.

Lemma daily_lines_of users restaurants menu pool day (o : Order.t F) g :
  daily_order users restaurants menu pool day o g -> lines_of o g.
Proof.
  intros Hd. unfold lines_of. eapply Forall_impl; [|exact (do_lines _ _ _ _ _ _ _ Hd)].
  intros i (Hi & _). exact Hi.
Qed.

Lemma bot_lines_of users restaurants menu config bots (o : Order.t F) g :
  bot_order users restaurants menu config bots o g -> lines_of o g.
Proof.
  intros Hb. destruct (bo_line _ _ _ _ _ _ _ Hb) as (m & i & _ & -> & Hi & _).
  constructor; [exact Hi | constructor].
Qed.

Lemma day_iteration_grouped users restaurants menu config pw wk rg day st s st' s' :
  In day (day_range (start_date config) (end_date config)) ->
  grouped (daily_row users restaurants menu config pw wk rg) st ->
  day_iteration users restaurants menu config pw wk rg day st s = (Ok st', s') ->
  grouped (daily_row users restaurants menu config pw wk rg) st'.
Proof.
  intros Hday Hst E. unfold day_iteration in E.
  eapply repeat_n_inv; [|exact Hst|exact E].
  intros st0 s0 st1 s1 H0 E0.
  destruct (order_iteration_spec _ _ _ _ _ _ _ _ _ E0) as [->|(o & g & Hp & Ho)];
    [exact H0|].
  eapply grouped_push; [exact H0 | exact Hp | | eapply daily_lines_of; exact Ho].
  exists day. split; [exact Hday | exact Ho].
Qed.

Lemma daily_loop_grouped users restaurants menu config pw wk rg st s st' s' :
  grouped (daily_row users restaurants menu config pw wk rg) st ->
  daily_loop users restaurants menu config pw wk rg st s = (Ok st', s') ->
  grouped (daily_row users restaurants menu config pw wk rg) st'.
Proof.
  intros Hst E. unfold daily_loop in E.
  eapply foreach_inv; [|exact Hst|exact E].
  intros day st0 s0 st1 s1 Hday H0 E0.
  eapply day_iteration_grouped; eassumption.
Qed.

Lemma bot_pass_grouped users restaurants menu config pw wk bots rg st s st' s' :
  grouped (any_row users restaurants menu config pw wk bots rg) st ->
  bot_pass users restaurants menu config bots st s = (Ok st', s') ->
  grouped (any_row users restaurants menu config pw wk bots rg) st'.
Proof.
  intros Hst E. unfold bot_pass in E.
  eapply foreach_inv; [|exact Hst|exact E].
  intros bot st0 s0 st1 s1 Hbot H0 E0. unfold bot_burst in E0.
  minv E0 as d Hd. minv E0 as n Hn. apply randint_inv in Hd.
  eapply repeat_n_inv; [|exact H0|exact E0].
  intros st2 s4 st3 s5 H2 E2.
  destruct (bot_iteration_spec _ _ _ _ _ _ _ _ _ _ _ Hbot Hd E2)
    as [->|(o & g & Hp & Ho)]; [exact H2|].
  eapply grouped_push; [exact H2 | exact Hp | right; exact Ho |].
  eapply bot_lines_of; exact Ho.
Qed.

(** ** What the invariant gives on the finished tables *)

Lemma ids_from_NoDup first n : NoDup (ids_from first n).
Proof.
  unfold ids_from. apply Finite.Injective_map_NoDup; [|apply seq_NoDup].
  intros a b Hab. lia.
Qed.

Lemma no_lines_of_other (orders : list (Order.t F)) gs oid :
  Forall2 lines_of orders gs ->
  ~ In oid (map Order.OrderID orders) ->
  Stage3.items_of (List.concat gs) oid = [].
Proof.
  unfold Stage3.items_of.
  induction 1 as [|o g orders gs Hl Hall IH]; intros Hnot; simpl; [reflexivity|].
  rewrite filter_app, IH by (intros Hin; apply Hnot; right; exact Hin).
  rewrite app_nil_r.
  assert (Hne : Order.OrderID o <> oid) by (intros Heq; apply Hnot; left; exact Heq).
  clear -Hl Hne. induction Hl as [|i g Hi Hg IHg]; simpl; [reflexivity|].
  rewrite Hi. destruct (Order.OrderID o =? oid) eqn:C;
    [apply Z.eqb_eq in C; contradiction | exact IHg].
Qed.

Lemma all_lines_of (o : Order.t F) g :
  lines_of o g -> Stage3.items_of g (Order.OrderID o) = g.
Proof.
  unfold Stage3.items_of.
  induction 1 as [|i g Hi Hg IH]; simpl; [reflexivity|].
  rewrite Hi, Z.eqb_refl, IH. reflexivity.
Qed.

Lemma lines_at (os1 os2 : list (Order.t F)) o gs1 g gs2 :
  Forall2 lines_of os1 gs1 -> lines_of o g -> Forall2 lines_of os2 gs2 ->
  NoDup (map Order.OrderID (os1 ++ o :: os2)) ->
  Stage3.items_of (List.concat (gs1 ++ g :: gs2)) (Order.OrderID o) = g.
Proof.
  intros H1 Hl H2 Hnd.
  rewrite map_app in Hnd. simpl in Hnd. apply NoDup_remove_2 in Hnd.
  rewrite concat_app. simpl. unfold Stage3.items_of.
  rewrite !filter_app.
  fold (Stage3.items_of (List.concat gs1) (Order.OrderID o)).
  fold (Stage3.items_of g (Order.OrderID o)).
  fold (Stage3.items_of (List.concat gs2) (Order.OrderID o)).
  rewrite (no_lines_of_other os1), (no_lines_of_other os2), all_lines_of.
  - rewrite app_nil_r. reflexivity.
  - exact Hl.
  - exact H2.
  - intros Hx. apply Hnd. apply in_or_app. right; exact Hx.
  - exact H1.
  - intros Hx. apply Hnd. apply in_or_app. left; exact Hx.
Qed.

Lemma Forall2_lines (P : Order.t F -> list (OrderItem.t F) -> Prop) orders gs :
  Forall2 (fun o g => P o g /\ lines_of o g) orders gs ->
  Forall2 lines_of orders gs.
Proof. intros Hall. eapply Forall2_impl; [|exact Hall]. intros ? ? [_ ?]; assumption. Qed.

Lemma lines_found (P : Order.t F -> list (OrderItem.t F) -> Prop) orders items o :
  tables_grouped P orders items -> In o orders ->
  exists g, P o g /\ lines_of o g /\ Stage3.items_of items (Order.OrderID o) = g.
Proof.
  intros (gs & Hall & -> & Hids) Hin.
  assert (Hnd : NoDup (map Order.OrderID orders))
    by (rewrite Hids; apply ids_from_NoDup).
  destruct (in_split _ _ Hin) as (os1 & os2 & ->).
  destruct (Forall2_app_inv_l _ _ Hall) as (gs1 & gs2 & H1 & H2 & ->).
  inversion H2 as [|? g ? gs3 [HP Hl] H3]; subst.
  exists g. split; [exact HP|]. split; [exact Hl|].
  apply (lines_at os1 os2); try assumption; eapply Forall2_lines; eassumption.
Qed.



Lemma line_owner (P : Order.t F -> list (OrderItem.t F) -> Prop) orders items i :
  tables_grouped P orders items -> In i items ->
  exists o g, In o orders /\ P o g /\ lines_of o g /\ In i g.
Proof.
  intros (gs & Hall & -> & _) Hin. apply in_concat in Hin.
  destruct Hin as (g & Hg & Hi). clear -Hall Hg Hi.
  induction Hall as [|o g' orders gs [HP Hl] Hall IH]; [contradiction|].
  destruct Hg as [->|Hg].
  - exists o, g. repeat split; try assumption. left; reflexivity.
  - destruct (IH Hg) as (o' & g0 & Ho' & H').
    exists o', g0. split; [right; exact Ho' | exact H'].
Qed.

(** The orders and lines [generate_orders] returns. *)
Lemma generate_orders_grouped users restaurants menu config s orders items s' :
  generate_orders users restaurants menu config s = (Ok (orders, items), s') ->
  exists pw wk bots rg,
    tables_grouped (any_row users restaurants menu config pw wk bots rg)
                   orders items.
Proof.
  unfold generate_orders. intros E.
  minv E as cohorts Hseg. destruct cohorts as [[[pw wk] bots] rg].
  minv E as st Hdaily. minv E as st' Hbot.
  apply ret_inv in E. destruct E as [E _]. inversion E; subst orders items.
  exists pw, wk, bots, rg.
  apply (daily_loop_grouped _ _ _ _ _ _ _ _ _ _ _ (grouped_initial _)) in Hdaily.
  eapply (grouped_weaken _ (any_row users restaurants menu config pw wk bots rg))
    in Hdaily; [|intros o g Hd; left; exact Hd].
  apply (bot_pass_grouped _ _ _ _ _ _ _ _ _ _ _ _ Hdaily) in Hbot.
  exact (proj1 Hbot).
Qed.

End Facts.
End OrderFacts.

Module DailyLoop.
Import Stage2 OrderSpec OrderFacts.

Section Facts.
Context {F : Type} `{Num F}.

Lemma candidate_restaurants_spec (restaurants : list (Restaurant.t F)) c r :
  In r (candidate_restaurants restaurants c) ->
  In r restaurants /\ Restaurant.IsActive r = true /\
  ((exists r', In r' restaurants /\ Restaurant.IsActive r' = true /\
               Restaurant.CityID r' = c) ->
   Restaurant.CityID r = c).
Proof.
  unfold candidate_restaurants.
  destruct (length (filter _ restaurants) =? 0)%nat eqn:C; intros Hin.
  - apply filter_In in Hin. destruct Hin as [Hin Hact]. cbv beta in Hact.
    repeat split; try assumption.
    intros (r' & Hr' & Hact' & Hcity).
    apply Nat.eqb_eq, length_zero_iff_nil in C.
    assert (Hin' : In r' (filter (fun r0 => (Restaurant.CityID r0 =? c)
                                              && Restaurant.IsActive r0) restaurants)).
    { apply filter_In. split; [exact Hr'|].
      rewrite Hact', Hcity, Z.eqb_refl. reflexivity. }
    rewrite C in Hin'. contradiction.
  - apply filter_In in Hin. destruct Hin as [Hin Hboth].
    apply andb_true_iff in Hboth. destruct Hboth as [Hcity Hact].
    apply Z.eqb_eq in Hcity. repeat split; try assumption.
    intros _. exact Hcity.
Qed.

(** C9.  Every order of the daily loop is placed at an active restaurant,
    which is in the city of the ordering user whenever that city has an
    active restaurant; the restaurant has an available menu item (a turn
    whose restaurant has none adds no order), and the order ids are
    1, 2, ... without a gap, the next id being one more than the number
    of orders: a skipped turn consumes no id. *)
Theorem daily_loop_restaurant_choice
  (users : list User.t) (restaurants : list (Restaurant.t F))
  (menu : list (Menu.t F)) (config : Config F) (pw wk rg : list Z)
  (s : Rand) (st : GenState F) (s' : Rand) :
  daily_loop users restaurants menu config pw wk rg initial_state s = (Ok st, s') ->
  map Order.OrderID (orders_data st) = ids_from 1 (length (orders_data st)) /\
  order_id st = 1 + Z.of_nat (length (orders_data st)) /\
  forall o, In o (orders_data st) ->
    exists u rest r,
      user_rows users (Order.UserID o) = u :: rest /\
      In r restaurants /\
      Restaurant.RestaurantID r = Order.RestaurantID o /\
      Restaurant.IsActive r = true /\
      ((exists r', In r' restaurants /\ Restaurant.IsActive r' = true /\
                   Restaurant.CityID r' = User.CityID u) ->
       Restaurant.CityID r = User.CityID u) /\
      available_menu menu (Restaurant.RestaurantID r) <> [].
Proof.
  intros E.
  pose proof (daily_loop_grouped _ _ _ _ _ _ _ _ _ _ _ (grouped_initial _) E)
    as [Htab Hnext].
  split; [destruct Htab as (gs & _ & _ & Hids); exact Hids|].
  split; [exact Hnext|].
  intros o Ho.
  destruct (lines_found _ _ _ _ Htab Ho) as (g & (day & _ & Hd) & _ & _).
  destruct (do_restaurant _ _ _ _ _ _ _ Hd) as (u & rest & r & Hu & Hr & Hrid & _).
  destruct (candidate_restaurants_spec _ _ _ Hr) as (Hin & Hact & Hcity).
  exists u, rest, r. repeat split; try assumption; [symmetry; exact Hrid|].
  pose proof (do_lines _ _ _ _ _ _ _ Hd) as Hlines.
  pose proof (do_count _ _ _ _ _ _ _ Hd) as Hcount.
  destruct g as [|i g]; [simpl in Hcount; lia|].
  inversion Hlines as [|? ? (_ & _ & _ & m & Hm & _) _]; subst.
  rewrite <- Hrid. intros Hnil. rewrite Hnil in Hm. contradiction.
Qed.

(** ** Delivery tracking *)

Lemma track_order_spec (o : Order.t F) data s data' s' :
  track_order o data s = (Ok data', s') ->
  if is_delivered o then exists d, data' = data ++ [d] /\ tracks o d
  else data' = data.
Proof.
  unfold track_order, is_delivered. destruct (Order.OrderStatus o); intros E.
  - minv E as delay Hdelay. minv E as est Hest. minv E as var Hvar.
    minv E as outlier Hout. minv E as actual Hact. destruct actual as [mins at_].
    minv E as partner Hp. apply ret_inv in E. destruct E as [-> _].
    apply randint_inv in Hdelay. apply randint_inv in Hest.
    apply randint_inv in Hvar.
    eexists. split; [reflexivity|]. unfold tracks; simpl.
    split; [reflexivity|]. unfold add_minutes.
    destruct (fltb outlier (lit 5 100)).
    + minv Hact as m Hm. apply randint_inv in Hm.
      apply ret_inv in Hact. destruct Hact as [Hact _]. inversion Hact; subst.
      unfold add_minutes. lia.
    + apply ret_inv in Hact. destruct Hact as [Hact _]. inversion Hact; subst.
      unfold add_minutes. lia.
  - apply ret_inv in E. destruct E as [-> _]. reflexivity.
Qed.

Lemma tracking_spec (orders : list (Order.t F)) :
  forall data s data' s',
    foreach orders track_order data s = (Ok data', s') ->
    exists rows, data' = data ++ rows /\
                 Forall2 tracks (filter is_delivered orders) rows.
Proof.
  induction orders as [|o orders IH]; intros data s data' s' E; simpl in E.
  - apply ret_inv in E. destruct E as [-> _]. exists [].
    rewrite app_nil_r. split; [reflexivity | constructor].
  - minv E as data1 Ho. apply track_order_spec in Ho.
    destruct (IH _ _ _ _ E) as (rows & -> & Hrows). simpl.
    destruct (is_delivered o).
    + destruct Ho as (d & -> & Hd). exists (d :: rows).
      rewrite <- app_assoc. split; [reflexivity|]. constructor; assumption.
    + subst data1. exists rows. split; [reflexivity | exact Hrows].
Qed.

Lemma count_in_filtered (orders : list (Order.t F)) o :
  NoDup (map Order.OrderID orders) -> In o orders ->
  count_occ Z.eq_dec (map Order.OrderID (filter is_delivered orders))
            (Order.OrderID o)
  = if is_delivered o then 1%nat else 0%nat.
Proof.
  induction orders as [|o' orders IH]; intros Hnd Hin; [contradiction|].
  simpl in Hnd. inversion Hnd as [|? ? Hnot Hnd']; subst.
  assert (Hzero : forall l : list (Order.t F),
                    ~ In (Order.OrderID o) (map Order.OrderID l) ->
                  count_occ Z.eq_dec (map Order.OrderID (filter is_delivered l))
                            (Order.OrderID o) = 0%nat).
  { intros l Hl. apply count_occ_not_In. intros Hx. apply Hl.
    apply in_map_iff in Hx. destruct Hx as (x & Hx & Hf).
    apply filter_In in Hf. apply in_map_iff. exists x. tauto. }
  destruct Hin as [->|Hin].
  - simpl. destruct (is_delivered o) eqn:D.
    + simpl. destruct (Z.eq_dec _ _) as [_|Hne]; [|contradiction].
      rewrite Hzero by exact Hnot. reflexivity.
    + apply Hzero. exact Hnot.
  - assert (Hne : Order.OrderID o' <> Order.OrderID o).
    { intros Heq. apply Hnot. rewrite Heq. apply in_map. exact Hin. }
    simpl. destruct (is_delivered o').
    + simpl. destruct (Z.eq_dec _ _) as [Heq|_]; [contradiction|].
      apply IH; assumption.
    + apply IH; assumption.
Qed.

(** C4.  Every tracking row belongs to a Delivered order, is dispatched
    no earlier than the order time and delivered no earlier than it is
    dispatched; a Delivered order has exactly one tracking row and a
    Cancelled order has none. *)
Theorem tracking_rows_per_order
  (users : list User.t) (restaurants : list (Restaurant.t F))
  (menu : list (Menu.t F)) (config : Config F)
  (s s1 s2 s3 : Rand) (orders : list (Order.t F))
  (items : list (OrderItem.t F)) (tracking : list Delivery.t) :
  generate_orders users restaurants menu config s = (Ok (orders, items), s1) ->
  generate_delivery_tracking orders s2 = (Ok tracking, s3) ->
  (forall d, In d tracking ->
     exists o, In o orders /\
               Order.OrderID o = Delivery.OrderID d /\
               Order.OrderStatus o = Delivered /\
               Order.OrderTime o <= Delivery.DispatchTime d /\
               Delivery.DispatchTime d <= Delivery.ActualDeliveryTime d) /\
  (forall o, In o orders ->
     count_occ Z.eq_dec (map Delivery.OrderID tracking) (Order.OrderID o)
     = match Order.OrderStatus o with
       | Delivered => 1%nat
       | Cancelled => 0%nat
       end).
Proof.
  intros Hgen Htrack.
  destruct (generate_orders_grouped _ _ _ _ _ _ _ _ Hgen)
    as (pw & wk & bots & rg & (gs & _ & _ & Hids)).
  unfold generate_delivery_tracking in Htrack.
  destruct (tracking_spec _ _ _ _ _ Htrack) as (rows & Heq & Hrows).
  simpl in Heq. subst rows. split.
  - intros d Hd.
    destruct (Forall2_In_r _ _ _ _ Hrows Hd) as (o & Ho & Hid & Ht1 & Ht2).
    apply filter_In in Ho. destruct Ho as [Ho Hdel].
    exists o. repeat split; try assumption; [symmetry; exact Hid|].
    unfold is_delivered in Hdel. destruct (Order.OrderStatus o);
      [reflexivity | discriminate Hdel].
  - intros o Ho.
    assert (Hmap : map Delivery.OrderID tracking
                   = map Order.OrderID (filter is_delivered orders)).
    { clear -Hrows. induction Hrows as [|x d l l' [Hid _] _ IH];
        [reflexivity | simpl; rewrite Hid, IH; reflexivity]. }
    rewrite Hmap, count_in_filtered; [| rewrite Hids; apply ids_from_NoDup | exact Ho].
    unfold is_delivered. destruct (Order.OrderStatus o); reflexivity.
Qed.

End Facts.
End DailyLoop.

(* ================================================================== *)
(** * Stage 3: the cart *)

Module CartFacts.
Import Stage2 Stage3 OrderSpec OrderFacts.

Section Facts.
Context {F : Type} `{Num F}.








End Facts.
End CartFacts.

(* ================================================================== *)
(** * Exact arithmetic *)

Module ExactFacts.

Lemma rhe_comp (q q' : Q) : (q == q')%Q -> round_half_even q = round_half_even q'.
Proof.
  intros E. unfold round_half_even. cbv zeta.
  rewrite (Qfloor_comp q q' E).
  assert (E2 : (q - inject_Z (Qfloor q') == q' - inject_Z (Qfloor q'))%Q)
    by (rewrite E; reflexivity).
  rewrite (Qcompare_comp _ _ E2 _ _ (Qeq_refl (1 # 2))). reflexivity.
Qed.

Lemma rhe_Z (n : Z) : round_half_even (inject_Z n) = n.
Proof.
  unfold round_half_even. rewrite Qfloor_Z.
  assert (E : ((inject_Z n - inject_Z n)%Q ?= 1 # 2)%Q = Lt).
  { apply (proj1 (Qlt_alt _ _)).
    assert (Hz : (inject_Z n - inject_Z n == 0)%Q) by ring.
    rewrite Hz. reflexivity. }
  rewrite E. reflexivity.
Qed.

Lemma rhe_floor (q : Q) :
  round_half_even q = Qfloor q \/ round_half_even q = Qfloor q + 1.
Proof.
  unfold round_half_even.
  destruct (Qcompare _ _); [destruct (Z.even _)| |]; auto.
Qed.

Lemma rhe_ge (n : Z) (q : Q) : (inject_Z n <= q)%Q -> n <= round_half_even q.
Proof.
  intros Hq. apply Qfloor_resp_le in Hq. rewrite Qfloor_Z in Hq.
  destruct (rhe_floor q) as [-> | ->]; lia.
Qed.

Lemma rhe_le (n : Z) (q : Q) : (q <= inject_Z n)%Q -> round_half_even q <= n.
Proof.
  intros Hq. pose proof (Qfloor_resp_le _ _ Hq) as Hf. rewrite Qfloor_Z in Hf.
  destruct (Z.eq_dec (Qfloor q) n) as [Heq|Hne].
  - assert (E : (q == inject_Z n)%Q).
    { apply Qle_antisym; [exact Hq|]. rewrite <- Heq. apply Qfloor_le. }
    rewrite (rhe_comp _ _ E), rhe_Z. lia.
  - destruct (rhe_floor q) as [-> | ->]; lia.
Qed.

Lemma Q2Qc_value (q : Q) : (Q2Qc q : Q) == q.
Proof. unfold Q2Qc. cbn [this]. apply Qred_correct. Qed.

(** The value of the exact [round(x, 2)]. *)
Lemma round2_value (x : Qc) :
  (round2 x : Q) == inject_Z (round_half_even (inject_Z 100 * x)) / inject_Z 100.
Proof.
  change (round2 x) with (qc_round2 x). unfold qc_round2. apply Q2Qc_value.
Qed.

Lemma of_Z_value (n : Z) : ((of_Z n : Qc) : Q) == inject_Z n.
Proof. change (of_Z n : Qc) with (Q2Qc (inject_Z n)). apply Q2Qc_value. Qed.

Lemma fadd_value (x y : Qc) : (fadd x y : Q) == x + y.
Proof. change (fadd x y) with (Q2Qc (x + y)). apply Q2Qc_value. Qed.

Lemma fsub_value (x y : Qc) : (fsub x y : Q) == x - y.
Proof.
  change (fsub x y) with (Q2Qc (x + Q2Qc (- y))).
  rewrite !Q2Qc_value. reflexivity.
Qed.

Lemma fmul_value (x y : Qc) : (fmul x y : Q) == x * y.
Proof. change (fmul x y) with (Q2Qc (x * y)). apply Q2Qc_value. Qed.

Lemma fdiv_value (x y : Qc) : (fdiv x y : Q) == x / y.
Proof.
  change (fdiv x y) with (Q2Qc (x * Q2Qc (/ y))).
  rewrite !Q2Qc_value. reflexivity.
Qed.


Lemma round2_two_decimals (x : Qc) : two_decimals (round2 x).
Proof. eexists. apply round2_value. Qed.

Lemma round2_fixed (x : Qc) : two_decimals x -> round2 x = x.
Proof.
  intros (n & Hx). apply Qc_is_canon. rewrite round2_value.
  assert (E : (inject_Z 100 * x == inject_Z n)%Q) by (rewrite Hx; field).
  rewrite (rhe_comp _ _ E), rhe_Z. symmetry. exact Hx.
Qed.

Lemma two_decimals_of_Z (n : Z) : two_decimals (of_Z n).
Proof.
  exists (100 * n). rewrite of_Z_value, inject_Z_mult. field.
Qed.

Lemma two_decimals_add (x y : Qc) :
  two_decimals x -> two_decimals y -> two_decimals (fadd x y).
Proof.
  intros (a & Ha) (b & Hb). exists (a + b).
  rewrite fadd_value, Ha, Hb, inject_Z_plus. field.
Qed.

Lemma two_decimals_mul_Z (x : Qc) (n : Z) :
  two_decimals x -> two_decimals (fmul x (of_Z n)).
Proof.
  intros (a & Ha). exists (a * n).
  rewrite fmul_value, of_Z_value, Ha, inject_Z_mult. field.
Qed.

Lemma fltb_lt (x y : Qc) : fltb x y = true -> (x < y)%Qc.
Proof.
  simpl. unfold qc_ltb. intros E. apply Qclt_alt.
  destruct (x ?= y)%Qc; try discriminate E. reflexivity.
Qed.

Lemma fmul_zero (x : Qc) : fmul x (of_Z 0) = of_Z 0.
Proof.
  apply Qc_is_canon. rewrite fmul_value, of_Z_value. ring.
Qed.

(** [random.random()] lies in [0, 1). *)
Lemma random_unit (s : Rand) (u : Qc) (s' : Rand) :
  random_random s = (Ok u, s') -> (0 <= u)%Q /\ (u < 1)%Q.
Proof.
  unfold random_random. intros E. minv E as d Hd.
  apply ret_inv in E. destruct E as [-> _].
  assert (Hpos : 0 < 2 ^ 53) by reflexivity.
  pose proof (Z.mod_pos_bound d (2 ^ 53) Hpos) as [Hlo Hhi].
  rewrite fdiv_value, !of_Z_value.
  assert (Hq : (0 < inject_Z (2 ^ 53))%Q).
  { change (inject_Z 0 < inject_Z (2 ^ 53))%Q. rewrite <- Zlt_Qlt. exact Hpos. }
  split.
  - apply Qle_shift_div_l; [exact Hq|]. rewrite Qmult_0_l.
    change (inject_Z 0 <= inject_Z (d mod 2 ^ 53))%Q.
    rewrite <- Zle_Qle. exact Hlo.
  - apply Qlt_shift_div_r; [exact Hq|]. rewrite Qmult_1_l.
    rewrite <- Zlt_Qlt. exact Hhi.
Qed.

End ExactFacts.

Module ShareFacts.
Import ExactFacts.

Lemma q_trunc_floor (q : Q) : (0 <= q)%Q -> q_trunc q = Qfloor q.
Proof.
  intros Hq. unfold q_trunc, Qfloor. destruct q as [n d]. simpl.
  apply Z.quot_div_nonneg; [|reflexivity].
  unfold Qle in Hq. simpl in Hq. lia.
Qed.

(** In exact arithmetic, with a rate [r] in [0, 1): a number [a] of
    abandoned rows up to the target makes their share of the cart at most
    [r], and the target itself misses the share [r] by less than one
    row. *)
Lemma exact_abandoned_share (config : Stage3.Config Qc) (n a : Z) :
  (0 <= Stage3.abandoned_cart_rate config)%Q ->
  (Stage3.abandoned_cart_rate config < 1)%Q ->
  0 <= n ->
  (a <= Stage3.abandoned_target config n ->
   (inject_Z a <= Stage3.abandoned_cart_rate config * inject_Z (n + a))%Q) /\
  (a = Stage3.abandoned_target config n ->
   (Stage3.abandoned_cart_rate config * inject_Z (n + a + 1) < inject_Z (a + 1))%Q).
Proof.
  intros Hr0 Hr1 Hn. unfold Stage3.abandoned_target.
  set (r := Stage3.abandoned_cart_rate config) in *.
  set (v := fdiv (fmul (of_Z n) r) (fsub (of_Z 1) r)).
  assert (Hv : ((v : Qc) : Q) == inject_Z n * r / (1 - r)).
  { unfold v. rewrite fdiv_value, fmul_value, fsub_value, !of_Z_value. reflexivity. }
  assert (Hd : (0 < 1 - r)%Q) by lra.
  assert (Hn' : (0 <= inject_Z n)%Q).
  { change 0%Q with (inject_Z 0). rewrite <- Zle_Qle. exact Hn. }
  assert (Hnr : (0 <= inject_Z n * r)%Q) by (apply Qmult_le_0_compat; assumption).
  assert (Hv0 : (0 <= (v : Qc))%Q).
  { rewrite Hv. apply Qle_shift_div_l; [exact Hd|]. lra. }
  change (trunc v) with (q_trunc (v : Qc)). rewrite (q_trunc_floor _ Hv0).
  pose proof (Qfloor_le (v : Qc)) as Hlo. pose proof (Qlt_floor (v : Qc)) as Hhi.
  assert (Hmul : ((v : Qc) * (1 - r) == inject_Z n * r)%Q).
  { rewrite Hv. field. lra. }
  split.
  - intros Ha. rewrite Zle_Qle in Ha.
    assert (Hav : (inject_Z a <= (v : Qc))%Q) by lra.
    assert (H1 : (inject_Z a * (1 - r) <= (v : Qc) * (1 - r))%Q)
      by (apply Qmult_le_compat_r; lra).
    rewrite Hmul in H1. rewrite inject_Z_plus. lra.
  - intros ->. rewrite !inject_Z_plus in *. 
    set (t := inject_Z (Qfloor (v : Qc))) in *.
    assert (H1 : ((v : Qc) * (1 - r) < (t + inject_Z 1) * (1 - r))%Q)
      by (apply Qmult_lt_compat_r; lra).
    rewrite Hmul in H1. change (inject_Z 1) with 1%Q in *. lra.
Qed.

End ShareFacts.

(* ================================================================== *)
(** * Stage 1: restaurant ratings *)

Module RatingFacts.
Import Stage1 ExactFacts.



Lemma round2_range (x : Qc) (lo hi : Z) :
  (inject_Z lo <= inject_Z 100 * x)%Q -> (inject_Z 100 * x <= inject_Z hi)%Q ->
  (inject_Z lo / inject_Z 100 <= (round2 x : Qc))%Q /\
  ((round2 x : Qc) <= inject_Z hi / inject_Z 100)%Q.
Proof.
  intros Hlo Hhi. rewrite round2_value.
  apply rhe_ge in Hlo. apply rhe_le in Hhi.
  rewrite Zle_Qle in Hlo, Hhi. set (k := inject_Z (round_half_even _)) in *.
  assert (H100 : (0 < inject_Z 100)%Q) by reflexivity.
  split.
  - apply Qle_shift_div_l; [exact H100|].
    assert (E : (inject_Z lo / inject_Z 100 * inject_Z 100 == inject_Z lo)%Q)
      by (field; discriminate).
    rewrite E. exact Hlo.
  - apply Qle_shift_div_r; [exact H100|].
    assert (E : (inject_Z hi / inject_Z 100 * inject_Z 100 == inject_Z hi)%Q)
      by (field; discriminate).
    rewrite E. exact Hhi.
Qed.



End RatingFacts.

(* ================================================================== *)
(** * Order amounts, in exact arithmetic *)

Module AmountFacts.
Import Stage2 OrderSpec OrderFacts ExactFacts.

Lemma realistic_price_cents category s p s' :
  Stage1.generate_realistic_price category s = (Ok p, s') -> two_decimals p.
Proof.
  unfold Stage1.generate_realistic_price.
  destruct (if String.eqb category "Appetizer" then _ else _) as [lo hi].
  intros E. minv E as u Hu. apply ret_inv in E. destruct E as [-> _].
  apply round2_two_decimals.
Qed.

Lemma add_menu_item_cents fake restaurant acc s acc' s' :
  priced_in_cents (fst acc) ->
  Stage1.add_menu_item fake restaurant acc s = (Ok acc', s') ->
  priced_in_cents (fst acc').
Proof.
  unfold Stage1.add_menu_item. destruct acc as [menu_data menu_id].
  intros Hacc E. minv E as category Hc. minv E as base Hb. minv E as suffix Hs.
  minv E as description Hd. minv E as price Hp. minv E as veg Hv.
  minv E as available Ha. apply ret_inv in E. destruct E as [-> _]. simpl.
  apply Forall_app. split; [exact Hacc|].
  constructor; [|constructor]. simpl. eapply realistic_price_cents; exact Hp.
Qed.

(** The menu written by Stage 1 is priced in cents. *)
Lemma generate_menu_cents fake restaurants s menu s' :
  Stage1.generate_menu fake restaurants s = (Ok menu, s') ->
  priced_in_cents menu.
Proof.
  unfold Stage1.generate_menu. intros E. minv E as acc Hacc.
  apply ret_inv in E. destruct E as [-> _].
  refine (foreach_inv (fun acc : list (Menu.t Qc) * Z => priced_in_cents (fst acc))
                      _ _ _ _ _ _ _ _ Hacc); [|constructor].
  intros r acc0 t0 acc1 t1 _ H0 E0. unfold Stage1.add_restaurant_menu in E0.
  minv E0 as n Hn.
  refine (repeat_n_inv (fun acc : list (Menu.t Qc) * Z => priced_in_cents (fst acc))
                       _ _ _ _ _ _ _ H0 E0).
  intros acc2 t3 acc3 t4 H2 E2. eapply add_menu_item_cents; eassumption.
Qed.

Lemma available_menu_incl (menu : list (Menu.t Qc)) rid m :
  In m (available_menu menu rid) -> In m menu.
Proof. unfold available_menu. intros Hm. apply filter_In in Hm. tauto. Qed.

Lemma sum_cents (g : list (OrderItem.t Qc)) :
  Forall (fun i => two_decimals (OrderItem.Subtotal i)) g ->
  two_decimals (sum_subtotals g).
Proof.
  unfold sum_subtotals. generalize (two_decimals_of_Z 0).
  generalize (of_Z 0 : Qc) as acc. intros acc Hacc Hall. revert acc Hacc.
  induction Hall as [|i g Hi _ IH]; intros acc Hacc; simpl; [exact Hacc|].
  apply IH. apply two_decimals_add; assumption.
Qed.

Lemma daily_sum_cents users restaurants menu pool day (o : Order.t Qc) g :
  priced_in_cents menu ->
  daily_order users restaurants menu pool day o g ->
  two_decimals (sum_subtotals g).
Proof.
  intros Hmenu Hd. apply sum_cents.
  eapply Forall_impl; [|exact (do_lines _ _ _ _ _ _ _ Hd)].
  intros i (_ & _ & Hsub & m & Hm & _ & Hprice).
  rewrite Hsub, Hprice. apply two_decimals_mul_Z.
  unfold priced_in_cents in Hmenu. rewrite Forall_forall in Hmenu.
  apply Hmenu. eapply available_menu_incl; exact Hm.
Qed.

(** C2.  With the menu Stage 1 writes, every order row has
    FinalAmount = round(TotalAmount + DeliveryFee - DiscountAmount, 2),
    and a nonzero DiscountAmount occurs only when the sum of the order's
    line subtotals exceeds 500, and is then that sum times 0.10 or 0.15,
    rounded to two decimals. *)
Theorem order_amounts
  (fake : Faker) (restaurants0 : list (Restaurant.t Qc))
  (s0 s0' : Rand) (menu : list (Menu.t Qc))
  (users : list User.t) (restaurants : list (Restaurant.t Qc))
  (config : Config Qc) (s s' : Rand)
  (orders : list (Order.t Qc)) (items : list (OrderItem.t Qc)) :
  Stage1.generate_menu fake restaurants0 s0 = (Ok menu, s0') ->
  generate_orders users restaurants menu config s = (Ok (orders, items), s') ->
  forall o, In o orders ->
    let subtotal := sum_subtotals (Stage3.items_of items (Order.OrderID o)) in
    Order.FinalAmount o =
      round2 (fsub (fadd (Order.TotalAmount o) (of_Z (Order.DeliveryFee o)))
                   (Order.DiscountAmount o)) /\
    (Order.DiscountAmount o <> of_Z 0 ->
     (of_Z 500 < subtotal)%Qc /\
     (Order.DiscountAmount o = round2 (fmul subtotal (lit 10 100)) \/
      Order.DiscountAmount o = round2 (fmul subtotal (lit 15 100)))).
Proof.
  intros Hmenu Hgen o Ho subtotal.
  apply generate_menu_cents in Hmenu.
  destruct (generate_orders_grouped _ _ _ _ _ _ _ _ Hgen)
    as (pw & wk & bots & rg & Htab).
  destruct (lines_found _ _ _ _ Htab Ho) as (g & Hrow & _ & Hg).
  subst subtotal. rewrite Hg. destruct Hrow as [(day & _ & Hd) | Hb].
  - pose proof (daily_sum_cents _ _ _ _ _ _ _ Hmenu Hd) as Hcents.
    pose proof (do_total _ _ _ _ _ _ _ Hd) as Htotal.
    rewrite (round2_fixed _ Hcents) in Htotal.
    split.
    + rewrite Htotal. exact (do_final _ _ _ _ _ _ _ Hd).
    + intros Hne. pose proof (do_discount _ _ _ _ _ _ _ Hd) as Hdisc.
      destruct (fltb (of_Z 500) (sum_subtotals g)) eqn:Hgt; [|contradiction].
      split; [apply fltb_lt; exact Hgt|].
      destruct Hdisc as (r & Hr & Hdisc). simpl in Hr.
      destruct Hr as [<-|[<-|[<-|[]]]]; [|left; exact Hdisc|right; exact Hdisc].
      exfalso. apply Hne. rewrite Hdisc, fmul_zero.
      apply round2_fixed, two_decimals_of_Z.
  - destruct (bo_line _ _ _ _ _ _ _ Hb)
      as (m & i & Hm & _ & _ & _ & _ & _ & _ & Htotal & Hfinal).
    rewrite (bo_fee _ _ _ _ _ _ _ Hb), (bo_discount _ _ _ _ _ _ _ Hb).
    split; [|intros Hne; contradiction].
    rewrite Htotal, Hfinal.
    assert (Hp : two_decimals (Menu.Price m)).
    { unfold priced_in_cents in Hmenu. rewrite Forall_forall in Hmenu.
      apply Hmenu. eapply available_menu_incl; exact Hm. }
    assert (E : fsub (fadd (Menu.Price m) (of_Z 0)) (of_Z 0) = Menu.Price m).
    { apply Qc_is_canon. rewrite fsub_value, fadd_value, of_Z_value. ring. }
    rewrite E. symmetry. apply round2_fixed. exact Hp.
Qed.

End AmountFacts.

(* ================================================================== *)
(** * Lines and totals *)

Module TotalFacts.
Import Stage2 OrderSpec OrderFacts.



Section Facts.
Context {F : Type} `{Num F}.


End Facts.

(** In exact arithmetic, on a menu priced in cents, the total of every
    order is the sum of its line subtotals: the two differ by floating
    rounding only. *)
Lemma exact_total_is_sum
  (users : list User.t) (restaurants : list (Restaurant.t Qc))
  (menu : list (Menu.t Qc)) (config : Config Qc) (s s' : Rand)
  (orders : list (Order.t Qc)) (items : list (OrderItem.t Qc)) :
  priced_in_cents menu ->
  generate_orders users restaurants menu config s = (Ok (orders, items), s') ->
  forall o, In o orders ->
    sum_subtotals (Stage3.items_of items (Order.OrderID o)) = Order.TotalAmount o.
Proof.
  intros Hmenu Hgen o Ho.
  destruct (generate_orders_grouped _ _ _ _ _ _ _ _ Hgen)
    as (pw & wk & bots & rg & Htab).
  destruct (lines_found _ _ _ _ Htab Ho) as (g & Hrow & _ & Hg).
  rewrite Hg. destruct Hrow as [(day & _ & Hd) | Hb].
  - rewrite (do_total _ _ _ _ _ _ _ Hd). symmetry.
    apply ExactFacts.round2_fixed. eapply AmountFacts.daily_sum_cents; eassumption.
  - destruct (bo_line _ _ _ _ _ _ _ Hb)
      as (m & i & _ & -> & _ & _ & _ & _ & Hs & Ht & _).
    rewrite Ht. unfold sum_subtotals. cbn [fold_left]. rewrite Hs.
    apply Qc_is_canon.
    rewrite ExactFacts.fadd_value, ExactFacts.of_Z_value. ring.
Qed.

(** On the input of [orders_before_signup], whatever the generators
    draw, every order the run returns precedes the signup of its user. *)
Lemma late_orders_all_streams (s s' : Rand)
  (orders : list (Order.t float)) (items : list (OrderItem.t float)) :
  generate_orders Examples.late_users Examples.late_restaurants
                  Examples.late_menu (Examples.one_day 1 1) s
    = (Ok (orders, items), s') ->
  forall o, In o orders ->
    exists u, In u Examples.late_users /\
              User.UserID u = Order.UserID o /\
              Order.OrderTime o < User.SignUpDate u.
Proof.
  intros Hgen o Ho.
  destruct (generate_orders_grouped _ _ _ _ _ _ _ _ Hgen)
    as (pw & wk & bots & rg & Htab).
  destruct (lines_found _ _ _ _ Htab Ho) as (g & Hrow & _ & _).
  assert (Hlate : forall u rest,
            user_rows Examples.late_users (Order.UserID o) = u :: rest ->
            In u Examples.late_users /\ User.UserID u = Order.UserID o /\
            User.SignUpDate u = 365 * minutes_per_day).
  { intros u rest Hu.
    assert (Hin : In u (user_rows Examples.late_users (Order.UserID o)))
      by (rewrite Hu; left; reflexivity).
    unfold user_rows in Hin. apply filter_In in Hin. destruct Hin as [Hin Hid].
    apply Z.eqb_eq in Hid. split; [exact Hin|]. split; [exact Hid|].
    simpl in Hin. destruct Hin as [<-|[<-|[]]]; reflexivity. }
  destruct Hrow as [(day & Hday & Hd) | Hb].
  - destruct (do_restaurant _ _ _ _ _ _ _ Hd) as (u & rest & _ & Hu & _).
    destruct (Hlate _ _ Hu) as (Hin & Hid & Hsign).
    exists u. split; [exact Hin|]. split; [exact Hid|].
    destruct (do_time _ _ _ _ _ _ _ Hd) as (Hh & m & Hm & ->).
    simpl in Hday. destruct Hday as [<-|[]].
    rewrite Hsign. unfold replace_hm, date_of, add_days, minutes_per_day.
    change (0 / 1440) with 0. lia.
  - destruct (bo_address _ _ _ _ _ _ _ Hb) as (u & rest & Hu & _).
    destruct (Hlate _ _ Hu) as (Hin & Hid & Hsign).
    exists u. split; [exact Hin|]. split; [exact Hid|].
    destruct (bo_time _ _ _ _ _ _ _ Hb) as (d & m & Hd & Hh & Hm & -> & _).
    rewrite Hsign. unfold replace_hm, date_of, add_days, minutes_per_day.
    simpl Stage2.start_date. rewrite Z.add_0_l, Z.div_mul by lia. lia.
Qed.

(** C10.  On 2024-01-01 the daily loop places an order for a user who
    signs up on 2024-12-31, and the bot pass places an order, before its
    user's signup as well, at a restaurant that is not active. *)
Theorem orders_before_signup :
  exists pw wk bots rg s1 st s2 st' s3,
    segment_users Examples.late_users (Examples.one_day 1 1) Examples.late_rand
      = (Ok (pw, wk, bots, rg), s1) /\
    daily_loop Examples.late_users Examples.late_restaurants Examples.late_menu
               (Examples.one_day 1 1) pw wk rg initial_state s1 = (Ok st, s2) /\
    bot_pass Examples.late_users Examples.late_restaurants Examples.late_menu
             (Examples.one_day 1 1) bots st s2 = (Ok st', s3) /\
    (exists o u,
       In o (orders_data st) /\ In u Examples.late_users /\
       User.UserID u = Order.UserID o /\
       Order.OrderTime o < User.SignUpDate u) /\
    (exists o u r,
       In o (skipn (length (orders_data st)) (orders_data st')) /\
       In u Examples.late_users /\ User.UserID u = Order.UserID o /\
       Order.OrderTime o < User.SignUpDate u /\
       In r Examples.late_restaurants /\
       Restaurant.RestaurantID r = Order.RestaurantID o /\
       Restaurant.IsActive r = false).
Proof.
  eexists _, _, _, _, _, _, _, _, _.
  split; [vm_compute; reflexivity|].
  split; [vm_compute; reflexivity|].
  split; [vm_compute; reflexivity|].
  split.
  - eexists _, _. split; [left; reflexivity|].
    split; [right; left; reflexivity|]. split; reflexivity.
  - eexists _, _, _. split; [left; reflexivity|].
    split; [left; reflexivity|]. split; [reflexivity|]. split; [reflexivity|].
    split; [right; left; reflexivity|]. split; reflexivity.
Qed.

End TotalFacts.

(* ================================================================== *)
(** * Stage 1: referrals *)

Module ReferralFacts.
Import Stage1 ReferralSpec.

Lemma same_user_refl u : same_user u u.
Proof. repeat split. Qed.

Lemma set_referred_by_same users cur idx v :
  Forall2 same_user users cur ->
  Forall2 same_user users (set_referred_by idx v cur).
Proof.
  intros Hall. revert idx.
  induction Hall as [|u u' users cur Hu Hall IH]; intros idx; simpl; [constructor|].
  destruct idx as [|idx]; constructor; try assumption; try apply IH.
Qed.

Lemma set_referred_by_other cur idx v i :
  i <> idx -> nth_error (set_referred_by idx v cur) i = nth_error cur i.
Proof.
  revert idx i. induction cur as [|u cur IH]; intros idx i Hne; simpl; [reflexivity|].
  destruct idx as [|idx]; destruct i as [|i]; simpl; try reflexivity;
    [contradiction | apply IH; congruence].
Qed.

Lemma set_referred_by_at cur idx v u :
  nth_error cur idx = Some u ->
  exists updated,
    nth_error (set_referred_by idx v cur) idx = Some updated /\
    same_user u updated /\ User.ReferredBy updated = Some v.
Proof.
  revert idx. induction cur as [|u0 cur IH]; intros idx Hn.
  - destruct idx; discriminate Hn.
  - destruct idx as [|idx]; simpl in *.
    + inversion Hn; subst. eexists. split; [reflexivity|]. repeat split.
    + apply IH. exact Hn.
Qed.

Lemma Forall2_nth_error {A B} (R : A -> B -> Prop) l l' i x :
  Forall2 R l l' -> nth_error l i = Some x ->
  exists y, nth_error l' i = Some y /\ R x y.
Proof.
  intros Hall. revert i. induction Hall as [|a b l l' Hab _ IH]; intros i Hn.
  - destruct i; discriminate Hn.
  - destruct i as [|i]; simpl in *.
    + inversion Hn; subst. eauto.
    + apply IH. exact Hn.
Qed.

(** The candidates among the current rows are those among the rows read. *)
Lemma potential_referrers_same users cur u :
  Forall2 same_user users cur ->
  Forall2 same_user (potential_referrers users u) (potential_referrers cur u).
Proof.
  unfold potential_referrers.
  induction 1 as [|r r' users cur (H1 & H2 & H3 & H4) _ IH]; simpl; [constructor|].
  rewrite H1, H2.
  destruct ((User.SignUpDate r <? User.SignUpDate u)
            && negb (User.UserID r =? User.UserID u));
    [constructor; [repeat split; assumption | exact IH] | exact IH].
Qed.

Lemma refer_spec users cur refs idx u s cur' refs' s' :
  Forall2 same_user users cur ->
  nth_error users idx = Some u ->
  refer (idx, u) (cur, refs) s = (Ok (cur', refs'), s') ->
  Forall2 same_user users cur' /\
  (forall i, i <> idx -> nth_error cur' i = nth_error cur i) /\
  if has_referrer users u
  then exists rho, refs' = refs ++ [rho] /\ links users cur' (idx, u) rho
  else refs' = refs /\ cur' = cur.
Proof.
  intros Hsame Hn E. unfold refer in E.
  pose proof (potential_referrers_same _ _ u Hsame) as Hcand.
  unfold has_referrer. rewrite (Forall2_length Hcand).
  destruct (0 <? length (potential_referrers cur u))%nat eqn:C.
  - minv E as referrer Hr. minv E as reward Hw. minv E as status Hs.
    apply ret_inv in E. destruct E as [E _]. inversion E; subst cur' refs'.
    apply sample1_inv in Hr.
    destruct (Forall2_In_r _ _ _ _ Hcand Hr) as (r0 & Hr0 & Hid & Hdate & _ & _).
    unfold potential_referrers in Hr0. apply filter_In in Hr0.
    destruct Hr0 as [Hin Hp]. apply andb_true_iff in Hp. destruct Hp as [Hlt Hne].
    apply Z.ltb_lt in Hlt. apply negb_true_iff, Z.eqb_neq in Hne.
    split; [apply set_referred_by_same; exact Hsame|].
    split; [intros i Hi; apply set_referred_by_other; exact Hi|].
    eexists. split; [reflexivity|]. unfold links; simpl.
    split; [reflexivity|]. split; [reflexivity|].
    destruct (Forall2_nth_error _ _ _ _ _ Hsame Hn) as (u' & Hu' & Hsu).
    destruct (set_referred_by_at _ _ (User.UserID referrer) _ Hu')
      as (updated & Hupd & Hsame' & Hby).
    exists r0, updated. rewrite <- Hid.
    repeat split; try assumption;
      destruct Hsu as (A1 & A2 & A3 & A4); destruct Hsame' as (B1 & B2 & B3 & B4);
      congruence.
  - apply ret_inv in E. destruct E as [E _]. inversion E; subst cur' refs'.
    split; [exact Hsame|]. split; [intros; reflexivity|]. split; reflexivity.
Qed.

Lemma refer_loop users L :
  forall cur refs s cur' refs' s',
    Forall2 same_user users cur ->
    NoDup (map fst L) ->
    (forall p, In p L -> nth_error users (fst p) = Some (snd p)) ->
    foreach L refer (cur, refs) s = (Ok (cur', refs'), s') ->
    Forall2 same_user users cur' /\
    (forall i, ~ In i (map fst L) -> nth_error cur' i = nth_error cur i) /\
    (forall p, In p L -> has_referrer users (snd p) = false ->
               nth_error cur' (fst p) = nth_error cur (fst p)) /\
    exists new,
      refs' = refs ++ new /\
      Forall2 (links users cur')
              (filter (fun p => has_referrer users (snd p)) L) new.
Proof.
  induction L as [|[idx u] L IH]; intros cur refs s cur' refs' s' Hsame Hnd Hnth E;
    simpl in E.
  - apply ret_inv in E. destruct E as [E _]. inversion E; subst.
    split; [exact Hsame|]. split; [reflexivity|]. split; [intros p []|].
    exists []. rewrite app_nil_r. split; [reflexivity | constructor].
  - minv E as acc Hstep. destruct acc as [cur1 refs1].
    simpl in Hnd. inversion Hnd as [|? ? Hnot Hnd']; subst.
    pose proof (Hnth _ (or_introl eq_refl)) as Hu. simpl in Hu.
    destruct (refer_spec _ _ _ _ _ _ _ _ _ Hsame Hu Hstep) as (Hsame1 & Hother1 & Hcase).
    destruct (IH _ _ _ _ _ _ Hsame1 Hnd' (fun p Hp => Hnth p (or_intror Hp)) E)
      as (Hsame' & Hother' & Hskip' & new & -> & Hnew).
    split; [exact Hsame'|].
    split.
    { intros i Hi. simpl in Hi. rewrite Hother' by tauto. apply Hother1.
      intros Heq. apply Hi. left. symmetry. exact Heq. }
    split.
    { intros p [<-|Hp] Hno; simpl in *.
      - rewrite Hno in Hcase. destruct Hcase as [_ ->]. apply Hother'. exact Hnot.
      - rewrite (Hskip' p Hp Hno). apply Hother1.
        intros Heq. apply Hnot. rewrite <- Heq. apply in_map. exact Hp. }
    simpl. destruct (has_referrer users u).
    + destruct Hcase as (rho & -> & Hl). exists (rho :: new).
      rewrite <- app_assoc. split; [reflexivity|]. constructor; [|exact Hnew].
      destruct Hl as (L1 & L2 & r0 & upd & L3 & L4 & L5 & L6 & L7 & L8 & L9).
      split; [exact L1|]. split; [exact L2|]. exists r0, upd.
      repeat split; try assumption; try (destruct L8 as (A & B & C & D); assumption).
      simpl. rewrite Hother' by exact Hnot. exact L7.
    + destruct Hcase as [-> _]. exists new. split; [reflexivity | exact Hnew].
Qed.

Lemma combine_seq_nth {A} (l : list A) :
  forall a i x, In (i, x) (combine (seq a (length l)) l) ->
                (a <= i)%nat /\ nth_error l (i - a) = Some x.
Proof.
  induction l as [|y l IH]; intros a i x Hin; simpl in Hin; [contradiction|].
  destruct Hin as [Heq|Hin].
  - inversion Heq; subst. rewrite Nat.sub_diag. split; [lia | reflexivity].
  - destruct (IH _ _ _ Hin) as [Hle Hn]. split; [lia|].
    replace (i - a)%nat with (S (i - S a)) by lia. exact Hn.
Qed.

Lemma combine_seq_fst {A} (l : list A) a :
  map fst (combine (seq a (length l)) l) = seq a (length l).
Proof.
  revert a. induction l as [|y l IH]; intros a; simpl; [reflexivity|].
  rewrite IH. reflexivity.
Qed.

Lemma filter_snd_combine {A} (f : A -> bool) (l : list A) a :
  map snd (filter (fun p => f (snd p)) (combine (seq a (length l)) l))
  = filter f l.
Proof.
  revert a. induction l as [|y l IH]; intros a; simpl; [reflexivity|].
  destruct (f y); simpl; rewrite IH; reflexivity.
Qed.

Lemma NoDup_map_filter {A B} (g : A -> B) (f : A -> bool) l :
  NoDup (map g l) -> NoDup (map g (filter f l)).
Proof.
  induction l as [|x l IH]; simpl; intros Hnd; [constructor|].
  inversion Hnd as [|? ? Hnot Hnd']; subst.
  destruct (f x); simpl; [|apply IH; exact Hnd'].
  constructor; [|apply IH; exact Hnd'].
  intros Hin. apply Hnot. apply in_map_iff in Hin.
  destruct Hin as (y & Hy & Hf). apply filter_In in Hf.
  apply in_map_iff. exists y. tauto.
Qed.

Lemma nth_combine_seq {A} (l : list A) :
  forall a i x, nth_error l i = Some x ->
                In ((a + i)%nat, x) (combine (seq a (length l)) l).
Proof.
  induction l as [|y l IH]; intros a i x Hn; [destruct i; discriminate Hn|].
  destruct i as [|i]; simpl in *.
  - inversion Hn; subst. left. rewrite Nat.add_0_r. reflexivity.
  - right. replace (a + S i)%nat with (S a + i)%nat by lia. apply IH. exact Hn.
Qed.

Lemma filter_twice {A} (f g : A -> bool) l :
  filter f (filter g l) = filter (fun x => g x && f x) l.
Proof.
  induction l as [|x l IH]; simpl; [reflexivity|].
  destruct (g x); simpl; [destruct (f x); rewrite IH; reflexivity | exact IH].
Qed.

Lemma Forall2_same_refl users : Forall2 same_user users users.
Proof. induction users; constructor; [apply same_user_refl | assumption]. Qed.

(** C6.  There is one referral row, in row order, for each user of the
    channel "Referral Program" (id 5) who has an earlier signup to pick
    from, and none for the others.  Each row links a referred user of
    that channel to a referrer that signed up no later (in fact strictly
    earlier), and the referred user's row carries the referrer's id in
    ReferredBy; the row of a "Referral Program" user without an earlier
    signup is left as it was. *)
Theorem referral_rows
  (users : list User.t) (s : Rand)
  (users' : list User.t) (referrals : list Referral.t) (s' : Rand) :
  add_referrals users s = (Ok (users', referrals), s') ->
  (exists c, In c generate_acquisition_channels /\
             Channel.ChannelID c = 5 /\
             Channel.ChannelName c = "Referral Program"%string) /\
  map Referral.ReferredUserID referrals
  = map User.UserID
        (filter (fun u => on_referral_channel u && has_referrer users u) users) /\
  (forall rho, In rho referrals ->
     exists idx referred referrer updated,
       nth_error users idx = Some referred /\
       In referrer users /\
       Referral.ReferredUserID rho = User.UserID referred /\
       Referral.ReferrerUserID rho = User.UserID referrer /\
       User.SignUpDate referrer <= User.SignUpDate referred /\
       User.AcquisitionChannelID referred = 5 /\
       nth_error users' idx = Some updated /\
       User.UserID updated = User.UserID referred /\
       User.ReferredBy updated = Some (User.UserID referrer)) /\
  (forall idx u,
     nth_error users idx = Some u ->
     on_referral_channel u = true -> has_referrer users u = false ->
     nth_error users' idx = Some u).
Proof.
  intros E. unfold add_referrals in E.
  destruct users as [|u0 users0] eqn:Husers; [discriminate E|].
  rewrite <- Husers in *. clear Husers u0 users0.
  assert (Hnth : forall p, In p (users_with_channel_5 users) ->
                           nth_error users (fst p) = Some (snd p)).
  { intros [i u] Hp. unfold users_with_channel_5 in Hp. apply filter_In in Hp.
    destruct Hp as [Hp _]. destruct (combine_seq_nth _ _ _ _ Hp) as [_ Hn].
    rewrite Nat.sub_0_r in Hn. exact Hn. }
  assert (Hnd : NoDup (map fst (users_with_channel_5 users))).
  { unfold users_with_channel_5. apply NoDup_map_filter.
    rewrite combine_seq_fst. apply seq_NoDup. }
  destruct (refer_loop users _ _ _ _ _ _ _ (Forall2_same_refl users) Hnd Hnth E)
    as (Hsame & _ & Hskip & new & Hnew & Hlinks).
  simpl in Hnew. subst new.
  split.
  { eexists. split; [right; right; right; right; left; reflexivity|].
    split; reflexivity. }
  split.
  { assert (Hmap : map Referral.ReferredUserID referrals
                   = map User.UserID
                       (map snd (filter (fun p => has_referrer users (snd p))
                                        (users_with_channel_5 users)))).
    { clear -Hlinks. induction Hlinks as [|p rho l l' (Hr & _) _ IH];
        [reflexivity | simpl; rewrite Hr, IH; reflexivity]. }
    rewrite Hmap. unfold users_with_channel_5. rewrite filter_twice.
    rewrite (filter_snd_combine
               (fun u => on_referral_channel u && has_referrer users u)).
    reflexivity. }
  split.
  { intros rho Hrho.
    destruct (Forall2_In_r _ _ _ _ Hlinks Hrho) as ([idx u] & Hp & Hl).
    apply filter_In in Hp. destruct Hp as [Hp _].
    pose proof (Hnth _ Hp) as Hu. simpl in Hu.
    unfold users_with_channel_5 in Hp. apply filter_In in Hp.
    destruct Hp as [_ Hch]. simpl in Hch. apply Z.eqb_eq in Hch.
    destruct Hl as (L1 & _ & r0 & upd & L3 & L4 & L5 & _ & L7 & (L8 & _) & L9).
    simpl in *. exists idx, u, r0, upd.
    repeat split; try assumption. lia. }
  intros idx u Hu Hch Hno.
  assert (Hp : In (idx, u) (users_with_channel_5 users)).
  { unfold users_with_channel_5. apply filter_In. split; [|exact Hch].
    exact (nth_combine_seq users 0 idx u Hu). }
  pose proof (Hskip _ Hp Hno) as Hkeep. simpl in Hkeep.
  rewrite Hkeep. exact Hu.
Qed.

End ReferralFacts.

(* ================================================================== *)
(** * Stage 3: the precondition on the input files *)

Module ScriptFacts.
Import Stage3 ScriptSpec.

Section Facts.
Context {F : Type} `{Num F}.

(** The checks stop at the first missing file, with the state as it was. *)
Lemma require_files_missing prefix dir (w : World F) files :
  (exists f, In f files /\ path_exists (fs w) (path_join dir f) = false) ->
  exists f,
    In f files /\ path_exists (fs w) (path_join dir f) = false /\
    foreach files (require_file prefix dir) tt w
    = (Raise (FileNotFoundError (prefix ++ path_join dir f)), w).
Proof.
  induction files as [|f files IH]; intros (g & Hg & Hmiss); [contradiction|].
  simpl. unfold bind. unfold require_file at 1.
  destruct (path_exists (fs w) (path_join dir f)) eqn:Ef.
  - destruct Hg as [->|Hg]; [rewrite Hmiss in Ef; discriminate Ef|].
    destruct (IH (ex_intro _ g (conj Hg Hmiss))) as (f' & Hin & Hmiss' & Hrun).
    exists f'. split; [right; exact Hin|]. split; [exact Hmiss' | exact Hrun].
  - exists f. split; [left; reflexivity|]. split; [exact Ef | reflexivity].
Qed.

Lemma require_files_present prefix dir (w : World F) files :
  (forall f, In f files -> path_exists (fs w) (path_join dir f) = true) ->
  foreach files (require_file prefix dir) tt w = (Ok tt, w).
Proof.
  induction files as [|f files IH]; intros Hall; [reflexivity|].
  simpl. unfold bind. unfold require_file at 1.
  rewrite (Hall f (or_introl eq_refl)).
  apply IH. intros g Hg. apply Hall. right; exact Hg.
Qed.

(** C8.  When a required input file is absent, the script raises
    FileNotFoundError with a message that ends with the path of a
    missing required file, and it ends in the state it started in: no
    file is written and no random draw is made. *)
Theorem missing_input_halts
  (base_dir : string) (py_seed np_seed : Z -> Stream) (config : Config F)
  (w : World F) :
  (exists prefix path,
     In (prefix, path) (required_files base_dir) /\
     path_exists (fs w) path = false) ->
  exists prefix path,
    In (prefix, path) (required_files base_dir) /\
    path_exists (fs w) path = false /\
    main base_dir py_seed np_seed config w
    = (Raise (FileNotFoundError (prefix ++ path)), w).
Proof.
  intros (prefix & path & Hin & Hmiss).
  unfold required_files in Hin. unfold main.
  set (master_dir := path_join base_dir "1_csv_files") in *.
  destruct (existsb (fun f => negb (path_exists (fs w) (path_join master_dir f)))
                    required_master) eqn:Em.
  - apply existsb_exists in Em. destruct Em as (f & Hf & Hneg).
    apply negb_true_iff in Hneg.
    destruct (require_files_missing "Missing master file: " master_dir w
                required_master (ex_intro _ f (conj Hf Hneg)))
      as (f' & Hin' & Hmiss' & Hrun).
    exists "Missing master file: "%string, (path_join master_dir f').
    split; [|split; [exact Hmiss'|]].
    + unfold required_files. apply in_or_app. left.
      apply in_map_iff. exists f'. split; [reflexivity | exact Hin'].
    + unfold bind at 1. rewrite Hrun. reflexivity.
  - assert (Hall : forall f, In f required_master ->
                             path_exists (fs w) (path_join master_dir f) = true).
    { intros f Hf. destruct (path_exists (fs w) (path_join master_dir f)) eqn:Ef;
        [reflexivity|].
      assert (Hex : existsb (fun f => negb (path_exists (fs w) (path_join master_dir f)))
                            required_master = true).
      { apply existsb_exists. exists f. rewrite Ef. split; [exact Hf | reflexivity]. }
      rewrite Hex in Em. discriminate Em. }
    apply in_app_or in Hin. destruct Hin as [Hin|Hin];
      apply in_map_iff in Hin; destruct Hin as (f & Heq & Hf); inversion Heq; subst.
    + rewrite (Hall f Hf) in Hmiss. discriminate Hmiss.
    + destruct (require_files_missing "Missing transaction file: " base_dir w
                  required_txn (ex_intro _ f (conj Hf Hmiss)))
        as (f' & Hin' & Hmiss' & Hrun).
      exists "Missing transaction file: "%string, (path_join base_dir f').
      split; [|split; [exact Hmiss'|]].
      * unfold required_files. apply in_or_app. right.
        apply in_map_iff. exists f'. split; [reflexivity | exact Hin'].
      * unfold bind at 1.
        rewrite (require_files_present _ _ _ _ Hall).
        unfold bind at 1. rewrite Hrun. reflexivity.
Qed.

End Facts.
End ScriptFacts.

(* ================================================================== *)
(** * Stage 1: what the fake values depend on *)

Module FakerFacts.
Import Stage1 ReferralSpec ReferralFacts.

Lemma keeps_ret {A} (a : A) : keeps_fk (ret a).
Proof. intros s b s' E. apply ret_inv in E. destruct E as [_ ->]. reflexivity. Qed.

Lemma keeps_raise {A} e : keeps_fk (raise (A := A) e).
Proof. intros s b s' E. discriminate E. Qed.

Lemma keeps_bind {A B} (m : M Rand A) (k : A -> M Rand B) :
  keeps_fk m -> (forall a, keeps_fk (k a)) -> keeps_fk (bind m k).
Proof.
  intros Hm Hk s b s' E. minv E as a Ha.
  rewrite (Hk a _ _ _ E). exact (Hm _ _ _ Ha).
Qed.

Lemma keeps_py_draw : keeps_fk py_draw.
Proof.
  intros s d s' E. unfold py_draw in E. destruct (next (py s)).
  inversion E; subst. reflexivity.
Qed.

Lemma keeps_np_draw : keeps_fk np_draw.
Proof.
  intros s d s' E. unfold np_draw in E. destruct (next (np s)).
  inversion E; subst. reflexivity.
Qed.

Create HintDb keeps.
#[local] Hint Resolve keeps_ret keeps_raise keeps_py_draw keeps_np_draw : keeps.

Ltac keeps :=
  repeat first
    [ apply keeps_bind; [|intros ?]
    | match goal with
      | |- keeps_fk (if ?c then _ else _) => destruct c
      | |- keeps_fk (match ?x with _ => _ end) => destruct x
      end
    | solve [auto with keeps] ].

Lemma keeps_randint a b : keeps_fk (randint a b).
Proof. unfold randint. keeps. Qed.

Lemma keeps_choice {A} (l : list A) : keeps_fk (choice l).
Proof. unfold choice. keeps. Qed.

Lemma keeps_np_choice {A} (l : list A) : keeps_fk (np_choice l).
Proof. unfold np_choice. keeps. Qed.

Lemma keeps_random_uniform {F} `{Num F} (a b : F) : keeps_fk (random_uniform a b).
Proof. unfold random_uniform, random_random. keeps. Qed.

Lemma keeps_sample_rows {A} k : forall l : list A, keeps_fk (sample_rows k l).
Proof.
  induction k as [|k IH]; intros l; simpl; [apply keeps_ret|].
  apply keeps_bind; [apply keeps_np_draw|]. intros d.
  destruct (extract _ l) as [[x rest]|]; [|apply keeps_raise].
  apply keeps_bind; [apply IH | intros; apply keeps_ret].
Qed.

Lemma keeps_sample1 {A} (l : list A) : keeps_fk (sample1 l).
Proof.
  unfold sample1, sample. apply keeps_bind.
  - destruct (_ || _); [apply keeps_raise | apply keeps_sample_rows].
  - intros rows. destruct rows; [apply keeps_raise | apply keeps_ret].
Qed.

#[local] Hint Resolve keeps_randint keeps_choice keeps_np_choice
  keeps_random_uniform keeps_sample1 : keeps.

Lemma keeps_foreach {A St} (body : A -> St -> M Rand St) l :
  (forall x st, keeps_fk (body x st)) -> forall st, keeps_fk (foreach l body st).
Proof.
  intros Hbody. induction l as [|x l IH]; intros st; simpl; [apply keeps_ret|].
  apply keeps_bind; [apply Hbody | exact IH].
Qed.

Section Facts.
Context {F : Type} `{Num F}.
Variable fake : Faker.

Lemma keeps_schedule_day start base day dates :
  keeps_fk (schedule_day (F := F) start base day dates).
Proof. unfold schedule_day. keeps. Qed.

(** The first fake value of a new user row is the user name, read at the
    provider's current state. *)
Lemma add_user_spec cities channels start dates i data s data' s' :
  add_user (F := F) fake cities channels start dates i data s = (Ok data', s') ->
  exists row, data' = data ++ [row] /\
              User.Username row = user_name fake (src (fk s) (pos (fk s))).
Proof.
  unfold add_user. intros E.
  minv E as city Hcity. apply keeps_sample1 in Hcity.
  minv E as channel Hch.
  assert (Hch' : fk s1 = fk s0).
  { revert Hch. destruct (_ =? _)%nat; intros Hch;
      [exact (keeps_np_choice _ _ _ _ Hch) | discriminate Hch]. }
  minv E as signup Hs.
  assert (Hs' : fk s2 = fk s1).
  { revert Hs. destruct (nth_error dates _); intros Hs.
    - exact (keeps_ret _ _ _ _ Hs).
    - revert Hs. apply keeps_bind; [apply keeps_randint | intros; apply keeps_ret]. }
  minv E as username Hname. unfold fake_user_name in Hname.
  minv Hname as d Hd. apply ret_inv in Hname. destruct Hname as [-> _].
  unfold fk_draw, next in Hd. inversion Hd; subst d. clear Hd.
  minv E as mail Hm. minv E as hash Hh. minv E as phone Hp. minv E as addr Ha.
  minv E as offset Ho. minv E as active Hact. minv E as dietary Hdi.
  apply ret_inv in E. destruct E as [-> _].
  eexists. split; [reflexivity|]. simpl. rewrite Hs', Hch', Hcity. reflexivity.
Qed.

Lemma add_users_append cities channels start dates ids :
  forall data s data' s',
    foreach ids (add_user (F := F) fake cities channels start dates) data s
      = (Ok data', s') ->
    exists more, data' = data ++ more.
Proof.
  induction ids as [|i ids IH]; intros data s data' s' E; simpl in E.
  - apply ret_inv in E. destruct E as [-> _]. exists []. symmetry. apply app_nil_r.
  - minv E as data1 H1. destruct (add_user_spec _ _ _ _ _ _ _ _ _ H1) as (row & -> & _).
    destruct (IH _ _ _ _ E) as (more & ->). exists (row :: more).
    rewrite <- app_assoc. reflexivity.
Qed.

Lemma generate_users_first n cities channels start end_ s users s' :
  0 < n ->
  generate_users (F := F) fake n cities channels start end_ s = (Ok users, s') ->
  exists u rest, users = u :: rest /\
                 User.Username u = user_name fake (src (fk s) (pos (fk s))).
Proof.
  intros Hn E. unfold generate_users in E. minv E as dates Hdates.
  assert (Hfk : fk s0 = fk s).
  { revert Hdates. apply keeps_foreach. intros day acc. apply keeps_schedule_day. }
  destruct (Z.to_nat n) as [|k] eqn:Hk; [lia|].
  simpl in E. minv E as data1 H1.
  destruct (add_user_spec _ _ _ _ _ _ _ _ _ H1) as (row & -> & Hrow).
  destruct (add_users_append _ _ _ _ _ _ _ _ _ E) as (more & ->).
  exists row, more. split; [reflexivity|]. rewrite Hrow, Hfk. reflexivity.
Qed.

Lemma add_referrals_usernames users s users' refs s' :
  add_referrals users s = (Ok (users', refs), s') ->
  map User.Username users' = map User.Username users.
Proof.
  intros E. unfold add_referrals in E.
  destruct users as [|u0 users0] eqn:Husers; [discriminate E|].
  rewrite <- Husers in *. clear Husers u0 users0.
  assert (Hall : Forall2 same_user users users').
  { refine (foreach_inv
              (fun acc : list User.t * list Referral.t =>
                 Forall2 same_user users (fst acc))
              _ _ _ (users, []) _ _ _ (Forall2_same_refl users) E).
    intros [idx u] [cur refs0] t0 [cur1 refs1] t1 _ Hcur E0. simpl in *.
    unfold refer in E0. destruct (0 <? _)%nat.
    - minv E0 as r Hr. minv E0 as w Hw. minv E0 as st Hst.
      apply ret_inv in E0. destruct E0 as [E0 _]. inversion E0; subst.
      apply set_referred_by_same. exact Hcur.
    - apply ret_inv in E0. destruct E0 as [E0 _]. inversion E0; subst. exact Hcur. }
  clear -Hall. induction Hall as [|u u' l l' (_ & _ & _ & Hn) _ IH];
    [reflexivity | simpl; rewrite Hn, IH; reflexivity].
Qed.

(** C1, where the script departs from it.  The script seeds [random] and
    NumPy with 42 but creates the fake-value provider without a seed.
    Two runs with the same seeds, the same configuration and the same
    date whose provider starts in states that yield different user names
    write different users tables. *)
Theorem faker_not_seeded
  (today : Z) (py_seed np_seed : Z -> Stream) (config : Config)
  (fk1 fk2 : Stream) (t1 t2 : Tables F) :
  0 < num_users config ->
  user_name fake (src fk1 (pos fk1)) <> user_name fake (src fk2 (pos fk2)) ->
  run fake today py_seed np_seed fk1 config = Ok t1 ->
  run fake today py_seed np_seed fk2 config = Ok t2 ->
  users_csv t1 <> users_csv t2.
Proof.
  intros Hn Hdiff H1 H2.
  assert (Hfirst : forall fk0 t,
            run fake today py_seed np_seed fk0 config = Ok t ->
            exists u rest, users_csv t = u :: rest /\
                           User.Username u = user_name fake (src fk0 (pos fk0))).
  { intros fk0 t Hrun. unfold run in Hrun.
    destruct (generate_all _ _ _ _) as [r sf] eqn:E. simpl in Hrun. subst r.
    unfold generate_all in E. minv E as users Hu. minv E as pair Hr.
    destruct pair as [users' refs]. minv E as restaurants Hrest.
    minv E as menu Hmenu. apply ret_inv in E. destruct E as [-> _]. simpl.
    destruct (generate_users_first _ _ _ _ _ _ _ _ Hn Hu) as (u & rest & -> & Hname).
    apply add_referrals_usernames in Hr.
    destruct users' as [|u' rest']; [discriminate Hr|].
    simpl in Hr. injection Hr as Hu' _.
    exists u', rest'. split; [reflexivity|]. rewrite Hu'. exact Hname. }
  destruct (Hfirst _ _ H1) as (u1 & r1 & E1 & N1).
  destruct (Hfirst _ _ H2) as (u2 & r2 & E2 & N2).
  intros Heq. rewrite E1, E2 in Heq. inversion Heq; subst.
  apply Hdiff. rewrite <- N1, <- N2. reflexivity.
Qed.

End Facts.
End FakerFacts.

(* ================================================================== *)
(** * The theorems on the small inputs *)

Module Runs.
Import Examples OrderSpec.

Lemma daily_loop_restaurant_choice_witness :
  map Order.OrderID (Stage2.orders_data skip_state)
  = ids_from 1 (length (Stage2.orders_data skip_state)) /\
  Stage2.order_id skip_state
  = 1 + Z.of_nat (length (Stage2.orders_data skip_state)) /\
  forall o, In o (Stage2.orders_data skip_state) ->
    exists u rest r,
      Stage2.user_rows two_item_users (Order.UserID o) = u :: rest /\
      In r skip_restaurants /\
      Restaurant.RestaurantID r = Order.RestaurantID o /\
      Restaurant.IsActive r = true /\
      ((exists r', In r' skip_restaurants /\ Restaurant.IsActive r' = true /\
                   Restaurant.CityID r' = User.CityID u) ->
       Restaurant.CityID r = User.CityID u) /\
      Stage2.available_menu skip_menu (Restaurant.RestaurantID r) <> [].
Proof.
  apply (DailyLoop.daily_loop_restaurant_choice
           two_item_users skip_restaurants skip_menu (one_day 2 0) [] [] [1]
           skip_rand skip_state (snd skip_run)).
  vm_compute. reflexivity.
Defined.

Lemma tracking_rows_per_order_witness :
  (forall d, In d two_order_tracking ->
     exists o, In o two_orders /\
               Order.OrderID o = Delivery.OrderID d /\
               Order.OrderStatus o = Delivered /\
               Order.OrderTime o <= Delivery.DispatchTime d /\
               Delivery.DispatchTime d <= Delivery.ActualDeliveryTime d) /\
  (forall o, In o two_orders ->
     count_occ Z.eq_dec (map Delivery.OrderID two_order_tracking)
               (Order.OrderID o)
     = match Order.OrderStatus o with
       | Delivered => 1%nat
       | Cancelled => 0%nat
       end).
Proof.
  apply (DailyLoop.tracking_rows_per_order
           two_item_users two_item_restaurants two_order_menu (one_day 2 0)
           two_order_rand (snd two_order_run) (snd two_order_run)
           (snd tracking_run) two_orders two_order_lines two_order_tracking).
  - vm_compute. reflexivity.
  - vm_compute. reflexivity.
Defined.



Lemma order_amounts_witness :
  exists o,
    In o priced_orders /\
    Order.FinalAmount o =
      round2 (fsub (fadd (Order.TotalAmount o) (of_Z (Order.DeliveryFee o)))
                   (Order.DiscountAmount o)) /\
    (Order.DiscountAmount o <> of_Z 0 ->
     (of_Z 500
      < sum_subtotals (Stage3.items_of priced_lines (Order.OrderID o)))%Qc /\
     (Order.DiscountAmount o
      = round2 (fmul (sum_subtotals
                        (Stage3.items_of priced_lines (Order.OrderID o)))
                     (lit 10 100)) \/
      Order.DiscountAmount o
      = round2 (fmul (sum_subtotals
                        (Stage3.items_of priced_lines (Order.OrderID o)))
                     (lit 15 100)))).
Proof.
  eexists. split; [vm_compute; left; reflexivity|].
  apply (AmountFacts.order_amounts
           toy_faker priced_restaurants priced_menu_rand (snd priced_menu_run)
           priced_menu two_item_users priced_restaurants (one_day 1 0)
           priced_order_rand (snd priced_run) priced_orders priced_lines).
  - vm_compute. reflexivity.
  - vm_compute. reflexivity.
  - vm_compute. left. reflexivity.
Defined.


Lemma referral_rows_witness :
  (exists c, In c Stage1.generate_acquisition_channels /\
             Channel.ChannelID c = 5 /\
             Channel.ChannelName c = "Referral Program"%string) /\
  map Referral.ReferredUserID referral_table
  = map User.UserID
        (filter (fun u => ReferralSpec.on_referral_channel u
                          && ReferralSpec.has_referrer referral_users u)
                referral_users) /\
  (forall rho, In rho referral_table ->
     exists idx referred referrer updated,
       nth_error referral_users idx = Some referred /\
       In referrer referral_users /\
       Referral.ReferredUserID rho = User.UserID referred /\
       Referral.ReferrerUserID rho = User.UserID referrer /\
       User.SignUpDate referrer <= User.SignUpDate referred /\
       User.AcquisitionChannelID referred = 5 /\
       nth_error referred_users idx = Some updated /\
       User.UserID updated = User.UserID referred /\
       User.ReferredBy updated = Some (User.UserID referrer)) /\
  (forall idx u,
     nth_error referral_users idx = Some u ->
     ReferralSpec.on_referral_channel u = true ->
     ReferralSpec.has_referrer referral_users u = false ->
     nth_error referred_users idx = Some u).
Proof.
  apply (ReferralFacts.referral_rows
           referral_users (rand_of [] []) referred_users referral_table
           (snd referral_run)).
  vm_compute. reflexivity.
Defined.

Lemma missing_input_halts_witness :
  exists prefix path,
    In (prefix, path) (ScriptSpec.required_files "data") /\
    path_exists (Stage3.fs empty_world) path = false /\
    Stage3.main "data" toy_seed toy_seed Stage3.CONFIG empty_world
    = (Raise (FileNotFoundError (prefix ++ path)), empty_world).
Proof.
  apply (ScriptFacts.missing_input_halts
           "data" toy_seed toy_seed Stage3.CONFIG empty_world).
  eexists _, _. split; [vm_compute; left; reflexivity | vm_compute; reflexivity].
Defined.

Lemma faker_not_seeded_witness :
  Stage1.users_csv (tables_of run_a) <> Stage1.users_csv (tables_of run_b).
Proof.
  apply (FakerFacts.faker_not_seeded
           toy_faker 0 toy_seed toy_seed one_user
           provider_state_a provider_state_b (tables_of run_a) (tables_of run_b)).
  - vm_compute. reflexivity.
  - vm_compute. discriminate.
  - vm_compute. reflexivity.
  - vm_compute. reflexivity.
Defined.

End Runs.

(* ================================================================== *)
(** * Computations that return *)

Module RunFacts.

Lemma bind_ok {W A B} (m : M W A) (k : A -> M W B) s a s1 :
  m s = (Ok a, s1) -> bind m k s = k a s1.
Proof. unfold bind. intros ->. reflexivity. Qed.

Lemma bind_raise {W A B} (m : M W A) (k : A -> M W B) s e s1 :
  m s = (Raise e, s1) -> bind m k s = (Raise e, s1).
Proof. unfold bind. intros ->. reflexivity. Qed.

Lemma yields_ret {W A} (a : A) (P : A -> Prop) : P a -> yields (W := W) (ret a) P.
Proof. intros HP s. exists a, s. split; [reflexivity | exact HP]. Qed.

Lemma yields_bind {W A B} (m : M W A) (k : A -> M W B) (P : A -> Prop)
  (Q : B -> Prop) :
  yields m P -> (forall a, P a -> yields (k a) Q) -> yields (bind m k) Q.
Proof.
  intros Hm Hk s. destruct (Hm s) as (a & s1 & E & HP).
  destruct (Hk a HP s1) as (b & s2 & E2 & HQ).
  exists b, s2. split; [|exact HQ]. rewrite (bind_ok _ _ _ _ _ E). exact E2.
Qed.

Lemma yields_weaken {W A} (m : M W A) (P Q : A -> Prop) :
  yields m P -> (forall a, P a -> Q a) -> yields m Q.
Proof.
  intros Hm HPQ s. destruct (Hm s) as (a & s1 & E & HP).
  exists a, s1. split; [exact E | exact (HPQ a HP)].
Qed.

(** What an inversion lemma says of every result holds of the one a
    returning computation gives. *)
Lemma yields_inv {W A} (m : M W A) (P Q : A -> Prop) :
  yields m P -> (forall s a s', m s = (Ok a, s') -> Q a) ->
  yields m (fun a => P a /\ Q a).
Proof.
  intros Hm HQ s. destruct (Hm s) as (a & s1 & E & HP).
  exists a, s1. split; [exact E|]. split; [exact HP | exact (HQ _ _ _ E)].
Qed.

(** The loop rule: [I pre st] relates the part of the list gone through
    to the accumulator. *)
Lemma yields_foreach {W A St} (I : list A -> St -> Prop)
  (body : A -> St -> M W St) (l : list A) :
  (forall pre x st, I pre st -> yields (body x st) (I (pre ++ [x]))) ->
  forall pre st, I pre st -> yields (foreach l body st) (I (pre ++ l)).
Proof.
  intros Hbody. induction l as [|x l IH]; intros pre st HI; simpl.
  - rewrite app_nil_r. apply yields_ret. exact HI.
  - eapply yields_bind; [exact (Hbody pre x st HI)|].
    intros st' HI'. simpl in HI'.
    replace (pre ++ x :: l) with ((pre ++ [x]) ++ l)
      by (rewrite <- app_assoc; reflexivity).
    apply IH. exact HI'.
Qed.

(** The loop rule that knows where in the list each turn is. *)
Lemma yields_foreach_at {W A St} (I : list A -> St -> Prop)
  (body : A -> St -> M W St) (l : list A) :
  (forall pre x post st,
     l = pre ++ x :: post -> I pre st -> yields (body x st) (I (pre ++ [x]))) ->
  forall st, I [] st -> yields (foreach l body st) (I l).
Proof.
  intros Hbody.
  assert (Hgen : forall post pre st,
             l = pre ++ post -> I pre st ->
             yields (foreach post body st) (I (pre ++ post))).
  { induction post as [|x post IH]; intros pre st Hl HI; simpl.
    - rewrite app_nil_r. apply yields_ret. exact HI.
    - eapply yields_bind; [exact (Hbody pre x post st Hl HI)|].
      intros st' HI'. simpl in HI'.
      replace (pre ++ x :: post) with ((pre ++ [x]) ++ post)
        by (rewrite <- app_assoc; reflexivity).
      apply IH; [rewrite <- app_assoc; exact Hl | exact HI']. }
  intros st HI. exact (Hgen l [] st eq_refl HI).
Qed.

(** The loop rule with an invariant of the accumulator alone. *)
Lemma yields_foreach_in {W A St} (I : St -> Prop)
  (body : A -> St -> M W St) (l : list A) :
  (forall x st, In x l -> I st -> yields (body x st) I) ->
  forall st, I st -> yields (foreach l body st) I.
Proof.
  induction l as [|x l IH]; intros Hbody st HI; simpl.
  - apply yields_ret. exact HI.
  - eapply yields_bind; [apply Hbody; [left; reflexivity | exact HI]|].
    intros st' HI'. apply IH; [|exact HI'].
    intros y st0 Hy. apply Hbody. right. exact Hy.
Qed.

Lemma yields_repeat_n {W St} (I : nat -> St -> Prop) (body : St -> M W St) n :
  (forall k st, I k st -> yields (body st) (I (S k))) ->
  forall k st, I k st -> yields (repeat_n n body st) (I (k + n)%nat).
Proof.
  intros Hbody. induction n as [|n IH]; intros k st HI; simpl.
  - rewrite Nat.add_0_r. apply yields_ret. exact HI.
  - eapply yields_bind; [exact (Hbody k st HI)|].
    intros st' HI'. simpl in HI'.
    replace (k + S n)%nat with (S k + n)%nat by lia. apply IH. exact HI'.
Qed.

(** The same for the results of a loop that returned. *)
Lemma foreach_prefix_inv {W A St} (I : list A -> St -> Prop)
  (body : A -> St -> M W St) (l : list A) :
  (forall pre x st s st' s',
     I pre st -> body x st s = (Ok st', s') -> I (pre ++ [x]) st') ->
  forall pre st s st' s',
    I pre st -> foreach l body st s = (Ok st', s') -> I (pre ++ l) st'.
Proof.
  intros Hbody. induction l as [|x l IH]; intros pre st s st' s' HI E; simpl in E.
  - rinv E. subst. rewrite app_nil_r. exact HI.
  - minv E. replace (pre ++ x :: l) with ((pre ++ [x]) ++ l)
      by (rewrite <- app_assoc; reflexivity).
    eapply IH; [|exact E]. eapply Hbody; [exact HI | exact E0].
Qed.

Lemma repeat_n_count_inv {W St} (I : nat -> St -> Prop) (body : St -> M W St) n :
  (forall k st s st' s', I k st -> body st s = (Ok st', s') -> I (S k) st') ->
  forall k st s st' s',
    I k st -> repeat_n n body st s = (Ok st', s') -> I (k + n)%nat st'.
Proof.
  intros Hbody. induction n as [|n IH]; intros k st s st' s' HI E; simpl in E.
  - rinv E. subst. rewrite Nat.add_0_r. exact HI.
  - minv E. replace (k + S n)%nat with (S k + n)%nat by lia.
    eapply IH; [|exact E]. eapply Hbody; [exact HI | exact E0].
Qed.

(** ** The random primitives *)

Lemma yields_py_draw : yields py_draw (fun _ => True).
Proof.
  intros s. unfold py_draw. destruct (next (py s)) as [d t] eqn:E.
  eexists _, _. split; [reflexivity | exact I].
Qed.

Lemma yields_np_draw : yields np_draw (fun _ => True).
Proof.
  intros s. unfold np_draw. destruct (next (np s)) as [d t] eqn:E.
  eexists _, _. split; [reflexivity | exact I].
Qed.

Lemma yields_fk_draw : yields fk_draw (fun _ => True).
Proof.
  intros s. unfold fk_draw. destruct (next (fk s)) as [d t] eqn:E.
  eexists _, _. split; [reflexivity | exact I].
Qed.

Lemma yields_random_random {F} `{Num F} : yields (random_random (F := F)) (fun _ => True).
Proof.
  unfold random_random. eapply yields_bind; [exact yields_py_draw|].
  intros d _. apply yields_ret. exact I.
Qed.

Lemma yields_random_uniform {F} `{Num F} (a b : F) :
  yields (random_uniform a b) (fun _ => True).
Proof.
  unfold random_uniform. eapply yields_bind; [exact yields_random_random|].
  intros d _. apply yields_ret. exact I.
Qed.

Lemma yields_randint a b : a <= b -> yields (randint a b) (fun x => a <= x <= b).
Proof.
  intros Hab. unfold randint. destruct (b <? a) eqn:E; [lia|].
  eapply yields_bind; [exact yields_py_draw|].
  intros d _. apply yields_ret.
  pose proof (Z.mod_pos_bound d (b - a + 1)). lia.
Qed.

Lemma randint_raises a b s : b < a -> randint a b s = (Raise ValueError, s).
Proof.
  intros Hab. unfold randint. destruct (b <? a) eqn:E; [reflexivity | lia].
Qed.

Lemma yields_choice {A} (l : list A) :
  (0 < length l)%nat -> yields (choice l) (fun x => In x l).
Proof.
  destruct l as [|x l]; simpl; [lia|]. intros _.
  eapply yields_bind; [exact yields_py_draw|].
  intros d _. apply yields_ret. apply pick_In.
Qed.

Lemma yields_np_choice {A} (l : list A) :
  (0 < length l)%nat -> yields (np_choice l) (fun x => In x l).
Proof.
  destruct l as [|x l]; simpl; [lia|]. intros _.
  eapply yields_bind; [exact yields_np_draw|].
  intros d _. apply yields_ret. apply pick_In.
Qed.

(** ** Sampling without replacement *)

Lemma extract_perm {A} i (l : list A) x r :
  extract i l = Some (x, r) -> Permutation l (x :: r).
Proof.
  revert i x r. induction l as [|y l IH]; intros i x r E; simpl in E.
  - discriminate E.
  - destruct i as [|i].
    + inversion E; subst. apply Permutation_refl.
    + destruct (extract i l) as [[z r']|] eqn:E'; [|discriminate E].
      inversion E; subst. apply IH in E'.
      eapply Permutation_trans; [apply perm_skip; exact E'|]. apply perm_swap.
Qed.

Lemma extract_some {A} i (l : list A) :
  (i < length l)%nat -> exists x r, extract i l = Some (x, r).
Proof.
  revert i. induction l as [|y l IH]; intros i Hi; simpl in Hi; [lia|].
  destruct i as [|i]; simpl.
  - eexists _, _. reflexivity.
  - destruct (IH i) as (x & r & E); [lia|]. rewrite E.
    eexists _, _. reflexivity.
Qed.

Lemma sample_rows_perm {A} k :
  forall (l : list A) s xs s',
    sample_rows k l s = (Ok xs, s') -> exists rest, Permutation l (xs ++ rest).
Proof.
  induction k as [|k IH]; intros l s xs s' E; simpl in E.
  - rinv E. subst. exists l. apply Permutation_refl.
  - minv E as d Hd.
    destruct (extract (Z.to_nat (d mod Z.of_nat (length l))) l)
      as [[x r]|] eqn:Ex; [|discriminate E].
    minv E as ys Hys. rinv E. subst.
    destruct (IH _ _ _ _ Hys) as (rest & Hp). exists rest.
    eapply Permutation_trans; [exact (extract_perm _ _ _ _ Ex)|].
    simpl. apply perm_skip. exact Hp.
Qed.

Lemma yields_sample_rows {A} k :
  forall l : list A,
    (k <= length l)%nat ->
    yields (sample_rows k l)
           (fun xs => length xs = k /\ exists rest, Permutation l (xs ++ rest)).
Proof.
  induction k as [|k IH]; intros l Hk; simpl.
  - apply yields_ret. split; [reflexivity|]. exists l. apply Permutation_refl.
  - eapply yields_bind; [exact yields_np_draw|]. intros d _.
    destruct (extract_some (Z.to_nat (d mod Z.of_nat (length l))) l)
      as (x & r & Ex).
    { pose proof (Z.mod_pos_bound d (Z.of_nat (length l))). lia. }
    rewrite Ex.
    assert (Hr : length l = S (length r)).
    { apply extract_perm, Permutation_length in Ex. exact Ex. }
    eapply yields_bind; [apply (IH r); lia|].
    intros xs (Hlen & rest & Hp). apply yields_ret. split.
    + simpl. rewrite Hlen. reflexivity.
    + exists rest. eapply Permutation_trans; [exact (extract_perm _ _ _ _ Ex)|].
      simpl. apply perm_skip. exact Hp.
Qed.

Lemma yields_sample {A} n (l : list A) :
  0 <= n <= Z.of_nat (length l) ->
  yields (sample n l)
         (fun xs => Z.of_nat (length xs) = n /\
                    exists rest, Permutation l (xs ++ rest)).
Proof.
  intros Hn. unfold sample.
  destruct (n <? 0) eqn:E1; [lia|].
  destruct (Z.of_nat (length l) <? n) eqn:E2; [lia|]. simpl.
  eapply yields_weaken; [apply yields_sample_rows; lia|].
  intros xs (Hlen & Hp). split; [lia | exact Hp].
Qed.

Lemma sample_raises {A} n (l : list A) s :
  n < 0 \/ Z.of_nat (length l) < n -> sample n l s = (Raise ValueError, s).
Proof.
  intros Hn. unfold sample.
  destruct (n <? 0) eqn:E1; [reflexivity|].
  destruct (Z.of_nat (length l) <? n) eqn:E2; [reflexivity | lia].
Qed.

Lemma sample_perm {A} n (l : list A) s xs s' :
  sample n l s = (Ok xs, s') -> exists rest, Permutation l (xs ++ rest).
Proof.
  unfold sample. destruct ((n <? 0) || (Z.of_nat (length l) <? n)).
  - discriminate.
  - apply sample_rows_perm.
Qed.

Lemma yields_sample1 {A} (l : list A) :
  (0 < length l)%nat -> yields (sample1 l) (fun x => In x l).
Proof.
  intros Hl. unfold sample1.
  eapply yields_bind; [apply (yields_sample 1 l); lia|].
  intros xs (Hlen & rest & Hp).
  destruct xs as [|x xs]; [simpl in Hlen; lia|]. simpl.
  apply yields_ret. eapply Permutation_in; [apply Permutation_sym; exact Hp|].
  left; reflexivity.
Qed.

Lemma sample1_empty {A} s : sample1 (@nil A) s = (Raise ValueError, s).
Proof. reflexivity. Qed.

Lemma yields_iloc0 {W A} (l : list A) :
  (0 < length l)%nat ->
  yields (W := W) (iloc0 l) (fun x => exists l', l = x :: l').
Proof.
  destruct l as [|x l]; simpl; [lia|]. intros _.
  apply yields_ret. exists l. reflexivity.
Qed.

(** ** Computations that leave Faker's generator alone *)

Lemma ignores_ret {A} (a : A) : ignores_fk (ret a).
Proof. intros s f. reflexivity. Qed.

Lemma ignores_raise {A} e : ignores_fk (raise (A := A) e).
Proof. intros s f. reflexivity. Qed.

Lemma ignores_bind {A B} (m : M Rand A) (k : A -> M Rand B) :
  ignores_fk m -> (forall a, ignores_fk (k a)) -> ignores_fk (bind m k).
Proof.
  intros Hm Hk s f. unfold bind. rewrite (Hm s f).
  destruct (m s) as [[a|e] s1]; simpl.
  - apply Hk.
  - reflexivity.
Qed.

Lemma ignores_py_draw : ignores_fk py_draw.
Proof. intros s f. reflexivity. Qed.

Lemma ignores_np_draw : ignores_fk np_draw.
Proof. intros s f. reflexivity. Qed.

Create HintDb ignores.
#[export] Hint Resolve ignores_ret ignores_raise ignores_py_draw ignores_np_draw
  : ignores.

Ltac ignores :=
  repeat first
    [ apply ignores_bind; [|intros ?]
    | match goal with
      | |- ignores_fk (if ?c then _ else _) => destruct c
      | |- ignores_fk (match ?x with _ => _ end) => destruct x
      end
    | solve [auto with ignores] ].

Lemma ignores_randint a b : ignores_fk (randint a b).
Proof. unfold randint. ignores. Qed.

Lemma ignores_choice {A} (l : list A) : ignores_fk (choice l).
Proof. unfold choice. ignores. Qed.

Lemma ignores_np_choice {A} (l : list A) : ignores_fk (np_choice l).
Proof. unfold np_choice. ignores. Qed.

Lemma ignores_random_random {F} `{Num F} : ignores_fk (random_random (F := F)).
Proof. unfold random_random. ignores. Qed.

Lemma ignores_random_uniform {F} `{Num F} (a b : F) :
  ignores_fk (random_uniform a b).
Proof.
  unfold random_uniform. apply ignores_bind; [apply ignores_random_random|].
  intros u. apply ignores_ret.
Qed.

Lemma ignores_sample_rows {A} k : forall l : list A, ignores_fk (sample_rows k l).
Proof.
  induction k as [|k IH]; intros l; simpl.
  - apply ignores_ret.
  - apply ignores_bind; [apply ignores_np_draw|]. intros d.
    destruct (extract _ l) as [[x r]|].
    + apply ignores_bind; [apply IH|]. intros xs. apply ignores_ret.
    + apply ignores_raise.
Qed.

Lemma ignores_sample {A} n (l : list A) : ignores_fk (sample n l).
Proof.
  unfold sample. destruct (_ || _); [apply ignores_raise|].
  apply ignores_sample_rows.
Qed.

Lemma ignores_iloc0 {A} (l : list A) : ignores_fk (iloc0 l).
Proof. destruct l; simpl; auto with ignores. Qed.

Lemma ignores_sample1 {A} (l : list A) : ignores_fk (sample1 l).
Proof.
  unfold sample1. apply ignores_bind; [apply ignores_sample|].
  intros rows. apply ignores_iloc0.
Qed.

Lemma ignores_foreach {A St} (body : A -> St -> M Rand St) l :
  (forall x st, ignores_fk (body x st)) ->
  forall st, ignores_fk (foreach l body st).
Proof.
  intros Hb. induction l as [|x l IH]; intros st; simpl.
  - apply ignores_ret.
  - apply ignores_bind; [apply Hb | exact IH].
Qed.

Lemma ignores_repeat_n {St} (body : St -> M Rand St) n :
  (forall st, ignores_fk (body st)) ->
  forall st, ignores_fk (repeat_n n body st).
Proof.
  intros Hb. induction n as [|n IH]; intros st; simpl.
  - apply ignores_ret.
  - apply ignores_bind; [apply Hb | exact IH].
Qed.

#[export] Hint Resolve ignores_randint ignores_choice ignores_np_choice
  ignores_random_random ignores_random_uniform ignores_sample ignores_iloc0
  ignores_sample1 : ignores.

(** ** Lists *)

Import OrderSpec.

Lemma firstn_In {A} n (l : list A) x : In x (firstn n l) -> In x l.
Proof.
  intros Hx. rewrite <- (firstn_skipn n l). apply in_app_iff. left. exact Hx.
Qed.

Lemma ids_from_length first n : length (ids_from first n) = n.
Proof. unfold ids_from. rewrite length_map, length_seq. reflexivity. Qed.

Lemma map_seq_shift first a m :
  forall b,
    map (fun k => first + Z.of_nat k) (seq (a + b) m)
    = map (fun k => first + Z.of_nat a + Z.of_nat k) (seq b m).
Proof.
  induction m as [|m IH]; intros b; simpl; [reflexivity|].
  f_equal; [lia|]. rewrite <- Nat.add_succ_r. apply IH.
Qed.

Lemma ids_from_app first n m :
  ids_from first (n + m) = ids_from first n ++ ids_from (first + Z.of_nat n) m.
Proof.
  unfold ids_from. rewrite seq_app, map_app. f_equal. simpl.
  rewrite <- (Nat.add_0_r n) at 1. apply map_seq_shift.
Qed.

End RunFacts.

(* ================================================================== *)
(** * Stage 2: the order tables in full *)

Module OrderTables.
Import Stage2 OrderSpec OrderFacts OrderDetail RunFacts.

Lemma replace_hm_date cd h m :
  0 <= h <= 23 -> 0 <= m <= 59 -> date_of (replace_hm cd h m) = date_of cd.
Proof.
  intros Hh Hm. unfold replace_hm, date_of, minutes_per_day.
  symmetry. apply (Z.div_unique _ _ _ (60 * h + m)); lia.
Qed.

Lemma day_name_date a b : date_of a = date_of b -> day_name a = day_name b.
Proof. intros E. unfold day_name, weekday. rewrite E. reflexivity. Qed.



Section Facts.
Context {F : Type} `{Num F}.

Lemma yields_hour : yields (get_order_hour_with_peaks (F := F)) peak_hour.
Proof.
  unfold get_order_hour_with_peaks, peak_hour.
  eapply yields_bind; [exact yields_random_random|]. intros rand _.
  repeat match goal with
         | |- yields (if ?c then _ else _) _ => destruct c
         end;
    try (eapply yields_weaken; [apply yields_randint; lia | intros h Hh; cbv beta in *; lia]).
  eapply yields_weaken; [apply yields_choice; simpl; lia|].
  intros h Hh. simpl in Hh. intuition lia.
Qed.

Lemma hour_peaks_inv s h s' :
  get_order_hour_with_peaks (F := F) s = (Ok h, s') -> peak_hour h.
Proof.
  intros E. destruct (yields_hour s) as (h' & s1 & E' & Hh).
  rewrite E in E'. inversion E'; subst. exact Hh.
Qed.

Lemma add_items_ids oid sel :
  forall t0 l0 id0 s t l id s',
    foreach sel (add_item (F := F) oid) (t0, l0, id0) s = (Ok (t, l, id), s') ->
    exists l1,
      l = l0 ++ l1 /\
      map OrderItem.OrderItemID l1 = ids_from id0 (length l1) /\
      id = id0 + Z.of_nat (length l1).
Proof.
  induction sel as [|m sel IH]; intros t0 l0 id0 s t l id s' E; simpl in E.
  - rinv E. inversion E0; subst. exists []. rewrite app_nil_r.
    repeat split. simpl. lia.
  - minv E. destruct (add_item_inv _ _ _ _ _ _ _ _ E0) as (q & Hq & ->).
    destruct (IH _ _ _ _ _ _ _ _ E) as (l1 & -> & Hids & ->).
    eexists (_ :: l1). rewrite <- app_assoc. simpl. split; [reflexivity|].
    split.
    + rewrite Hids. change (S (length l1)) with (1 + length l1)%nat.
      rewrite ids_from_app. simpl. f_equal. lia.
    + lia.
Qed.

(** One turn of the daily loop, in full. *)
Lemma order_iteration_full users restaurants menu pool current_date st s st' s' :
  order_iteration users restaurants menu pool current_date st s = (Ok st', s') ->
  st' = st \/
  exists o g,
    pushed st st' o g /\
    daily_order users restaurants menu pool current_date o g /\
    Order.OrderDay o = day_name (Order.OrderTime o) /\
    peak_hour (Order.OrderHour o) /\
    In (Order.PaymentMethod o) payment_methods /\
    map OrderItem.OrderItemID g = ids_from (order_item_id st) (length g) /\
    order_item_id st' = order_item_id st + Z.of_nat (length g).
Proof.
  intros E0.
  destruct (order_iteration_spec _ _ _ _ _ _ _ _ _ E0) as [Hsame | (o & g & Hpush & Hd)];
    [left; exact Hsame|].
  right. exists o, g. split; [exact Hpush|]. split; [exact Hd|].
  destruct Hpush as (Hid & Ho & Hi & Hn).
  revert E0. unfold order_iteration. intros E.
  minv E as user_id Huser. minv E as user Hrow.
  minv E as restaurant Hrest. minv E as order_hour Hhour.
  minv E as order_minute Hminute.
  destruct (length (available_menu menu (Restaurant.RestaurantID restaurant)) =? 0)%nat
    eqn:Hmenu.
  { rinv E. subst st'. exfalso.
    apply (f_equal (@List.length _)) in Ho. rewrite length_app in Ho.
    simpl in Ho. lia. }
  minv E as num_items Hnum. minv E as selected Hsel.
  minv E. destruct a as [[total items] item_id]. rename E0 into Hitems.
  minv E as fee Hfee. minv E as discount Hdisc.
  minv E as status Hstatus. minv E as address_row Haddr.
  minv E as payment Hpay. rinv E. subst st'. simpl in Ho, Hi, Hn |- *.
  apply app_inv_head in Ho. inversion Ho; subst o. simpl.
  apply app_inv_head in Hi. subst items.
  destruct (add_items_ids _ _ _ _ _ _ _ _ _ _ Hitems) as (l1 & Hl1 & Hids & Hnext).
  simpl in Hl1. subst l1.
  apply hour_peaks_inv in Hhour. apply randint_inv in Hminute.
  apply choice_inv in Hpay.
  split.
  { apply day_name_date. symmetry. apply replace_hm_date; [|exact Hminute].
    unfold peak_hour in Hhour. lia. }
  split; [exact Hhour|].
  split.
  { unfold payment_methods. simpl in Hpay |- *. intuition. }
  split; [exact Hids | exact Hnext].
Qed.

(** One turn of the bot pass, in full. *)
Lemma bot_iteration_full users restaurants menu config bot_users bot_user d st s st' s' :
  In bot_user (firstn 25 bot_users) -> 0 <= d <= 300 ->
  bot_iteration users restaurants menu bot_user
                (add_days (start_date config) d) st s = (Ok st', s') ->
  st' = st \/
  exists o g,
    pushed st st' o g /\
    bot_order users restaurants menu config bot_users o g /\
    Order.OrderDay o = day_name (Order.OrderTime o) /\
    Order.PaymentMethod o = "UPI"%string /\
    Order.UserID o = bot_user /\
    Order.OrderDate o = date_of (add_days (start_date config) d) /\
    map OrderItem.OrderItemID g = ids_from (order_item_id st) (length g) /\
    order_item_id st' = order_item_id st + Z.of_nat (length g).
Proof.
  intros Hbot Hd E0.
  destruct (bot_iteration_spec _ _ _ _ _ _ _ _ _ _ _ Hbot Hd E0)
    as [Hsame | (o & g & Hpush & Hb)]; [left; exact Hsame|].
  right. exists o, g. split; [exact Hpush|]. split; [exact Hb|].
  destruct Hpush as (Hid & Ho & Hi & Hn).
  revert E0. unfold bot_iteration. intros E.
  minv E as restaurant Hrest.
  destruct (length (available_menu menu (Restaurant.RestaurantID restaurant)) =? 0)%nat
    eqn:Hmenu.
  { rinv E. subst st'. exfalso.
    apply (f_equal (@List.length _)) in Ho. rewrite length_app in Ho.
    simpl in Ho. lia. }
  minv E as item Hitem. minv E as order_hour Hhour.
  minv E as order_minute Hminute. minv E as address_row Haddr.
  rinv E. subst st'. simpl in Ho, Hi, Hn |- *.
  apply app_inv_head in Ho. inversion Ho; subst o. simpl.
  apply app_inv_head in Hi. subst g. simpl.
  apply randint_inv in Hhour. apply randint_inv in Hminute.
  split.
  { apply day_name_date. symmetry. apply replace_hm_date; assumption. }
  repeat split. unfold ids_from. simpl. f_equal. lia.
Qed.

(** ** The invariant of the accumulators *)

Lemma numbered_push (st st' : GenState F) o g :
  items_numbered st -> pushed st st' o g ->
  map OrderItem.OrderItemID g = ids_from (order_item_id st) (length g) ->
  order_item_id st' = order_item_id st + Z.of_nat (length g) ->
  items_numbered st'.
Proof.
  intros [Hids Hnext] (_ & _ & Hi & _) Hg Hn. unfold items_numbered.
  rewrite Hi, map_app, length_app, ids_from_app, Hids, Hg, Hn, Hnext.
  split; [reflexivity | lia].
Qed.

Lemma invariant_initial users restaurants menu config pw wk bots rg :
  invariant users restaurants menu config pw wk bots rg initial_state.
Proof.
  split; [apply grouped_initial|]. split; reflexivity.
Qed.

Lemma day_iteration_full users restaurants menu config pw wk bots rg day st s st' s' :
  In day (day_range (start_date config) (end_date config)) ->
  invariant users restaurants menu config pw wk bots rg st ->
  day_iteration users restaurants menu config pw wk rg day st s = (Ok st', s') ->
  invariant users restaurants menu config pw wk bots rg st'.
Proof.
  intros Hday Hinv E. unfold day_iteration in E.
  refine (repeat_n_inv _ _ _ _ _ _ _ _ Hinv E).
  clear Hinv E. intros st0 s0 st1 s1 [Hg Hn] E.
  destruct (order_iteration_full _ _ _ _ _ _ _ _ _ E)
    as [-> | (o & g & Hpush & Hd & Hday' & Hhour & Hpay & Hids & Hnext)];
    [split; assumption|].
  split.
  - eapply grouped_push; [exact Hg | exact Hpush | | eapply daily_lines_of; exact Hd].
    split; [exact Hday'|]. left. split; [|split; assumption].
    exists day. split; [exact Hday | exact Hd].
  - eapply numbered_push; eassumption.
Qed.

Lemma daily_loop_full users restaurants menu config pw wk bots rg st s st' s' :
  invariant users restaurants menu config pw wk bots rg st ->
  daily_loop users restaurants menu config pw wk rg st s = (Ok st', s') ->
  invariant users restaurants menu config pw wk bots rg st'.
Proof.
  intros Hinv E. unfold daily_loop in E.
  refine (foreach_inv _ _ _ _ _ _ _ _ Hinv E).
  intros day st0 s0 st1 s1 Hday Hinv0 E0.
  eapply day_iteration_full; eassumption.
Qed.

Lemma bot_pass_full users restaurants menu config pw wk bots rg st s st' s' :
  invariant users restaurants menu config pw wk bots rg st ->
  bot_pass users restaurants menu config bots st s = (Ok st', s') ->
  invariant users restaurants menu config pw wk bots rg st'.
Proof.
  intros Hinv E. unfold bot_pass in E.
  refine (foreach_inv _ _ _ _ _ _ _ _ Hinv E).
  intros bot st0 s0 st1 s1 Hbot Hinv0 E0. unfold bot_burst in E0.
  minv E0 as d Hd. minv E0 as n Hn. apply randint_inv in Hd.
  refine (repeat_n_inv _ _ _ _ _ _ _ _ Hinv0 E0).
  intros st2 t2 st3 t3 [Hg Hnum] E2.
  destruct (bot_iteration_full _ _ _ _ _ _ _ _ _ _ _ Hbot Hd E2)
    as [-> | (o & g & Hpush & Hb & Hday & Hpay & _ & _ & Hids & Hnext)];
    [split; assumption|].
  split.
  - eapply grouped_push; [exact Hg | exact Hpush | | eapply bot_lines_of; exact Hb].
    split; [exact Hday|]. right. split; assumption.
  - eapply numbered_push; eassumption.
Qed.

(** The tables [generate_orders] returns, with the cohorts they were
    generated for. *)
Lemma generate_orders_full users restaurants menu config s orders items s' :
  generate_orders users restaurants menu config s = (Ok (orders, items), s') ->
  exists pw wk bots rg s1,
    segment_users users config s = (Ok (pw, wk, bots, rg), s1) /\
    tables_grouped (full_row users restaurants menu config pw wk bots rg)
                   orders items /\
    map OrderItem.OrderItemID items = ids_from 1 (length items).
Proof.
  unfold generate_orders. intros E.
  minv E. destruct a as [[[pw wk] bots] rg]. rename E0 into Hseg.
  minv E as st Hloop. minv E as st2 Hbots. rinv E. inversion E0; subst.
  exists pw, wk, bots, rg, s0. split; [exact Hseg|].
  pose proof (daily_loop_full _ _ _ _ _ _ bots _ _ _ _ _
                (invariant_initial users restaurants menu config pw wk bots rg)
                Hloop) as H1.
  destruct (bot_pass_full _ _ _ _ _ _ _ _ _ _ _ _ H1 Hbots) as [[Hg _] [Hids _]].
  split; assumption.
Qed.

End Facts.
End OrderTables.

(* ================================================================== *)
(** * Stage 2: the cohorts *)

Module Cohorts.
Import Stage2 OrderSpec OrderFacts OrderDetail RunFacts OrderTables.

Lemma not_isin_ids sel users x :
  In x (map User.UserID (not_isin sel users)) <->
  In x (map User.UserID users) /\ ~ In x sel.
Proof.
  unfold not_isin. rewrite !in_map_iff. split.
  - intros (u & <- & Hu). apply filter_In in Hu. destruct Hu as [Hu Hn].
    split; [exists u; split; [reflexivity | exact Hu]|].
    intros Hin. apply negb_true_iff in Hn.
    assert (Ht : existsb (Z.eqb (User.UserID u)) sel = true).
    { apply existsb_exists. exists (User.UserID u). split; [exact Hin|].
      apply Z.eqb_refl. }
    rewrite Ht in Hn. discriminate Hn.
  - intros [(u & <- & Hu) Hn]. exists u. split; [reflexivity|].
    apply filter_In. split; [exact Hu|]. apply negb_true_iff.
    destruct (existsb (Z.eqb (User.UserID u)) sel) eqn:Ex; [|reflexivity].
    exfalso. apply Hn. apply existsb_exists in Ex. destruct Ex as (y & Hy & Heq).
    apply Z.eqb_eq in Heq. rewrite Heq. exact Hy.
Qed.

Lemma not_isin_NoDup sel users :
  NoDup (map User.UserID users) -> NoDup (map User.UserID (not_isin sel users)).
Proof. apply ReferralFacts.NoDup_map_filter. Qed.

(** The ids of sampled rows: distinct, and ids of the table. *)
Lemma sample_ids n (users : list User.t) s rows s' :
  NoDup (map User.UserID users) ->
  sample n users s = (Ok rows, s') ->
  NoDup (map User.UserID rows) /\
  incl (map User.UserID rows) (map User.UserID users) /\
  Z.of_nat (length (map User.UserID rows)) = n.
Proof.
  intros Hnd E. destruct (sample_perm _ _ _ _ _ E) as (rest & Hp).
  destruct (sample_inv _ _ _ _ _ E) as (Hlen & Hincl).
  split; [|split].
  - apply (Permutation_map User.UserID) in Hp. rewrite map_app in Hp.
    eapply NoDup_app_remove_r. eapply Permutation_NoDup; [exact Hp | exact Hnd].
  - intros x Hx. apply in_map_iff in Hx. destruct Hx as (u & <- & Hu).
    apply in_map. apply Hincl. exact Hu.
  - rewrite length_map. exact Hlen.
Qed.

(** A selection of distinct ids and the ids left over. *)
Lemma split_ids sel users :
  NoDup (map User.UserID users) -> NoDup sel ->
  incl sel (map User.UserID users) ->
  Permutation (map User.UserID users)
              (sel ++ map User.UserID (not_isin sel users)).
Proof.
  intros Hnd Hsel Hincl. apply NoDup_Permutation; [exact Hnd | |].
  - apply NoDup_app; [exact Hsel | apply not_isin_NoDup; exact Hnd|].
    intros x Hx Hx'. apply not_isin_ids in Hx'. destruct Hx' as [_ Hn].
    exact (Hn Hx).
  - intros x. rewrite in_app_iff, not_isin_ids. split.
    + intros Hx. destruct (in_dec Z.eq_dec x sel) as [Hs | Hs]; [left | right];
        auto.
    + intros [Hx | [Hx _]]; [apply Hincl|]; exact Hx.
Qed.

Lemma not_isin_length sel users :
  NoDup (map User.UserID users) -> NoDup sel ->
  incl sel (map User.UserID users) ->
  (length (not_isin sel users) = length users - length sel)%nat.
Proof.
  intros Hnd Hsel Hincl.
  pose proof (Permutation_length (split_ids _ _ Hnd Hsel Hincl)) as E.
  rewrite length_app, !length_map in E. lia.
Qed.

Section Facts.
Context {F : Type} `{Num F}.

(** What the three draws of [segment_users] give. *)
Lemma segment_users_spec users (config : Config F) s pw wk bots rg s' :
  NoDup (map User.UserID users) ->
  segment_users users config s = (Ok (pw, wk, bots, rg), s') ->
  (Z.of_nat (length pw), Z.of_nat (length wk), Z.of_nat (length bots))
  = cohort_sizes users config /\
  NoDup (pw ++ wk ++ bots ++ rg) /\
  (forall x, In x (pw ++ wk ++ bots ++ rg) <-> In x (map User.UserID users)).
Proof.
  intros Hnd E. unfold segment_users in E.
  minv E as power_rows Hp. minv E as weekend_rows Hw. minv E as bot_rows Hb.
  rinv E. inversion E0; subst pw wk bots rg. clear E0.
  destruct (sample_ids _ _ _ _ _ Hnd Hp) as (Hp1 & Hp2 & Hp3).
  destruct (sample_ids _ _ _ _ _ (not_isin_NoDup _ _ Hnd) Hw) as (Hw1 & Hw2 & Hw3).
  destruct (sample_ids _ _ _ _ _ (not_isin_NoDup _ _ Hnd) Hb) as (Hb1 & Hb2 & Hb3).
  set (pw := map User.UserID power_rows) in *.
  set (wk := map User.UserID weekend_rows) in *.
  set (bots := map User.UserID bot_rows) in *.
  split; [|split].
  - unfold cohort_sizes. rewrite Hp3, Hw3, Hb3. reflexivity.
  - apply NoDup_app; [exact Hp1 | |].
    + apply NoDup_app; [exact Hw1 | |].
      * apply NoDup_app; [exact Hb1 | apply not_isin_NoDup; exact Hnd|].
        intros x Hx Hx'. apply not_isin_ids in Hx'. destruct Hx' as [_ Hn].
        apply Hn. rewrite !in_app_iff. auto.
      * intros x Hx Hx'. apply in_app_iff in Hx'. destruct Hx' as [Hx' | Hx'].
        -- apply Hb2, not_isin_ids in Hx'. destruct Hx' as [_ Hn].
           apply Hn. rewrite in_app_iff. auto.
        -- apply not_isin_ids in Hx'. destruct Hx' as [_ Hn].
           apply Hn. rewrite !in_app_iff. auto.
    + intros x Hx Hx'. rewrite !in_app_iff in Hx'.
      destruct Hx' as [Hx' | [Hx' | Hx']].
      * apply Hw2, not_isin_ids in Hx'. destruct Hx' as [_ Hn]. exact (Hn Hx).
      * apply Hb2, not_isin_ids in Hx'. destruct Hx' as [_ Hn].
        apply Hn. rewrite in_app_iff. auto.
      * apply not_isin_ids in Hx'. destruct Hx' as [_ Hn].
        apply Hn. rewrite !in_app_iff. auto.
  - intros x. rewrite !in_app_iff, not_isin_ids, !in_app_iff. split.
    + intros [Hx | [Hx | [Hx | [Hx _]]]].
      * apply Hp2. exact Hx.
      * apply Hw2, not_isin_ids in Hx. apply Hx.
      * apply Hb2, not_isin_ids in Hx. apply Hx.
      * exact Hx.
    + intros Hx.
      destruct (in_dec Z.eq_dec x pw) as [H1 | H1]; [auto|].
      destruct (in_dec Z.eq_dec x wk) as [H2 | H2]; [auto|].
      destruct (in_dec Z.eq_dec x bots) as [H3 | H3]; [auto|].
      right. right. right. split; [exact Hx|]. intuition.
Qed.

End Facts.
End Cohorts.

(* ================================================================== *)
(** * Stage 2: what the order tables always satisfy *)

Module OrderRows.
Import Stage2 OrderSpec OrderFacts OrderDetail RunFacts OrderTables Cohorts.

Section Facts.
Context {F : Type} `{Num F}.

(** [get_order_hour_with_peaks] returns in every state of the
    generators, and the hour it returns is one of its five windows
    (19-22, 12-15, 16-18, 8-11, and 23, 0, 1): never an hour from 2 to
    7. *)
Theorem order_hour_windows (s : Rand) :
  exists h s',
    get_order_hour_with_peaks (F := F) s = (Ok h, s') /\
    (h = 0 \/ h = 1 \/ 8 <= h <= 23).
Proof.
  revert s. change (yields (get_order_hour_with_peaks (F := F)) peak_hour).
  unfold get_order_hour_with_peaks, peak_hour.
  eapply yields_bind; [exact yields_random_random|]. intros rand _.
  repeat match goal with
         | |- yields (if ?c then _ else _) _ => destruct c
         end;
    try (eapply yields_weaken;
         [apply yields_randint; lia | intros h Hh; cbv beta in *; lia]).
  eapply yields_weaken; [apply yields_choice; simpl; lia|].
  intros h Hh. simpl in Hh. intuition lia.
Qed.

Lemma full_rows_found users restaurants menu config pw wk bots rg orders items o :
  tables_grouped (full_row users restaurants menu config pw wk bots rg)
                 orders items ->
  In o orders ->
  full_row users restaurants menu config pw wk bots rg o
           (Stage3.items_of items (Order.OrderID o)).
Proof.
  intros Hg Ho. destruct (lines_found _ _ _ _ Hg Ho) as (g & Hfull & _ & Hitems).
  rewrite Hitems. exact Hfull.
Qed.


(** The line ids are 1, 2, ... in row order; every order has at least
    one line and at most four; every line belongs to an order of the
    order table. *)
Theorem order_item_numbering
  (users : list User.t) (restaurants : list (Restaurant.t F))
  (menu : list (Menu.t F)) (config : Config F) (s s' : Rand)
  (orders : list (Order.t F)) (items : list (OrderItem.t F)) :
  generate_orders users restaurants menu config s = (Ok (orders, items), s') ->
  map OrderItem.OrderItemID items = ids_from 1 (length items) /\
  Forall (fun o =>
            (1 <= length (Stage3.items_of items (Order.OrderID o)) <= 4)%nat)
         orders /\
  Forall (fun i => In (OrderItem.OrderID i) (map Order.OrderID orders)) items.
Proof.
  intros E. destruct (generate_orders_full _ _ _ _ _ _ _ _ E)
    as (pw & wk & bots & rg & s1 & _ & Hg & Hids).
  split; [exact Hids|]. split.
  - apply Forall_forall. intros o Ho.
    destruct (full_rows_found _ _ _ _ _ _ _ _ _ _ _ Hg Ho)
      as (_ & [((day & _ & Hd) & _) | (Hb & _)]).
    + exact (do_count _ _ _ _ _ _ _ Hd).
    + destruct (bo_line _ _ _ _ _ _ _ Hb) as (m & i & _ & -> & _).
      simpl. lia.
  - apply Forall_forall. intros i Hi.
    destruct (line_owner _ _ _ _ Hg Hi) as (o & g & Ho & _ & Hl & Hig).
    unfold lines_of in Hl. rewrite Forall_forall in Hl.
    rewrite (Hl _ Hig). apply in_map. exact Ho.
Qed.

(** Every order line is an item of the menu: an available item of the
    restaurant of its order, at the menu price. *)
Theorem order_lines_from_menu
  (users : list User.t) (restaurants : list (Restaurant.t F))
  (menu : list (Menu.t F)) (config : Config F) (s s' : Rand)
  (orders : list (Order.t F)) (items : list (OrderItem.t F)) :
  generate_orders users restaurants menu config s = (Ok (orders, items), s') ->
  Forall (fun i =>
            exists o m,
              In o orders /\ OrderItem.OrderID i = Order.OrderID o /\
              In m menu /\
              Menu.RestaurantID m = Order.RestaurantID o /\
              Menu.IsAvailable m = true /\
              OrderItem.MenuID i = Menu.MenuID m /\
              OrderItem.ItemPrice i = Menu.Price m) items.
Proof.
  intros E. destruct (generate_orders_full _ _ _ _ _ _ _ _ E)
    as (pw & wk & bots & rg & s1 & _ & Hg & _).
  apply Forall_forall. intros i Hi.
  destruct (line_owner _ _ _ _ Hg Hi) as (o & g & Ho & Hfull & Hl & Hig).
  assert (Hfound : exists m, In m (available_menu menu (Order.RestaurantID o)) /\
                             OrderItem.MenuID i = Menu.MenuID m /\
                             OrderItem.ItemPrice i = Menu.Price m).
  { destruct Hfull as (_ & [((day & _ & Hd) & _) | (Hb & _)]).
    - pose proof (do_lines _ _ _ _ _ _ _ Hd) as Hall.
      rewrite Forall_forall in Hall. destruct (Hall _ Hig) as (_ & _ & _ & Hm).
      exact Hm.
    - destruct (bo_line _ _ _ _ _ _ _ Hb)
        as (m & j & Hm & -> & _ & Hid & _ & Hprice & _).
      destruct Hig as [<- | []]. exists m. repeat split; assumption. }
  destruct Hfound as (m & Hm & Hid & Hprice).
  unfold available_menu in Hm. apply filter_In in Hm.
  destruct Hm as (Hm & Hcond). apply andb_true_iff in Hcond.
  destruct Hcond as (Hrid & Hav). apply Z.eqb_eq in Hrid.
  unfold lines_of in Hl. rewrite Forall_forall in Hl.
  exists o, m. repeat split; auto.
Qed.

(** On a users table with distinct ids, the four cohorts of
    [segment_users] partition the user ids, and the power, weekend-only
    and bot cohorts have the sizes int(n * power_user_percentage),
    int(n * weekend_only_user_percentage) and bot_users_count. *)
Theorem cohorts_partition
  (users : list User.t) (config : Config F) (s s' : Rand)
  (pw wk bots rg : list Z) :
  NoDup (map User.UserID users) ->
  segment_users users config s = (Ok (pw, wk, bots, rg), s') ->
  Permutation (pw ++ wk ++ bots ++ rg) (map User.UserID users) /\
  (Z.of_nat (length pw), Z.of_nat (length wk), Z.of_nat (length bots))
  = cohort_sizes users config.
Proof.
  intros Hnd E. destruct (segment_users_spec _ _ _ _ _ _ _ _ Hnd E)
    as (Hsizes & Hnd' & Hiff).
  split; [|exact Hsizes].
  apply NoDup_Permutation; assumption.
Qed.

Lemma NoDup_app_disjoint {A} (l l' : list A) x :
  NoDup (l ++ l') -> In x l -> In x l' -> False.
Proof.
  intros Hnd H1 H2. induction l as [|y l IH]; [destruct H1|].
  simpl in Hnd. inversion Hnd as [|? ? Hy Hrest]; subst.
  destruct H1 as [-> | H1]; [|exact (IH Hrest H1)].
  apply Hy. apply in_app_iff. auto.
Qed.

(** On a users table with distinct ids: every order is placed by a
    power user, a weekend-only user, a regular user or one of the first
    25 bot users; a weekend-only user has orders on Saturdays and
    Sundays only; a bot user has orders of the bot pass only (Delivered,
    without fee, paid by UPI, of one line). *)
Theorem cohort_orders
  (users : list User.t) (restaurants : list (Restaurant.t F))
  (menu : list (Menu.t F)) (config : Config F) (s s' : Rand)
  (orders : list (Order.t F)) (items : list (OrderItem.t F)) :
  NoDup (map User.UserID users) ->
  generate_orders users restaurants menu config s = (Ok (orders, items), s') ->
  exists pw wk bots rg s1,
    segment_users users config s = (Ok (pw, wk, bots, rg), s1) /\
    Forall (fun o =>
      In (Order.UserID o) (pw ++ wk ++ firstn 25 bots ++ rg) /\
      (In (Order.UserID o) wk -> 5 <= weekday (Order.OrderTime o)) /\
      (In (Order.UserID o) bots ->
       Order.OrderStatus o = Delivered /\ Order.DeliveryFee o = 0 /\
       Order.PaymentMethod o = "UPI"%string /\
       length (Stage3.items_of items (Order.OrderID o)) = 1%nat)) orders.
Proof.
  intros Hnd E. destruct (generate_orders_full _ _ _ _ _ _ _ _ E)
    as (pw & wk & bots & rg & s1 & Hseg & Hg & _).
  exists pw, wk, bots, rg, s1. split; [exact Hseg|].
  destruct (segment_users_spec _ _ _ _ _ _ _ _ Hnd Hseg) as (_ & Hnd' & _).
  assert (Hpw_wk : forall x, In x pw -> In x wk -> False).
  { intros x H1 H2. apply (NoDup_app_disjoint _ _ x Hnd' H1).
    rewrite !in_app_iff. auto. }
  assert (Hpw_bots : forall x, In x pw -> In x bots -> False).
  { intros x H1 H2. apply (NoDup_app_disjoint _ _ x Hnd' H1).
    rewrite !in_app_iff. auto. }
  apply NoDup_app_remove_l in Hnd'.
  assert (Hwk_bots : forall x, In x wk -> In x bots -> False).
  { intros x H1 H2. apply (NoDup_app_disjoint _ _ x Hnd' H1).
    rewrite !in_app_iff. auto. }
  assert (Hwk_rg : forall x, In x wk -> In x rg -> False).
  { intros x H1 H2. apply (NoDup_app_disjoint _ _ x Hnd' H1).
    rewrite !in_app_iff. auto. }
  apply NoDup_app_remove_l in Hnd'.
  assert (Hbots_rg : forall x, In x bots -> In x rg -> False).
  { intros x H1 H2. exact (NoDup_app_disjoint _ _ x Hnd' H1 H2). }
  apply Forall_forall. intros o Ho.
  destruct (full_rows_found _ _ _ _ _ _ _ _ _ _ _ Hg Ho)
    as (_ & [((day & Hin & Hd) & _) | (Hb & Hpay)]).
  - pose proof (do_user _ _ _ _ _ _ _ Hd) as Hu.
    destruct (do_time _ _ _ _ _ _ _ Hd) as (Hh & minute & Hm & Ht).
    assert (Hwd : weekday (Order.OrderTime o) = weekday day).
    { unfold weekday. rewrite Ht, replace_hm_date by assumption. reflexivity. }
    unfold pool_of in Hu. rewrite Hwd.
    destruct (5 <=? weekday day) eqn:Hweekend; rewrite !in_app_iff in Hu.
    + split; [rewrite !in_app_iff; intuition|].
      split; [intros _; lia|].
      intros Hbot. exfalso. destruct Hu as [Hu | [Hu | Hu]]; eauto.
    + split; [rewrite !in_app_iff; intuition|].
      split.
      * intros Hwk. exfalso. destruct Hu as [Hu | Hu]; eauto.
      * intros Hbot. exfalso. destruct Hu as [Hu | Hu]; eauto.
  - pose proof (bo_user _ _ _ _ _ _ _ Hb) as Hu.
    split; [rewrite !in_app_iff; auto|].
    split.
    + intros Hwk. exfalso. apply firstn_In in Hu. eauto.
    + intros _. split; [exact (bo_status _ _ _ _ _ _ _ Hb)|].
      split; [exact (bo_fee _ _ _ _ _ _ _ Hb)|]. split; [exact Hpay|].
      destruct (bo_line _ _ _ _ _ _ _ Hb) as (m & i & _ & -> & _).
      reflexivity.
Qed.

(** The three draws of the cohorts either all succeed, when the sizes
    fit the table, or the first one that does not fit raises. *)
Lemma segment_users_cases (users : list User.t) (config : Config F) (s : Rand)
  (p w b : Z) :
  NoDup (map User.UserID users) ->
  cohort_sizes users config = (p, w, b) ->
  (0 <= p /\ 0 <= w /\ 0 <= b /\ p + w + b <= Z.of_nat (length users) /\
   exists cohorts s1, segment_users users config s = (Ok cohorts, s1)) \/
  ((p < 0 \/ w < 0 \/ b < 0 \/ Z.of_nat (length users) < p + w + b) /\
   exists s1, segment_users users config s = (Raise ValueError, s1)).
Proof.
  intros Hnd Hsizes. unfold cohort_sizes in Hsizes.
  inversion Hsizes as [[Hp Hw Hb]]. clear Hsizes.
  unfold segment_users. rewrite Hp, Hw, Hb.
  destruct (Z_lt_dec p 0) as [Hp0 | Hp0].
  { right. split; [auto|]. exists s. apply bind_raise, sample_raises. auto. }
  destruct (Z_lt_dec (Z.of_nat (length users)) p) as [Hp1 | Hp1].
  { right. split; [lia|]. exists s. apply bind_raise, sample_raises. auto. }
  assert (Hfit1 : 0 <= p <= Z.of_nat (length users)) by lia.
  destruct (yields_sample p users Hfit1 s) as (prow & s1 & E1 & Hl1 & _).
  rewrite (bind_ok _ _ _ _ _ E1).
  destruct (sample_ids _ _ _ _ _ Hnd E1) as (Hd1 & Hi1 & Hn1).
  pose proof (not_isin_length _ _ Hnd Hd1 Hi1) as Hlen1.
  rewrite length_map in Hn1, Hlen1.
  destruct (Z_lt_dec w 0) as [Hw0 | Hw0].
  { right. split; [auto|]. exists s1. apply bind_raise, sample_raises. auto. }
  destruct (Z_lt_dec (Z.of_nat (length users) - p) w) as [Hw1 | Hw1].
  { right. split; [lia|]. exists s1. apply bind_raise, sample_raises.
    right. lia. }
  assert (Hfit2 : 0 <= w <= Z.of_nat (length (not_isin (map User.UserID prow) users)))
    by lia.
  destruct (yields_sample w (not_isin (map User.UserID prow) users) Hfit2 s1)
    as (wrow & s2 & E2 & Hl2 & _).
  rewrite (bind_ok _ _ _ _ _ E2).
  destruct (sample_ids _ _ _ _ _ (not_isin_NoDup _ _ Hnd) E2) as (Hd2 & Hi2 & Hn2).
  assert (Hd12 : NoDup (map User.UserID prow ++ map User.UserID wrow)).
  { apply NoDup_app; [exact Hd1 | exact Hd2|].
    intros x Hx Hx'. apply Hi2, not_isin_ids in Hx'. destruct Hx' as [_ Hn].
    exact (Hn Hx). }
  assert (Hi12 : incl (map User.UserID prow ++ map User.UserID wrow)
                      (map User.UserID users)).
  { intros x Hx. apply in_app_iff in Hx. destruct Hx as [Hx | Hx].
    - apply Hi1. exact Hx.
    - apply Hi2, not_isin_ids in Hx. apply Hx. }
  pose proof (not_isin_length _ _ Hnd Hd12 Hi12) as Hlen2.
  rewrite length_app, !length_map in Hlen2. rewrite length_map in Hn2.
  destruct (Z_lt_dec b 0) as [Hb0 | Hb0].
  { right. split; [auto|]. exists s2. apply bind_raise, sample_raises. auto. }
  destruct (Z_lt_dec (Z.of_nat (length users) - p - w) b) as [Hb1 | Hb1].
  { right. split; [lia|]. exists s2. apply bind_raise, sample_raises.
    right. lia. }
  assert (Hfit3 : 0 <= b <= Z.of_nat (length (not_isin (map User.UserID prow
                                           ++ map User.UserID wrow) users)))
    by lia.
  destruct (yields_sample b _ Hfit3 s2) as (brow & s3 & E3 & _).
  rewrite (bind_ok _ _ _ _ _ E3).
  left. repeat (split; [lia|]). eexists _, _. reflexivity.
Qed.

(** On a users table of [n] rows with distinct ids, the cohorts can be
    drawn exactly when the three sizes are not negative and add up to at
    most [n]; otherwise [generate_orders] raises ValueError, before any
    order is generated. *)
Theorem cohorts_fit
  (users : list User.t) (restaurants : list (Restaurant.t F))
  (menu : list (Menu.t F)) (config : Config F) (s : Rand) (p w b : Z) :
  NoDup (map User.UserID users) ->
  cohort_sizes users config = (p, w, b) ->
  (0 <= p -> 0 <= w -> 0 <= b -> p + w + b <= Z.of_nat (length users) ->
   exists cohorts s1, segment_users users config s = (Ok cohorts, s1)) /\
  (p < 0 \/ w < 0 \/ b < 0 \/ Z.of_nat (length users) < p + w + b ->
   exists s1,
     generate_orders users restaurants menu config s = (Raise ValueError, s1)).
Proof.
  intros Hnd Hsizes.
  pose proof (segment_users_cases users config s p w b Hnd Hsizes) as Hcases.
  split.
  - intros H0 H1 H2 H3. destruct Hcases as [(_ & _ & _ & _ & Hok) | (Hbad & _)];
      [exact Hok | lia].
  - intros Hbad. destruct Hcases as [(H0 & H1 & H2 & H3 & _) | (_ & s1 & Hr)];
      [lia|].
    exists s1. unfold generate_orders. apply bind_raise. exact Hr.
Qed.

End Facts.

(** ** On the small inputs *)


Lemma order_item_numbering_witness :
  map OrderItem.OrderItemID Samples.late_lines
  = ids_from 1 (length Samples.late_lines) /\
  Forall (fun o =>
            (1 <= length (Stage3.items_of Samples.late_lines (Order.OrderID o))
             <= 4)%nat)
         Samples.late_orders /\
  Forall (fun i => In (OrderItem.OrderID i) (map Order.OrderID Samples.late_orders))
         Samples.late_lines.
Proof.
  apply (order_item_numbering Examples.late_users Examples.late_restaurants
           Examples.late_menu (Examples.one_day 1 1) Examples.late_rand
           (snd Samples.late_run) Samples.late_orders Samples.late_lines).
  vm_compute. reflexivity.
Defined.

Lemma order_lines_from_menu_witness :
  Forall (fun i =>
            exists o m,
              In o Samples.late_orders /\
              OrderItem.OrderID i = Order.OrderID o /\
              In m Examples.late_menu /\
              Menu.RestaurantID m = Order.RestaurantID o /\
              Menu.IsAvailable m = true /\
              OrderItem.MenuID i = Menu.MenuID m /\
              OrderItem.ItemPrice i = Menu.Price m) Samples.late_lines.
Proof.
  apply (order_lines_from_menu Examples.late_users Examples.late_restaurants
           Examples.late_menu (Examples.one_day 1 1) Examples.late_rand
           (snd Samples.late_run) Samples.late_orders Samples.late_lines).
  vm_compute. reflexivity.
Defined.

Lemma ten_users_distinct : NoDup (map User.UserID Samples.ten_users).
Proof.
  vm_compute.
  repeat (constructor; [simpl; intuition discriminate|]). constructor.
Qed.

Lemma cohorts_partition_witness :
  Permutation ([1; 2] ++ [3] ++ [4] ++ [5; 6; 7; 8; 9; 10])
              (map User.UserID Samples.ten_users) /\
  (Z.of_nat (length [1; 2]), Z.of_nat (length [3]), Z.of_nat (length [4]))
  = cohort_sizes Samples.ten_users (Examples.one_day (F := float) 1 1).
Proof.
  apply (cohorts_partition Samples.ten_users (Examples.one_day 1 1)
           (Examples.rand_of [] []) (snd Samples.ten_cohorts)
           [1; 2] [3] [4] [5; 6; 7; 8; 9; 10]).
  - exact ten_users_distinct.
  - vm_compute. reflexivity.
Defined.

Lemma cohort_orders_witness :
  exists pw wk bots rg s1,
    segment_users Samples.ten_users (Examples.one_day (F := float) 1 1)
                  (Examples.rand_of [] [])
    = (Ok (pw, wk, bots, rg), s1) /\
    Forall (fun o =>
      In (Order.UserID o) (pw ++ wk ++ firstn 25 bots ++ rg) /\
      (In (Order.UserID o) wk -> 5 <= weekday (Order.OrderTime o)) /\
      (In (Order.UserID o) bots ->
       Order.OrderStatus o = Delivered /\ Order.DeliveryFee o = 0 /\
       Order.PaymentMethod o = "UPI"%string /\
       length (Stage3.items_of Samples.ten_lines (Order.OrderID o)) = 1%nat))
      Samples.ten_orders.
Proof.
  apply (cohort_orders Samples.ten_users Examples.two_item_restaurants
           Examples.two_order_menu (Examples.one_day 1 1)
           (Examples.rand_of [] []) (snd Samples.ten_run)
           Samples.ten_orders Samples.ten_lines).
  - exact ten_users_distinct.
  - vm_compute. reflexivity.
Defined.

Lemma one_user_distinct : NoDup (map User.UserID Examples.two_item_users).
Proof. vm_compute. repeat constructor. simpl. intuition. Qed.

Lemma cohorts_fit_witness :
  (0 <= 0 -> 0 <= 0 -> 0 <= 50 ->
   0 + 0 + 50 <= Z.of_nat (length Examples.two_item_users) ->
   exists cohorts s1,
     segment_users Examples.two_item_users (CONFIG (F := float))
                   (Examples.rand_of [] []) = (Ok cohorts, s1)) /\
  (0 < 0 \/ 0 < 0 \/ 50 < 0 \/
   Z.of_nat (length Examples.two_item_users) < 0 + 0 + 50 ->
   exists s1,
     generate_orders Examples.two_item_users Examples.two_item_restaurants
                     Examples.two_item_menu (CONFIG (F := float))
                     (Examples.rand_of [] [])
     = (Raise ValueError, s1)).
Proof.
  apply (cohorts_fit Examples.two_item_users Examples.two_item_restaurants
           Examples.two_item_menu CONFIG (Examples.rand_of [] []) 0 0 50).
  - exact one_user_distinct.
  - vm_compute. reflexivity.
Defined.

End OrderRows.

(* ================================================================== *)
(** * Stage 2: tracking rows and reviews *)

Module FollowUpFacts.
Import Stage2 OrderSpec FollowUp RunFacts.

Section Facts.
Context {F : Type} `{Num F}.

Lemma yields_track_order (o : Order.t F) (data : list Delivery.t) :
  yields (track_order o data)
         (fun data' => if is_delivered o
                       then exists d, data' = data ++ [d] /\ tracked o d
                       else data' = data).
Proof.
  unfold track_order, is_delivered. destruct (Order.OrderStatus o).
  2: { apply yields_ret. reflexivity. }
  eapply yields_bind; [apply (yields_randint 5 15); lia|]. intros delay Hdelay.
  eapply yields_bind; [apply (yields_randint 20 40); lia|]. intros est Hest.
  eapply yields_bind; [apply (yields_randint (-10) 15); lia|]. intros var Hvar.
  eapply yields_bind; [exact yields_random_random|]. intros outlier _.
  eapply (yields_bind _ _
            (fun p => snd p = add_minutes (add_minutes (Order.OrderTime o) delay)
                                          (fst p) /\
                      (fst p = est + var \/ 60 <= fst p <= 120))).
  { destruct (fltb outlier (lit 5 100)).
    - eapply yields_bind; [apply (yields_randint 60 120); lia|]. intros m Hm.
      apply yields_ret. simpl. split; [reflexivity | right; exact Hm].
    - apply yields_ret. simpl. split; [reflexivity | left; reflexivity]. }
  intros [minutes actual] [Hactual Hminutes]. simpl in Hactual, Hminutes.
  eapply yields_bind; [apply (yields_randint 1 1000); lia|]. intros partner Hpartner.
  apply yields_ret. cbv beta iota. eexists. split; [reflexivity|].
  unfold tracked; simpl. subst actual. unfold add_minutes. cbv beta in *.
  repeat split; lia.
Qed.

(** [generate_delivery_tracking] returns in every state of the
    generators, with one row per Delivered order, in the order of the
    order table.  The row carries the order id as DeliveryID and
    OrderID; the dispatch is 5 to 15 minutes after the order and the
    estimate 20 to 40 minutes after the dispatch; the delivery is
    ActualDeliveryMinutes after the dispatch, either within -10 to +15
    minutes of the estimate or, for an outlier, 60 to 120 minutes after
    the dispatch; the partner id is 1 to 1000. *)
Theorem tracking_in_full (orders : list (Order.t F)) (s : Rand) :
  exists tracking s',
    generate_delivery_tracking orders s = (Ok tracking, s') /\
    Forall2 tracked (filter is_delivered orders) tracking.
Proof.
  unfold generate_delivery_tracking.
  refine (yields_foreach
            (fun pre data => Forall2 tracked (filter is_delivered pre) data)
            track_order orders _ [] [] _ s); [|constructor].
  intros pre o data HI.
  eapply yields_weaken; [apply yields_track_order|].
  intros data' Hd. rewrite filter_app. simpl.
  destruct (is_delivered o).
  - destruct Hd as (d & -> & Ht). apply Forall2_app; [exact HI|].
    constructor; [exact Ht | constructor].
  - subst data'. rewrite app_nil_r. exact HI.
Qed.

(** ** Reviews *)

Context `{Nearest F}.

Lemma add_review_inv (o : Order.t F) rs id s acc s' :
  add_review o (rs, id) s = (Ok acc, s') ->
  exists r,
    acc = (rs ++ [r], id + 1) /\
    Review.ReviewID r = id /\
    Review.OrderID r = Order.OrderID o /\
    Review.UserID r = Order.UserID o /\
    Review.RestaurantID r = Order.RestaurantID o /\
    1 <= Review.Rating r <= 5 /\
    (exists k, 0 <= k <= 7 /\
               Review.ReviewDate r = add_days (Order.OrderTime o) k) /\
    match Review.Comment r with
    | Some c => In c comments
    | None => True
    end /\
    Review.IsVerifiedPurchase r = true.
Proof.
  unfold add_review. intros E.
  minv E as rating Hrating. minv E as days Hdays.
  minv E as commented Hc. minv E as comment Hcomment. rinv E. subst acc.
  eexists. split; [reflexivity|]. simpl.
  apply np_choice_inv in Hrating. apply randint_inv in Hdays.
  repeat split.
  - simpl in Hrating. intuition lia.
  - simpl in Hrating. intuition lia.
  - exists days. split; [exact Hdays | reflexivity].
  - destruct (fltb commented (lit 7 10)).
    + minv Hcomment as c Hin. rinv Hcomment. subst comment.
      apply choice_inv in Hin. exact Hin.
    + rinv Hcomment. subst comment. exact I.
Qed.

(** [generate_reviews]: on an order table without a row it raises
    KeyError (the table has no status column to select on).  When it
    returns, the reviewed orders are distinct rows of the Delivered
    orders, round(review_rate * their number) of them; there is one
    review per reviewed order, with ids 1, 2, ... in row order, the
    order's id, user and restaurant, a rating from 1 to 5, a date 0 to 7
    days after the order time, and one of the ten comments or none. *)
Theorem review_rows
  (orders : list (Order.t F)) (users : list User.t)
  (restaurants : list (Restaurant.t F)) (review_rate : F) (s : Rand) :
  (orders = [] ->
   generate_reviews orders users restaurants review_rate s
   = (Raise (KeyError "OrderStatus"), s)) /\
  (forall reviews s',
     generate_reviews orders users restaurants review_rate s = (Ok reviews, s') ->
     exists reviewed_orders rest,
       Permutation (delivered_orders orders) (reviewed_orders ++ rest) /\
       Forall2 reviewed reviewed_orders reviews /\
       Z.of_nat (length reviews)
       = nearest (fmul review_rate
                       (of_Z (Z.of_nat (length (delivered_orders orders))))) /\
       map Review.ReviewID reviews = ids_from 1 (length reviews)).
Proof.
  split; [intros ->; reflexivity|].
  unfold generate_reviews. intros reviews s' E.
  destruct orders as [|o0 orders0] eqn:Horders; [discriminate E|].
  rewrite <- Horders in *. clear Horders o0 orders0.
  minv E as sel Hsel. minv E as acc Hloop. rinv E. subst reviews.
  unfold sample_frac in Hsel.
  destruct ((fltb (of_Z 0) review_rate || feqb (of_Z 0) review_rate)
            && (fltb review_rate (of_Z 1) || feqb review_rate (of_Z 1)));
    [|discriminate Hsel].
  destruct (sample_perm _ _ _ _ _ Hsel) as (rest & Hperm).
  destruct (sample_inv _ _ _ _ _ Hsel) as (Hlen & Hincl).
  exists sel, rest. split; [exact Hperm|].
  pose (I := fun (pre : list (Order.t F)) (st : list Review.t * Z) =>
       Forall2 (fun o r => Order.OrderStatus o = Delivered -> reviewed o r)
               pre (fst st) /\
       map Review.ReviewID (fst st) = ids_from 1 (length (fst st)) /\
       snd st = 1 + Z.of_nat (length (fst st))).
  assert (Hinv : I ([] ++ sel) acc).
  { refine (foreach_prefix_inv I _ _ _ [] _ _ _ _ _ Hloop); unfold I.
    - clear. intros pre o [rs id] s [rs' id'] s' (Hall & Hids & Hnext) E.
      cbn [fst snd] in Hall, Hids, Hnext.
      destruct (add_review_inv _ _ _ _ _ _ E)
        as (r & Hacc & Hid & Ho & Hu & Hr & Hrating & Hdate & Hcomment & Hv).
      inversion Hacc; subst rs' id'. cbn [fst snd]. split; [|split].
      + apply Forall2_app; [exact Hall|]. constructor; [|constructor].
        intros Hst. unfold reviewed. repeat split; try assumption; apply Hrating.
      + rewrite map_app, length_app, ids_from_app, Hids.
        cbn [map List.length]. f_equal. unfold ids_from. cbn [map seq].
        rewrite Hid, Hnext. f_equal. lia.
      + rewrite length_app. cbn [List.length]. lia.
    - cbn [fst snd]. split; [constructor|]. split; reflexivity. }
  unfold I in Hinv. cbn [fst snd app] in Hinv. destruct Hinv as (Hall & Hids & _).
  assert (Hdel : Forall (fun o => Order.OrderStatus o = Delivered) sel).
  { apply Forall_forall. intros o Ho. apply Hincl in Ho.
    unfold delivered_orders in Ho. apply filter_In in Ho.
    destruct Ho as [_ Hst]. destruct (Order.OrderStatus o);
      [reflexivity | discriminate Hst]. }
  split; [|split].
  - clear - Hall Hdel. induction Hall as [|o r l l' Hor Hall IH]; [constructor|].
    inversion Hdel; subst. constructor; [apply Hor; assumption | apply IH; assumption].
  - rewrite <- (Forall2_length Hall). exact Hlen.
  - exact Hids.
Qed.

End Facts.
(** ** On the small inputs *)

Lemma review_rows_witness :
  exists reviewed_orders rest,
    Permutation (delivered_orders Samples.late_orders) (reviewed_orders ++ rest) /\
    Forall2 reviewed reviewed_orders Samples.late_reviews /\
    Z.of_nat (length Samples.late_reviews)
    = nearest (fmul (lit (F := float) 33 100)
                    (of_Z (Z.of_nat (length (delivered_orders Samples.late_orders))))) /\
    map Review.ReviewID Samples.late_reviews
    = ids_from 1 (length Samples.late_reviews).
Proof.
  apply (proj2 (review_rows Samples.late_orders Examples.late_users
                  Examples.late_restaurants (lit 33 100) (Examples.rand_of [] []))
           Samples.late_reviews (snd Samples.review_run)).
  vm_compute. reflexivity.
Defined.

End FollowUpFacts.

(* ================================================================== *)
(** * Stage 3: sessions *)

Module SessionFacts.
Import Stage3 Stage3Spec OrderSpec RunFacts.

Lemma ids_from_one first : ids_from first 1 = [first].
Proof. unfold ids_from. cbn [map seq]. f_equal. lia. Qed.

(** Appending a row with the next id keeps the ids consecutive. *)
Lemma ids_snoc (ids : list Z) (n : nat) (id : Z) :
  ids = ids_from 1 n -> id = 1 + Z.of_nat n ->
  ids ++ [id] = ids_from 1 (n + 1).
Proof.
  intros -> ->. rewrite ids_from_app, ids_from_one. reflexivity.
Qed.

Section Facts.
Context {F : Type} `{Num F}.

Lemma add_session_inv (orders : list (Order.t F)) (u : User.t) ss id s acc s' :
  add_session u (filter (fun o => Order.UserID o =? User.UserID u) orders)
              (ss, id) s = (Ok acc, s') ->
  exists x,
    acc = (ss ++ [x], id + 1) /\ Session.SessionID x = id /\
    session_of orders u x.
Proof.
  unfold add_session. intros E.
  minv E as random_days Hdays. minv E as duration Hduration.
  minv E as pages Hpages. minv E as device Hdevice. rinv E. subst acc.
  eexists. split; [reflexivity|]. split; [reflexivity|].
  apply randint_inv in Hdays. apply randint_inv in Hduration.
  apply choice_inv in Hdevice.
  unfold session_of, orders_within; cbn [Session.UserID Session.SessionStart
    Session.SessionEnd Session.DeviceType Session.OrderPlaced Session.OrderID
    Session.PagesViewed].
  split; [reflexivity|].
  split; [exists random_days; split; [exact Hdays | reflexivity]|].
  split; [unfold add_minutes; lia|].
  split; [simpl in Hdevice |- *; intuition|].
  destruct (filter _ (filter _ orders)) as [|o rest].
  - simpl in Hpages. apply randint_inv in Hpages. repeat split; lia.
  - simpl in Hpages. apply randint_inv in Hpages. repeat split; lia.
Qed.

Lemma yields_add_session (user_orders : list (Order.t F)) (u : User.t) acc :
  User.SignUpDate u <= dataset_end ->
  yields (add_session u user_orders acc) (fun _ => True).
Proof.
  intros Hsign. unfold add_session. destruct acc as [ss id].
  eapply yields_bind.
  { apply (yields_randint 0 (days_between dataset_end (User.SignUpDate u))).
    unfold days_between, minutes_per_day. apply Z.div_pos; lia. }
  intros random_days _.
  eapply yields_bind; [apply (yields_randint 2 30); lia|]. intros duration _.
  eapply (yields_bind _ _ (fun _ => True)).
  { destruct (negb _).
    - eapply yields_weaken; [apply (yields_randint 5 20); lia | auto].
    - eapply yields_weaken; [apply (yields_randint 1 8); lia | auto]. }
  intros pages _.
  eapply yields_bind; [apply yields_choice; simpl; lia|]. intros device _.
  apply yields_ret. exact I.
Qed.

Lemma add_session_raises (user_orders : list (Order.t F)) (u : User.t) acc s :
  dataset_end < User.SignUpDate u ->
  add_session u user_orders acc s = (Raise ValueError, s).
Proof.
  intros Hsign. unfold add_session. destruct acc as [ss id].
  apply bind_raise, randint_raises.
  unfold days_between, minutes_per_day.
  apply Z.div_lt_upper_bound; lia.
Qed.

(** The sessions of one user. *)
Lemma add_user_sessions_inv config (orders : list (Order.t F)) (u : User.t)
  ss id s ss' id' s' :
  add_user_sessions config orders u (ss, id) s = (Ok (ss', id'), s') ->
  exists g,
    ss' = ss ++ g /\ length g = Z.to_nat (sessions_of config u) /\
    Forall (session_of orders u) g /\
    map Session.SessionID g = ids_from id (length g) /\
    id' = id + Z.of_nat (length g).
Proof.
  unfold add_user_sessions. fold (sessions_of config u). intros E.
  pose (J := fun (k : nat) (st : list Session.t * Z) =>
               exists g, fst st = ss ++ g /\ length g = k /\
                         Forall (session_of orders u) g /\
                         map Session.SessionID g = ids_from id (length g) /\
                         snd st = id + Z.of_nat (length g)).
  assert (HJ : J (0 + Z.to_nat (sessions_of config u))%nat (ss', id')).
  { refine (repeat_n_count_inv J _ _ _ 0%nat _ _ _ _ _ E); unfold J.
    - clear. intros k [ss1 id1] s [ss2 id2] s' (g & Hss & Hlen & Hall & Hids & Hid) E.
      cbn [fst snd] in *. subst ss1 id1.
      destruct (add_session_inv _ _ _ _ _ _ _ E) as (x & Hacc & Hx & Hsess).
      inversion Hacc; subst ss2 id2. exists (g ++ [x]).
      rewrite <- app_assoc, length_app, map_app, ids_from_app, Hids.
      cbn [List.length map]. rewrite ids_from_one, Hx.
      repeat split; try lia.
      apply Forall_app. split; [exact Hall | constructor; [exact Hsess | constructor]].
    - exists []. cbn [fst snd List.length map]. rewrite app_nil_r.
      repeat split; [constructor | lia]. }
  destruct HJ as (g & Hss & Hlen & Hall & Hids & Hid). cbn [fst snd] in *.
  exists g. repeat split; assumption.
Qed.

(** [generate_user_sessions], when it returns: the session ids are 1,
    2, ... in row order, and the table holds, user after user in the
    order of the users table, max(1, int(days / 30)) *
    sessions_per_user_per_month rows for each user, [days] being the
    days from the signup to 2024-12-31.  A session starts a whole number
    of days after the signup and not after 2024-12-31, lasts 2 to 30
    minutes, and is linked to the first order of its user placed within
    it (OrderPlaced, that order's id, 5 to 20 pages); when there is none
    it has no order id and 1 to 8 pages. *)
Theorem session_rows
  (config : Config F) (users : list User.t) (orders : list (Order.t F))
  (s : Rand) (sessions : list Session.t) (s' : Rand) :
  generate_user_sessions config users orders s = (Ok sessions, s') ->
  map Session.SessionID sessions = ids_from 1 (length sessions) /\
  exists groups,
    sessions = List.concat groups /\
    Forall2 (fun u g => length g = Z.to_nat (sessions_of config u) /\
                        Forall (session_of orders u) g) users groups.
Proof.
  unfold generate_user_sessions. intros E. minv E as acc Hloop. rinv E.
  subst sessions.
  pose (I := fun (pre : list User.t) (st : list Session.t * Z) =>
               map Session.SessionID (fst st) = ids_from 1 (length (fst st)) /\
               snd st = 1 + Z.of_nat (length (fst st)) /\
               exists groups,
                 fst st = List.concat groups /\
                 Forall2 (fun u g => length g = Z.to_nat (sessions_of config u) /\
                                     Forall (session_of orders u) g) pre groups).
  assert (HI : I ([] ++ users) acc).
  { refine (foreach_prefix_inv I _ _ _ [] _ _ _ _ _ Hloop); unfold I.
    - clear. intros pre u [ss id] s [ss' id'] s'
        (Hids & Hid & groups & Hss & Hall) E. cbn [fst snd] in *.
      destruct (add_user_sessions_inv _ _ _ _ _ _ _ _ _ E)
        as (g & -> & Hlen & Hg & Hgids & ->).
      rewrite map_app, length_app, ids_from_app, Hids, Hgids, Hid.
      split; [reflexivity|]. split; [lia|].
      exists (groups ++ [g]). rewrite concat_app, Hss. simpl.
      rewrite app_nil_r. split; [reflexivity|].
      apply Forall2_app; [exact Hall|]. constructor; [|constructor].
      split; assumption.
    - cbn [fst snd]. split; [reflexivity|]. split; [reflexivity|].
      exists []. split; [reflexivity | constructor]. }
  destruct HI as (Hids & _ & groups & Hss & Hall). cbn [app] in Hall.
  split; [exact Hids|]. exists groups. split; assumption.
Qed.

Lemma yields_add_user_sessions config (orders : list (Order.t F)) (u : User.t) acc :
  User.SignUpDate u <= dataset_end ->
  yields (add_user_sessions config orders u acc) (fun _ => True).
Proof.
  intros Hsign. unfold add_user_sessions.
  refine (yields_weaken _ _ _
            (yields_repeat_n (fun _ _ => True) _ _ _ 0%nat acc I) _); [|auto].
  intros k st _. apply yields_add_session. exact Hsign.
Qed.

Lemma add_user_sessions_raises config (orders : list (Order.t F)) (u : User.t)
  acc s :
  1 <= sessions_per_user_per_month config ->
  dataset_end < User.SignUpDate u ->
  add_user_sessions config orders u acc s = (Raise ValueError, s).
Proof.
  intros Hspm Hsign. unfold add_user_sessions.
  set (n := Z.max 1 _ * sessions_per_user_per_month config).
  assert (Hn : 1 <= n) by (unfold n; nia).
  destruct (Z.to_nat n) as [|k] eqn:Ek; [lia|]. simpl.
  apply bind_raise. apply add_session_raises. exact Hsign.
Qed.

(** [generate_user_sessions] returns when no user signed up after
    2024-12-31.  When some user did, and sessions_per_user_per_month is
    at least 1, it raises ValueError (the range of the session day is
    empty) and returns no table. *)
Theorem sessions_signup_after_end
  (config : Config F) (users : list User.t) (orders : list (Order.t F))
  (s : Rand) :
  ((forall u, In u users -> User.SignUpDate u <= dataset_end) ->
   exists sessions s',
     generate_user_sessions config users orders s = (Ok sessions, s')) /\
  (1 <= sessions_per_user_per_month config ->
   (exists u, In u users /\ dataset_end < User.SignUpDate u) ->
   exists s',
     generate_user_sessions config users orders s = (Raise ValueError, s')).
Proof.
  split.
  - intros Hall. unfold generate_user_sessions.
    assert (Hy : yields (foreach users (add_user_sessions config orders) ([], 1))
                        (fun _ => True)).
    { apply (yields_foreach_in (fun _ => True)); [|exact I].
      intros u st Hu _. apply yields_add_user_sessions. apply Hall. exact Hu. }
    destruct (Hy s) as (acc & s1 & E & _).
    exists (fst acc), s1. rewrite (bind_ok _ _ _ _ _ E). reflexivity.
  - intros Hspm Hbad. unfold generate_user_sessions.
    assert (Hr : forall acc s0, exists s1,
               foreach users (add_user_sessions config orders) acc s0
               = (Raise ValueError, s1)).
    { clear s. induction users as [|u users IH]; intros acc s0.
      - destruct Hbad as (u & [] & _).
      - simpl. destruct (Z_lt_dec dataset_end (User.SignUpDate u)) as [Hlate | Hok].
        + exists s0. apply bind_raise. apply add_user_sessions_raises; assumption.
        + destruct (yields_add_user_sessions config orders u acc ltac:(lia) s0)
            as (acc' & s1 & E & _).
          rewrite (bind_ok _ _ _ _ _ E). apply IH.
          destruct Hbad as (v & [<- | Hv] & Hlate); [lia|].
          exists v. split; assumption. }
    destruct (Hr ([], 1) s) as (s1 & E). exists s1.
    apply bind_raise. exact E.
Qed.

End Facts.
(** ** On the small inputs *)

Lemma session_rows_witness :
  map Session.SessionID Samples.session_table
  = ids_from 1 (length Samples.session_table) /\
  exists groups,
    Samples.session_table = List.concat groups /\
    Forall2 (fun u g =>
               length g = Z.to_nat (sessions_of (CONFIG (F := float)) u) /\
               Forall (session_of Examples.cart_orders u) g)
            Examples.two_item_users groups.
Proof.
  apply (session_rows CONFIG Examples.two_item_users Examples.cart_orders
           (Examples.rand_of [] []) Samples.session_table
           (snd Samples.session_run)).
  vm_compute. reflexivity.
Defined.

End SessionFacts.

(* ================================================================== *)
(** * Stage 3: the cart rows and the script *)

Module CartRows.
Import Stage2 Stage3 Stage3Spec OrderSpec RunFacts SessionFacts.

Section Facts.
Context {F : Type} `{Num F}.

Lemma cart_ok_snoc users restaurants menu (orders : list (Order.t F)) cart id c :
  cart_ok users restaurants menu orders (cart, id) ->
  Cart.CartID c = id ->
  (if Cart.IsOrdered c then ordered_cart orders c
   else abandoned_cart users restaurants menu c) ->
  cart_ok users restaurants menu orders (cart ++ [c], id + 1).
Proof.
  intros (Hids & Hid & Hall) Hc Hrow. unfold cart_ok in *. cbn [fst snd] in *.
  rewrite map_app, length_app, ids_from_app, Hids. cbn [map List.length].
  rewrite ids_from_one, Hc, Hid. split; [reflexivity|]. split; [lia|].
  apply Forall_app. split; [exact Hall | constructor; [exact Hrow | constructor]].
Qed.

Lemma add_ordered_item_ok users restaurants menu orders (o : Order.t F) i acc s acc' s' :
  In o orders ->
  cart_ok users restaurants menu orders acc ->
  add_ordered_item o i acc s = (Ok acc', s') ->
  cart_ok users restaurants menu orders acc'.
Proof.
  intros Ho Hok E. unfold add_ordered_item in E. destruct acc as [cart id].
  minv E as minutes Hminutes. rinv E. subst acc'.
  apply randint_inv in Hminutes.
  apply cart_ok_snoc; [exact Hok | reflexivity|]. cbn [Cart.IsOrdered].
  exists o. cbn [Cart.OrderID Cart.UserID Cart.RestaurantID Cart.AddedAt].
  unfold add_minutes. repeat split; try assumption; lia.
Qed.

Lemma add_abandoned_ok users restaurants menu (orders : list (Order.t F))
  acc s acc' s' :
  cart_ok users restaurants menu orders acc ->
  add_abandoned users restaurants menu acc s = (Ok acc', s') ->
  cart_ok users restaurants menu orders acc'.
Proof.
  intros Hok E. unfold add_abandoned in E. destruct acc as [cart id].
  minv E as user Huser. minv E as restaurant Hrest.
  destruct (length (available_menu menu (Restaurant.RestaurantID restaurant)) =? 0)%nat.
  { rinv E. subst acc'. exact Hok. }
  minv E as item Hitem. minv E as quantity Hq. minv E as days Hdays.
  rinv E. subst acc'.
  apply sample1_inv in Huser. apply sample1_inv in Hrest.
  apply sample1_inv in Hitem. apply choice_inv in Hq.
  apply randint_inv in Hdays.
  apply filter_In in Hrest. destruct Hrest as [Hrest Hactive].
  unfold available_menu in Hitem. apply filter_In in Hitem.
  destruct Hitem as [Hitem Hcond]. apply andb_true_iff in Hcond.
  destruct Hcond as [Hrid Hav]. apply Z.eqb_eq in Hrid.
  apply cart_ok_snoc; [exact Hok | reflexivity|]. cbn [Cart.IsOrdered].
  unfold abandoned_cart.
  cbn [Cart.OrderID Cart.UserID Cart.RestaurantID Cart.MenuID Cart.Quantity
       Cart.AddedAt].
  split; [reflexivity|].
  split; [exists user; split; [exact Huser | reflexivity]|].
  split; [exists restaurant, item; repeat split; assumption|].
  split; [simpl in Hq |- *; intuition|].
  exists days. split; [exact Hdays | reflexivity].
Qed.

(** [generate_cart_items], when it returns, on any five tables: the
    cart ids are 1, 2, ... in row order.  A row with IsOrdered carries
    an order of the order table (its id, user and restaurant) and was
    added 1 to 10 minutes before the order time.  A row without
    IsOrdered has no order id, a user of the users table, an active
    restaurant and an available menu item of that restaurant, quantity 1
    or 2, and is added at midnight of one of the 365 days from
    2024-01-01 on. *)
Theorem cart_rows_in_full
  (config : Stage3.Config F) (users : list User.t)
  (restaurants : list (Restaurant.t F)) (menu : list (Menu.t F))
  (orders : list (Order.t F)) (items : list (OrderItem.t F))
  (s : Rand) (cart : list Cart.t) (s' : Rand) :
  generate_cart_items config users restaurants menu orders items s
    = (Ok cart, s') ->
  map Cart.CartID cart = ids_from 1 (length cart) /\
  Forall (fun c => if Cart.IsOrdered c then ordered_cart orders c
                   else abandoned_cart users restaurants menu c) cart.
Proof.
  unfold generate_cart_items. intros E.
  minv E as ordered Hordered. minv E as target Htarget.
  minv E as acc Hloop. rinv E. subst cart.
  assert (H1 : cart_ok users restaurants menu orders ordered).
  { refine (foreach_inv (cart_ok users restaurants menu orders) _ _ _ _ _ _ _ _
                        Hordered).
    - intros o st t0 st' t0' Ho Hst Eo. unfold add_order_cart in Eo.
      refine (foreach_inv (cart_ok users restaurants menu orders) _ _ _ _ _ _ _
                          Hst Eo).
      intros i st1 t1 st2 t2 _ Hst1 Ei.
      eapply add_ordered_item_ok; eassumption.
    - unfold cart_ok. cbn [fst snd]. repeat split. constructor. }
  assert (H2 : cart_ok users restaurants menu orders acc).
  { refine (repeat_n_inv (cart_ok users restaurants menu orders) _ _ _ _ _ _ _
                         H1 Hloop).
    intros st t0 st' t0' Hst Ea. eapply add_abandoned_ok; eassumption. }
  destruct H2 as (Hids & _ & Hall). split; assumption.
Qed.

(** ** When the cart generation fails *)

Lemma yields_ordered_pass (orders : list (Order.t F)) items acc :
  yields (foreach orders (add_order_cart items) acc)
         (fun acc' =>
            length (fst acc')
            = (length (fst acc)
               + length (flat_map (fun o => items_of items (Order.OrderID o))
                                  orders))%nat).
Proof.
  revert acc. induction orders as [|o orders IH]; intros acc; simpl.
  - apply yields_ret. lia.
  - eapply (yields_bind _ _
              (fun acc1 => length (fst acc1)
                           = (length (fst acc)
                              + length (items_of items (Order.OrderID o)))%nat)).
    + unfold add_order_cart. generalize (items_of items (Order.OrderID o)).
      intros l. revert acc. induction l as [|i l IHl]; intros acc; simpl.
      * apply yields_ret. lia.
      * destruct acc as [cart id]. unfold add_ordered_item at 1.
        eapply yields_bind.
        { eapply yields_bind; [apply (yields_randint 1 10); lia|].
          intros minutes _. apply yields_ret.
          instantiate (1 := fun a => length (fst a) = S (length cart)).
          cbn [fst]. rewrite length_app. simpl. lia. }
        intros acc1 H1. cbv beta in H1.
        eapply yields_weaken; [apply IHl|].
        intros acc2 H2. cbv beta in H2. cbn [fst]. lia.
    + intros acc1 H1. eapply yields_weaken; [apply IH|].
      intros acc2 H2. cbv beta in H2. rewrite length_app. lia.
Qed.

Lemma yields_add_abandoned users restaurants (menu : list (Menu.t F)) acc :
  (0 < length users)%nat ->
  (0 < length (filter (fun r => Restaurant.IsActive r) restaurants))%nat ->
  yields (add_abandoned users restaurants menu acc) (fun _ => True).
Proof.
  intros Hu Hr. unfold add_abandoned. destruct acc as [cart id].
  eapply yields_bind; [apply yields_sample1; exact Hu|]. intros user _.
  eapply yields_bind; [apply yields_sample1; exact Hr|]. intros restaurant _.
  destruct (length (available_menu menu (Restaurant.RestaurantID restaurant)) =? 0)%nat
    eqn:Hmenu.
  { apply yields_ret. exact I. }
  apply Nat.eqb_neq in Hmenu.
  eapply yields_bind; [apply yields_sample1; lia|]. intros item _.
  eapply yields_bind; [apply yields_choice; simpl; lia|]. intros q _.
  eapply yields_bind; [apply (yields_randint 0 364); lia|]. intros days _.
  apply yields_ret. exact I.
Qed.

Lemma add_abandoned_raises users restaurants (menu : list (Menu.t F)) acc s :
  length users = 0%nat \/
  length (filter (fun r => Restaurant.IsActive r) restaurants) = 0%nat ->
  exists s', add_abandoned users restaurants menu acc s = (Raise ValueError, s').
Proof.
  intros Hempty. unfold add_abandoned. destruct acc as [cart id].
  destruct users as [|u users].
  { exists s. reflexivity. }
  destruct Hempty as [Hu | Hr]; [discriminate Hu|].
  destruct (yields_sample1 (u :: users) ltac:(simpl; lia) s) as (user & s1 & E & _).
  rewrite (bind_ok _ _ _ _ _ E). exists s1.
  destruct (filter _ restaurants); [reflexivity | discriminate Hr].
Qed.

(** How [generate_cart_items] ends, [n] being the number of order lines
    of the orders of the order table.  A rate of 1 raises
    ZeroDivisionError.  Otherwise, with a target
    int(n * rate / (1 - rate)) of at least 1, an empty users table or a
    restaurants table without an active restaurant raises ValueError;
    and the function returns when the target is 0 or less, and when
    there are a user and an active restaurant. *)
Theorem cart_outcome
  (config : Stage3.Config F) (users : list User.t)
  (restaurants : list (Restaurant.t F)) (menu : list (Menu.t F))
  (orders : list (Order.t F)) (items : list (OrderItem.t F)) (s : Rand) :
  let n := Z.of_nat (length (flat_map (fun o => items_of items (Order.OrderID o))
                                      orders)) in
  let active := filter (fun r => Restaurant.IsActive r) restaurants in
  (feqb (fsub (of_Z 1) (abandoned_cart_rate config)) (of_Z 0) = true ->
   exists s', generate_cart_items config users restaurants menu orders items s
              = (Raise ZeroDivisionError, s')) /\
  (feqb (fsub (of_Z 1) (abandoned_cart_rate config)) (of_Z 0) = false ->
   1 <= abandoned_target config n ->
   length users = 0%nat \/ length active = 0%nat ->
   exists s', generate_cart_items config users restaurants menu orders items s
              = (Raise ValueError, s')) /\
  (feqb (fsub (of_Z 1) (abandoned_cart_rate config)) (of_Z 0) = false ->
   abandoned_target config n <= 0 \/
   ((0 < length users)%nat /\ (0 < length active)%nat) ->
   exists cart s', generate_cart_items config users restaurants menu orders items s
                   = (Ok cart, s')).
Proof.
  intros n active. unfold generate_cart_items.
  destruct (yields_ordered_pass orders items ([], 1) s) as (ordered & s1 & E1 & Hlen).
  cbn [fst List.length Nat.add] in Hlen.
  rewrite (bind_ok _ _ _ _ _ E1), Hlen. fold n. unfold target_abandoned.
  split; [|split].
  - intros Hzero. rewrite Hzero. exists s1. reflexivity.
  - intros Hrate Htarget Hempty. rewrite Hrate.
    erewrite bind_ok by reflexivity.
    destruct (Z.to_nat (abandoned_target config n)) as [|k] eqn:Ek; [lia|].
    simpl. destruct (add_abandoned_raises users restaurants menu ordered s1 Hempty)
      as (s2 & E2).
    exists s2. apply bind_raise, bind_raise. exact E2.
  - intros Hrate Hcase. rewrite Hrate. erewrite bind_ok by reflexivity.
    destruct Hcase as [Hzero | [Hu Hr]].
    + replace (Z.to_nat (abandoned_target config n)) with 0%nat by lia.
      simpl. eexists _, _. reflexivity.
    + pose proof (yields_repeat_n (fun _ _ => True)
                    (add_abandoned users restaurants menu)
                    (Z.to_nat (abandoned_target config n))
                    (fun k st _ => yields_add_abandoned users restaurants menu st Hu Hr)
                    0%nat ordered I s1) as (acc & s2 & E2 & _).
      rewrite (bind_ok _ _ _ _ _ E2). eexists _, _. reflexivity.
Qed.

End Facts.
(** ** On the small inputs *)

Lemma cart_rows_in_full_witness :
  map Cart.CartID Examples.cart_rows = ids_from 1 (length Examples.cart_rows) /\
  Forall (fun c =>
            if Cart.IsOrdered c then ordered_cart Examples.cart_orders c
            else abandoned_cart Examples.two_item_users
                                Examples.two_item_restaurants
                                Examples.two_item_menu c)
         Examples.cart_rows.
Proof.
  apply (cart_rows_in_full Stage3.CONFIG Examples.two_item_users
           Examples.two_item_restaurants Examples.two_item_menu
           Examples.cart_orders Examples.cart_lines (Examples.rand_of [] [])
           Examples.cart_rows (snd Examples.cart_run)).
  vm_compute. reflexivity.
Defined.

End CartRows.

(* ================================================================== *)
(** * Stage 3: the script *)

Module ScriptRuns.
Import Stage2 Stage3 Stage3Spec ScriptSpec ScriptFacts RunFacts.

Section Facts.
Context {F : Type} `{Num F}.

(** ** Files *)

Lemma fs_lookup_write_same (files : FS F) path f :
  fs_lookup (fs_write files path f) path = Some f.
Proof.
  unfold fs_lookup, fs_write. simpl. rewrite String.eqb_refl. reflexivity.
Qed.

Lemma fs_lookup_write_other (files : FS F) path f other :
  other <> path ->
  fs_lookup (fs_write files path f) other = fs_lookup files other.
Proof.
  intros Hne. unfold fs_lookup, fs_write. simpl.
  destruct (String.eqb path other) eqn:E.
  { apply String.eqb_eq in E. congruence. }
  f_equal. induction files as [|[p g] files IH]; simpl; [reflexivity|].
  destruct (String.eqb p path) eqn:Ep; simpl.
  - apply String.eqb_eq in Ep. subst p. rewrite E. exact IH.
  - destruct (String.eqb p other); [reflexivity | exact IH].
Qed.

Lemma path_exists_lookup (files : FS F) path f :
  fs_lookup files path = Some f -> path_exists files path = true.
Proof. unfold path_exists. intros ->. reflexivity. Qed.

(** ** Steps that keep the files *)

Lemma read_csv_keeps {A} (select : File F -> option A) path (w : World F) :
  snd (read_csv select path w) = w.
Proof.
  unfold read_csv. destruct (fs_lookup (fs w) path) as [f|]; [|reflexivity].
  destruct (select f); reflexivity.
Qed.


Lemma require_files_keep prefix dir files (w : World F) :
  snd (foreach files (require_file prefix dir) tt w) = w.
Proof.
  induction files as [|f files IH]; simpl; [reflexivity|].
  unfold bind, require_file at 1.
  destruct (path_exists (fs w) (path_join dir f)); [exact IH | reflexivity].
Qed.







(** With the five input files in place, when both generators return,
    run one after the other from the generators seeded with 42, the
    script returns; user_sessions.csv and cart_items.csv then hold the
    two tables and every other file is as it was. *)
Theorem script_writes
  (base_dir : string) (py_seed np_seed : Z -> Stream) (config : Config F)
  (w : World F) (users : list User.t) (restaurants : list (Restaurant.t F))
  (menu : list (Menu.t F)) (orders : list (Order.t F))
  (items : list (OrderItem.t F))
  (sessions : list Session.t) (cart : list Cart.t) (r1 r2 : Rand) :
  inputs base_dir w users restaurants menu orders items ->
  generate_user_sessions config users orders (seeded py_seed np_seed w)
    = (Ok sessions, r1) ->
  generate_cart_items config users restaurants menu orders items r1
    = (Ok cart, r2) ->
  exists w',
    main base_dir py_seed np_seed config w = (Ok tt, w') /\
    rnd w' = r2 /\
    fs_lookup (fs w') (sessions_path base_dir) = Some (SessionsFile sessions) /\
    fs_lookup (fs w') (cart_path base_dir) = Some (CartFile cart) /\
    forall path,
      path <> sessions_path base_dir -> path <> cart_path base_dir ->
      fs_lookup (fs w') path = fs_lookup (fs w) path.
Proof.
  intros [Hu Hr Hm Ho Hi] Hs Hc. unfold main.
  rewrite (bind_ok _ _ _ tt w).
  2: { apply require_files_present. intros f Hf. simpl in Hf.
       destruct Hf as [<- | [<- | [<- | []]]];
         eapply path_exists_lookup; eassumption. }
  rewrite (bind_ok _ _ _ tt w).
  2: { apply require_files_present. intros f Hf. simpl in Hf.
       destruct Hf as [<- | [<- | []]];
         eapply path_exists_lookup; eassumption. }
  erewrite bind_ok by reflexivity.
  erewrite bind_ok by (unfold read_csv; cbn [fs]; rewrite Hu; reflexivity).
  erewrite bind_ok by (unfold read_csv; cbn [fs]; rewrite Hr; reflexivity).
  erewrite bind_ok by (unfold read_csv; cbn [fs]; rewrite Hm; reflexivity).
  erewrite bind_ok by (unfold read_csv; cbn [fs]; rewrite Ho; reflexivity).
  erewrite bind_ok by (unfold read_csv; cbn [fs]; rewrite Hi; reflexivity).
  erewrite bind_ok
    by (unfold lift; cbn [fs rnd]; unfold seeded in Hs; rewrite Hs; reflexivity).
  erewrite bind_ok by (unfold lift; cbn [fs rnd]; rewrite Hc; reflexivity).
  erewrite bind_ok by reflexivity.
  eexists. split; [reflexivity|]. cbn [fs rnd].
  split; [reflexivity|]. split; [|split].
  - rewrite fs_lookup_write_other.
    + apply fs_lookup_write_same.
    + unfold sessions_path, cart_path, path_join. intros E.
      revert E. clear. induction base_dir as [|c b IH]; simpl; intros E.
      * discriminate E.
      * inversion E. auto.
  - apply fs_lookup_write_same.
  - intros path H1 H2. rewrite !fs_lookup_write_other by assumption.
    reflexivity.
Qed.

(** ** What the outcome depends on *)

Lemma steady_ret {A} (a : A) : steady (ret (W := World F) a).
Proof. intros w1 w2 Hw. split; [reflexivity | exact Hw]. Qed.

Lemma steady_bind {A B} (m : M (World F) A) (k : A -> M (World F) B) :
  steady m -> (forall a, steady (k a)) -> steady (bind m k).
Proof.
  intros Hm Hk w1 w2 Hw. unfold bind. destruct (Hm w1 w2 Hw) as [Hr Hs].
  destruct (m w1) as [[a1|e1] v1], (m w2) as [[a2|e2] v2]; simpl in Hr, Hs;
    inversion Hr; subst.
  - apply Hk. exact Hs.
  - split; [reflexivity | exact Hs].
Qed.

Lemma steady_read_csv {A} (select : File F -> option A) path :
  steady (read_csv select path).
Proof.
  intros w1 w2 Hw. rewrite !read_csv_keeps. split; [|exact Hw].
  unfold read_csv. destruct Hw as (-> & _).
  destruct (fs_lookup (fs w2) path) as [f|]; [|reflexivity].
  destruct (select f); reflexivity.
Qed.

Lemma steady_to_csv path f : steady (to_csv (F := F) path f).
Proof.
  intros w1 w2 (Hfs & Hpy & Hnp). unfold to_csv, alike. simpl.
  rewrite Hfs. auto.
Qed.

Lemma steady_lift {A} (m : M Rand A) : ignores_fk m -> steady (lift (F := F) m).
Proof.
  intros Hm w1 w2 (Hfs & Hpy & Hnp). unfold lift.
  assert (E : rnd w2 = with_fk (fk (rnd w2)) (rnd w1)).
  { unfold with_fk. rewrite Hpy, Hnp. destruct (rnd w2). reflexivity. }
  rewrite E, Hm. destruct (m (rnd w1)) as [r t]. simpl.
  split; [reflexivity|]. unfold alike. simpl. auto.
Qed.

Lemma require_files_result prefix dir files (w1 w2 : World F) :
  fs w1 = fs w2 ->
  fst (foreach files (require_file prefix dir) tt w1)
  = fst (foreach files (require_file prefix dir) tt w2).
Proof.
  intros Hfs. induction files as [|f files IH]; simpl; [reflexivity|].
  unfold bind, require_file at 1 3. rewrite Hfs.
  destruct (path_exists (fs w2) (path_join dir f)); [exact IH | reflexivity].
Qed.

(** A check that keeps the state, before the rest of the script. *)
Lemma checked_first {A} (check : M (World F) unit) (k : unit -> M (World F) A)
  (w1 w2 : World F) :
  snd (check w1) = w1 -> snd (check w2) = w2 ->
  fst (check w1) = fst (check w2) -> fs w1 = fs w2 ->
  fst (k tt w1) = fst (k tt w2) /\ fs (snd (k tt w1)) = fs (snd (k tt w2)) ->
  fst (bind check k w1) = fst (bind check k w2) /\
  fs (snd (bind check k w1)) = fs (snd (bind check k w2)).
Proof.
  unfold bind.
  destruct (check w1) as [[[]|e1] v1], (check w2) as [[[]|e2] v2]; simpl;
    intros -> -> Hr Hfs Hk; try discriminate Hr.
  - exact Hk.
  - inversion Hr; subst. split; [reflexivity | exact Hfs].
Qed.

Lemma seeded_first {A} (k : unit -> M (World F) A) py_seed np_seed
  (w1 w2 : World F) :
  fs w1 = fs w2 -> steady (k tt) ->
  fst (bind (seed_generators py_seed np_seed) k w1)
  = fst (bind (seed_generators py_seed np_seed) k w2) /\
  fs (snd (bind (seed_generators py_seed np_seed) k w1))
  = fs (snd (bind (seed_generators py_seed np_seed) k w2)).
Proof.
  intros Hfs Hk. unfold bind, seed_generators.
  match goal with
  | |- fst (k tt ?a1) = fst (k tt ?a2) /\ _ =>
      destruct (Hk a1 a2) as [Hr (Hf & _)]
  end.
  - unfold alike. simpl. auto.
  - split; assumption.
Qed.

Lemma ignores_add_session (u : User.t) (user_orders : list (Order.t F)) acc :
  ignores_fk (add_session u user_orders acc).
Proof. unfold add_session. destruct acc. ignores. Qed.

Lemma ignores_generate_user_sessions (config : Config F) users orders :
  ignores_fk (generate_user_sessions config users orders).
Proof.
  unfold generate_user_sessions. apply ignores_bind; [|intros; apply ignores_ret].
  apply ignores_foreach. intros u acc. unfold add_user_sessions.
  apply ignores_repeat_n. intros st. apply ignores_add_session.
Qed.

Lemma ignores_generate_cart_items (config : Config F) users restaurants menu
  orders items :
  ignores_fk (generate_cart_items config users restaurants menu orders items).
Proof.
  unfold generate_cart_items.
  apply ignores_bind.
  { apply ignores_foreach. intros o acc. unfold add_order_cart.
    apply ignores_foreach. intros i [cart id]. unfold add_ordered_item. ignores. }
  intros ordered. apply ignores_bind.
  { unfold target_abandoned. ignores. }
  intros target. apply ignores_bind; [|intros; apply ignores_ret].
  apply ignores_repeat_n. intros [cart id]. unfold add_abandoned. ignores.
Qed.

(** The outcome of the script and the files it leaves depend on the
    files it starts with and on the two seeded generators only: in two
    states with the same files, whatever state the random generators are
    in, the script ends alike (the same result or the same exception,
    the same files). *)
Theorem script_reproducible
  (base_dir : string) (py_seed np_seed : Z -> Stream) (config : Config F)
  (w1 w2 : World F) :
  fs w1 = fs w2 ->
  fst (main base_dir py_seed np_seed config w1)
  = fst (main base_dir py_seed np_seed config w2) /\
  fs (snd (main base_dir py_seed np_seed config w1))
  = fs (snd (main base_dir py_seed np_seed config w2)).
Proof.
  intros Hfs. unfold main.
  apply checked_first;
    [apply require_files_keep | apply require_files_keep
    | apply require_files_result; exact Hfs | exact Hfs |].
  apply checked_first;
    [apply require_files_keep | apply require_files_keep
    | apply require_files_result; exact Hfs | exact Hfs |].
  apply seeded_first; [exact Hfs|].
  apply steady_bind; [apply steady_read_csv | intros users].
  apply steady_bind; [apply steady_read_csv | intros restaurants].
  apply steady_bind; [apply steady_read_csv | intros menu].
  apply steady_bind; [apply steady_read_csv | intros orders].
  apply steady_bind; [apply steady_read_csv | intros items].
  apply steady_bind;
    [apply steady_lift, ignores_generate_user_sessions | intros sessions].
  apply steady_bind;
    [apply steady_lift, ignores_generate_cart_items | intros cart].
  apply steady_bind; [apply steady_to_csv | intros _]. apply steady_to_csv.
Qed.

End Facts.
(** ** On the small inputs *)


Lemma script_writes_witness :
  exists w',
    main "data" Examples.toy_seed Examples.toy_seed CONFIG Samples.full_world
    = (Ok tt, w') /\
    rnd w' = snd Samples.script_cart_run /\
    fs_lookup (fs w') (sessions_path "data")
    = Some (SessionsFile (Examples.returned [] Samples.script_sessions_run)) /\
    fs_lookup (fs w') (cart_path "data")
    = Some (CartFile (Examples.returned [] Samples.script_cart_run)) /\
    forall path,
      path <> sessions_path "data" -> path <> cart_path "data" ->
      fs_lookup (fs w') path = fs_lookup (fs Samples.full_world) path.
Proof.
  apply (script_writes "data" Examples.toy_seed Examples.toy_seed CONFIG
           Samples.full_world Examples.two_item_users
           Examples.two_item_restaurants Examples.two_item_menu
           Examples.cart_orders Examples.cart_lines
           (Examples.returned [] Samples.script_sessions_run)
           (Examples.returned [] Samples.script_cart_run)
           (snd Samples.script_sessions_run) (snd Samples.script_cart_run)).
  - constructor; reflexivity.
  - vm_compute. reflexivity.
  - vm_compute. reflexivity.
Defined.

Lemma script_reproducible_witness :
  fst (main "data" Examples.toy_seed Examples.toy_seed CONFIG Samples.full_world)
  = fst (main "data" Examples.toy_seed Examples.toy_seed CONFIG
              Samples.other_world) /\
  fs (snd (main "data" Examples.toy_seed Examples.toy_seed CONFIG
                Samples.full_world))
  = fs (snd (main "data" Examples.toy_seed Examples.toy_seed CONFIG
                  Samples.other_world)).
Proof.
  apply (script_reproducible "data" Examples.toy_seed Examples.toy_seed CONFIG
           Samples.full_world Samples.other_world).
  reflexivity.
Defined.

End ScriptRuns.

(* ================================================================== *)
(** * Stage 1: cities, prices, restaurants and menus *)

Module Stage1Tables.
Import Stage1 Stage1Spec OrderSpec RunFacts SessionFacts.

(** ** Numbering *)

Lemma ids_from_seq n : map Z.of_nat (seq 1 n) = ids_from 1 n.
Proof.
  unfold ids_from. rewrite <- seq_shift, map_map. apply map_ext.
  intros k. lia.
Qed.

Lemma enumerate1_fst {A} (l : list A) :
  map fst (enumerate1 l) = ids_from 1 (length l).
Proof.
  unfold enumerate1. rewrite <- ids_from_seq.
  generalize 1%nat. induction l as [|x l IH]; intros a; simpl; [reflexivity|].
  f_equal. apply IH.
Qed.

Lemma enumerate1_snd {A} (l : list A) : map snd (enumerate1 l) = l.
Proof.
  unfold enumerate1.
  generalize 1%nat. induction l as [|x l IH]; intros a; simpl; [reflexivity|].
  f_equal. apply IH.
Qed.

Lemma slice_to_incl {A} n (l : list A) : incl (slice_to n l) l.
Proof.
  unfold slice_to. intros x Hx.
  destruct (n <? 0); exact (firstn_In _ _ _ Hx).
Qed.

Lemma slice_to_length {A} n (l : list A) :
  Z.of_nat (length (slice_to n l))
  = if n <? 0 then Z.max 0 (Z.of_nat (length l) + n)
    else Z.min n (Z.of_nat (length l)).
Proof.
  unfold slice_to. destruct (n <? 0) eqn:E; rewrite length_firstn; lia.
Qed.

(** [generate_cities]: the city ids are 1, 2, ... in row order and the
    rows are the first [num_cities] entries of the list of 50 cities; a
    number above 50 gives the 50 cities, and a negative number leaves
    that many cities off the end of the list. *)
Theorem cities_table (num_cities : Z) :
  map City.CityID (generate_cities num_cities)
  = ids_from 1 (length (generate_cities num_cities)) /\
  Z.of_nat (length (generate_cities num_cities))
  = (if num_cities <? 0 then Z.max 0 (50 + num_cities) else Z.min num_cities 50) /\
  map (fun c => (City.CityName c, City.State c)) (generate_cities num_cities)
  = slice_to num_cities indian_cities.
Proof.
  unfold generate_cities.
  assert (Hlen : length (map (fun '(i, (city, state)) =>
                     {| City.CityID := i; City.CityName := city;
                        City.State := state |})
                   (enumerate1 (slice_to num_cities indian_cities)))
                 = length (slice_to num_cities indian_cities)).
  { rewrite length_map. rewrite <- (length_map snd), enumerate1_snd. reflexivity. }
  rewrite Hlen. split; [|split].
  - rewrite map_map. rewrite <- enumerate1_fst. apply map_ext.
    intros [i [city state]]. reflexivity.
  - rewrite slice_to_length. reflexivity.
  - rewrite map_map. rewrite <- (enumerate1_snd (slice_to _ _)) at 2.
    apply map_ext. intros [i [city state]]. reflexivity.
Qed.

(** ** Addresses *)

Lemma replace_newlines_clean s : occurs newline (replace_newlines s) = false.
Proof.
  induction s as [|c s IH]; simpl; [reflexivity|].
  destruct (Ascii.eqb c (Ascii.ascii_of_nat 10)) eqn:E; simpl.
  - exact IH.
  - unfold newline. rewrite E. exact IH.
Qed.

(** ** Names *)

Lemma lstrip_clean s c t : lstrip s = String c t -> c <> " "%char.
Proof.
  induction s as [|c' s IH]; simpl; [discriminate|].
  destruct (Ascii.eqb c' " ") eqn:E; [exact IH|].
  intros E'. inversion E'; subst. intros ->. discriminate E.
Qed.

Lemma rstrip_head s c t : rstrip s = String c t -> exists t', s = String c t'.
Proof.
  destruct s as [|c' s]; simpl; [discriminate|].
  destruct (rstrip s).
  - destruct (Ascii.eqb c' " "); [discriminate|].
    intros E. inversion E; subst. eexists. reflexivity.
  - intros E. inversion E; subst. eexists. reflexivity.
Qed.

Lemma rstrip_clean s t : rstrip s <> (t ++ " ")%string.
Proof.
  revert t. induction s as [|c s IH]; intros t; simpl.
  - destruct t; discriminate.
  - destruct (rstrip s) as [|c' r] eqn:Er.
    + destruct (Ascii.eqb c " ") eqn:E.
      * destruct t; discriminate.
      * destruct t as [|c1 t]; simpl; intros E'; inversion E'; subst.
        -- discriminate E.
        -- destruct t; discriminate.
    + destruct t as [|c1 t]; simpl; intros E'; inversion E' as [[Ec Et]].
      exact (IH t Et).
Qed.

Lemma strip_trimmed s : trimmed (strip s).
Proof.
  unfold trimmed, strip. split.
  - intros t E. destruct (rstrip_head _ _ _ E) as (t' & E').
    exact (lstrip_clean _ _ _ E' eq_refl).
  - apply rstrip_clean.
Qed.

(** ** Prices, in exact arithmetic *)

Lemma uniform_between (lo hi : Z) :
  lo <= hi ->
  yields (random_uniform (of_Z lo) (of_Z hi))
         (fun u : Qc => (inject_Z lo <= u)%Q /\ (u <= inject_Z hi)%Q).
Proof.
  intros Hle. unfold random_uniform.
  eapply yields_bind.
  { apply (yields_inv _ _ _ yields_random_random ExactFacts.random_unit). }
  intros r (_ & Hr0 & Hr1). apply yields_ret.
  rewrite ExactFacts.fadd_value, ExactFacts.fmul_value, ExactFacts.fsub_value,
    !ExactFacts.of_Z_value.
  assert (Hd : (0 <= inject_Z hi - inject_Z lo)%Q).
  { rewrite Zle_Qle in Hle. lra. }
  split; nra.
Qed.

Lemma price_between (lo hi : Z) :
  lo <= hi ->
  yields (u <- random_uniform (F := Qc) (of_Z lo) (of_Z hi) ;; ret (round2 u))
         (fun p : Qc => two_decimals p /\
                        (inject_Z lo <= p)%Q /\ (p <= inject_Z hi)%Q).
Proof.
  intros Hle. eapply yields_bind; [apply uniform_between; exact Hle|].
  intros u [Hlo Hhi]. apply yields_ret.
  split; [apply ExactFacts.round2_two_decimals|].
  destruct (RatingFacts.round2_range u (100 * lo) (100 * hi)) as [H1 H2].
  - rewrite inject_Z_mult. change (inject_Z 100) with 100%Q. lra.
  - rewrite inject_Z_mult. change (inject_Z 100) with 100%Q. lra.
  - rewrite inject_Z_mult in H1, H2. change (inject_Z 100) with 100%Q in H1, H2.
    assert (E : forall x : Q, (100 * x / 100 == x)%Q) by (intros x; field).
    rewrite E in H1, H2. split; assumption.
Qed.

(** [generate_realistic_price], in exact arithmetic: it returns in
    every state of the generators, with a price of two decimals within
    the range of the category, bounds included, and within 100 to 400
    for a category that is not one of the seven. *)
Theorem realistic_price_range (category : string) (s : Rand) :
  exists (p : Qc) (s' : Rand),
    generate_realistic_price category s = (Ok p, s') /\
    two_decimals p /\
    (inject_Z (fst (price_range category)) <= p)%Q /\
    (p <= inject_Z (snd (price_range category)))%Q.
Proof.
  revert s. change (yields (generate_realistic_price (F := Qc) category)
                           (fun p => two_decimals p /\
                                     (inject_Z (fst (price_range category)) <= p)%Q /\
                                     (p <= inject_Z (snd (price_range category)))%Q)).
  unfold generate_realistic_price, price_range, price_ranges.
  cbn [find fst snd]. rewrite !(String.eqb_sym category).
  repeat match goal with
         | |- context [String.eqb ?c category] =>
             destruct (String.eqb c category)
         end;
    cbn [fst snd]; apply price_between; lia.
Qed.

Section Facts.
Context {F : Type} `{Num F}.
Variable fake : Faker.

(** ** Menus *)

Lemma yields_fake_sentence : yields (fake_sentence fake) (fun _ => True).
Proof.
  unfold fake_sentence. eapply yields_bind; [exact yields_fk_draw|].
  intros d _. apply yields_ret. exact I.
Qed.

Lemma yields_realistic_price category :
  yields (generate_realistic_price (F := F) category) (fun _ => True).
Proof.
  unfold generate_realistic_price.
  repeat match goal with
         | |- context [String.eqb category ?c] =>
             destruct (String.eqb category c)
         end;
    (eapply yields_bind; [apply yields_random_uniform|]; intros u _;
     apply yields_ret; exact I).
Qed.

Lemma yields_add_menu_item (r : Restaurant.t F) menu id :
  yields (add_menu_item fake r (menu, id))
         (fun acc => exists m, acc = (menu ++ [m], id + 1) /\
                               Menu.MenuID m = id /\ menu_row r m).
Proof.
  unfold add_menu_item.
  eapply yields_bind; [apply yields_choice; simpl; lia|]. intros category Hc.
  eapply yields_bind.
  { apply yields_choice. unfold base_items_of.
    repeat match goal with
           | |- context [String.eqb ?a ?b] => destruct (String.eqb a b)
           end; simpl; lia. }
  intros base Hbase.
  eapply yields_bind; [apply yields_choice; simpl; lia|]. intros suffix Hsuffix.
  eapply yields_bind; [apply yields_fake_sentence|]. intros description _.
  eapply yields_bind; [apply yields_realistic_price|]. intros price _.
  eapply yields_bind; [apply yields_choice; simpl; lia|]. intros veg _.
  eapply yields_bind; [apply yields_choice; simpl; lia|]. intros avail _.
  apply yields_ret. eexists. split; [reflexivity|]. split; [reflexivity|].
  unfold menu_row. cbn [Menu.RestaurantID Menu.CuisineType Menu.Category
                        Menu.ItemName].
  repeat split; try assumption. exists base, suffix.
  split; [exact Hbase|]. split; [exact Hsuffix|]. split; [reflexivity|].
  apply strip_trimmed.
Qed.

Lemma yields_add_restaurant_menu (r : Restaurant.t F) menu id :
  yields (add_restaurant_menu fake r (menu, id))
         (fun acc => exists g,
            acc = (menu ++ g, id + Z.of_nat (length g)) /\
            (20 <= length g <= 40)%nat /\
            map Menu.MenuID g = ids_from id (length g) /\
            Forall (menu_row r) g).
Proof.
  unfold add_restaurant_menu.
  eapply yields_bind; [apply (yields_randint 20 40); lia|].
  intros num_items Hn. cbv beta in Hn.
  pose (J := fun (k : nat) (acc : list (Menu.t F) * Z) =>
               exists g, acc = (menu ++ g, id + Z.of_nat (length g)) /\
                         length g = k /\
                         map Menu.MenuID g = ids_from id (length g) /\
                         Forall (menu_row r) g).
  eapply yields_weaken.
  - refine (yields_repeat_n J (add_menu_item fake r) (Z.to_nat num_items) _
                            0%nat (menu, id) _).
    + intros k [menu1 id1] (g & Hacc & Hlen & Hids & Hall).
      inversion Hacc; subst menu1 id1.
      eapply yields_weaken; [apply yields_add_menu_item|].
      intros acc (m & -> & Hm & Hrow). exists (g ++ [m]).
      rewrite <- app_assoc, length_app, map_app, ids_from_app, Hids.
      cbn [List.length map]. rewrite ids_from_one, Hm.
      split; [f_equal; lia|]. split; [lia|]. split; [reflexivity|].
      apply Forall_app. split; [exact Hall | constructor; [exact Hrow | constructor]].
    + exists []. rewrite app_nil_r. cbn [List.length map].
      repeat split; [f_equal; lia | constructor].
  - intros acc (g & Hacc & Hlen & Hids & Hall). exists g.
    repeat split; try assumption; lia.
Qed.

Lemma yields_generate_menu (restaurants : list (Restaurant.t F)) :
  yields (generate_menu fake restaurants)
         (fun menu =>
            map Menu.MenuID menu = ids_from 1 (length menu) /\
            exists groups,
              menu = List.concat groups /\
              Forall2 (fun r g => (20 <= length g <= 40)%nat /\
                                  Forall (menu_row r) g)
                      restaurants groups).
Proof.
  intros s. unfold generate_menu.
  pose (I := fun (pre : list (Restaurant.t F)) (acc : list (Menu.t F) * Z) =>
               map Menu.MenuID (fst acc) = ids_from 1 (length (fst acc)) /\
               snd acc = 1 + Z.of_nat (length (fst acc)) /\
               exists groups,
                 fst acc = List.concat groups /\
                 Forall2 (fun r g => (20 <= length g <= 40)%nat /\
                                     Forall (menu_row r) g) pre groups).
  assert (Hy : yields (foreach restaurants (add_restaurant_menu fake) ([], 1))
                      (I ([] ++ restaurants))).
  { apply (yields_foreach I).
    - intros pre r [menu id] (Hids & Hid & groups & Hmenu & Hall).
      cbn [fst snd] in *.
      eapply yields_weaken; [apply yields_add_restaurant_menu|].
      intros acc (g & -> & Hlen & Hgids & Hg). unfold I. cbn [fst snd].
      rewrite map_app, length_app, ids_from_app, Hids, Hgids, Hid.
      split; [reflexivity|]. split; [lia|].
      exists (groups ++ [g]). rewrite concat_app, Hmenu. simpl.
      rewrite app_nil_r. split; [reflexivity|].
      apply Forall2_app; [exact Hall|]. constructor; [|constructor].
      split; assumption.
    - unfold I. cbn [fst snd]. split; [reflexivity|]. split; [reflexivity|].
      exists []. split; [reflexivity | constructor]. }
  destruct (Hy s) as (acc & s1 & E & Hids & _ & groups & Hmenu & Hall).
  exists (fst acc), s1. rewrite (bind_ok _ _ _ _ _ E).
  split; [reflexivity|]. split; [exact Hids|].
  exists groups. split; assumption.
Qed.

(** [generate_menu] returns on every restaurants table and in every
    state of the generators.  The menu ids are 1, 2, ... in row order;
    the menu holds, restaurant after restaurant in the order of the
    restaurants table, 20 to 40 rows for each restaurant, whether it is
    active or not.  A row carries the id and the cuisine of its
    restaurant, one of the seven categories, and as name a dish of that
    cuisine (of the three house dishes for a cuisine without a list)
    followed by one of the four suffixes or by nothing, without a space
    at either end. *)
Theorem menu_table (restaurants : list (Restaurant.t F)) (s : Rand) :
  exists menu s',
    generate_menu fake restaurants s = (Ok menu, s') /\
    map Menu.MenuID menu = ids_from 1 (length menu) /\
    exists groups,
      menu = List.concat groups /\
      Forall2 (fun r g => (20 <= length g <= 40)%nat /\ Forall (menu_row r) g)
              restaurants groups.
Proof.
  destruct (yields_generate_menu restaurants s) as (menu & s' & E & Hids & Hrows).
  exists menu, s'. split; [exact E|]. split; [exact Hids | exact Hrows].
Qed.

(** ** Restaurants *)

Variable today : Z.

Lemma yields_fake_address : yields (fake_address fake) (fun _ => True).
Proof.
  unfold fake_address. eapply yields_bind; [exact yields_fk_draw|].
  intros d _. apply yields_ret. exact I.
Qed.

Lemma yields_fake_phone_number : yields (fake_phone_number fake) (fun _ => True).
Proof.
  unfold fake_phone_number. eapply yields_bind; [exact yields_fk_draw|].
  intros d _. apply yields_ret. exact I.
Qed.

Lemma yields_fake_date_between :
  yields (fake_date_between fake today) (fun _ => True).
Proof.
  unfold fake_date_between. eapply yields_bind; [exact yields_fk_draw|].
  intros d _. apply yields_ret. exact I.
Qed.

Lemma yields_add_restaurant cities i (data : list (Restaurant.t F)) :
  (0 < length cities)%nat ->
  yields (add_restaurant fake today cities i data)
         (fun data' => exists r, data' = data ++ [r] /\
                                 Restaurant.RestaurantID r = i /\
                                 restaurant_row cities r).
Proof.
  intros Hc. unfold add_restaurant.
  eapply yields_bind; [apply yields_sample1; exact Hc|]. intros city Hcity.
  eapply yields_bind; [apply yields_choice; simpl; lia|]. intros cuisine Hcu.
  eapply yields_bind; [apply yields_choice; simpl; lia|]. intros name Hname.
  eapply yields_bind; [apply yields_fake_address|]. intros addr _.
  eapply yields_bind; [apply yields_random_uniform|]. intros u _.
  eapply yields_bind; [apply yields_fake_phone_number|]. intros contact _.
  eapply yields_bind; [apply yields_choice; simpl; lia|]. intros active _.
  eapply yields_bind; [apply yields_fake_date_between|]. intros opening _.
  apply yields_ret. eexists. split; [reflexivity|]. split; [reflexivity|].
  unfold restaurant_row.
  cbn [Restaurant.CityID Restaurant.Name Restaurant.Cuisine
       Restaurant.OperatingHours Restaurant.Address Restaurant.RestaurantID].
  split; [exists city, name; repeat split; assumption|].
  split; [exact Hcu|]. split; [reflexivity|]. apply replace_newlines_clean.
Qed.

Lemma yields_generate_restaurants (num_restaurants : Z) (cities : list City.t) :
  (0 < length cities)%nat ->
  yields (generate_restaurants (F := F) fake today num_restaurants cities)
         (fun restaurants =>
            map Restaurant.RestaurantID restaurants
            = ids_from 1 (Z.to_nat num_restaurants) /\
            Forall (restaurant_row cities) restaurants).
Proof.
  intros Hc s. unfold generate_restaurants.
  pose (I := fun (pre : list Z) (data : list (Restaurant.t F)) =>
               map Restaurant.RestaurantID data = pre /\
               Forall (restaurant_row cities) data).
  assert (Hy : yields (foreach (map Z.of_nat (seq 1 (Z.to_nat num_restaurants)))
                               (add_restaurant fake today cities) [])
                      (I ([] ++ map Z.of_nat (seq 1 (Z.to_nat num_restaurants))))).
  { apply (yields_foreach I).
    - intros pre i data (Hids & Hall).
      eapply yields_weaken; [apply yields_add_restaurant; exact Hc|].
      intros data' (r & -> & Hr & Hrow). unfold I.
      rewrite map_app, Hids. cbn [map]. rewrite Hr. split; [reflexivity|].
      apply Forall_app. split; [exact Hall | constructor; [exact Hrow | constructor]].
    - split; [reflexivity | constructor]. }
  destruct (Hy s) as (data & s1 & E & Hids & Hall).
  exists data, s1. split; [exact E|]. split; [|exact Hall].
  rewrite Hids. apply ids_from_seq.
Qed.

(** [generate_restaurants]: with a city to draw from it returns
    [num_restaurants] rows with the ids 1, 2, ... in row order; a row
    has the id of a city of the cities table, a name made of one of the
    30 base names, the name of that city and the restaurant id, one of
    the 15 cuisines, and an address without a line break.  On an empty
    cities table it raises ValueError as soon as one restaurant is asked
    for. *)
Theorem restaurants_table
  (num_restaurants : Z) (cities : list City.t) (s : Rand) :
  ((0 < length cities)%nat ->
   exists restaurants s',
     generate_restaurants (F := F) fake today num_restaurants cities s
     = (Ok restaurants, s') /\
     map Restaurant.RestaurantID restaurants
     = ids_from 1 (Z.to_nat num_restaurants) /\
     Forall (restaurant_row cities) restaurants) /\
  (length cities = 0%nat -> 1 <= num_restaurants ->
   generate_restaurants (F := F) fake today num_restaurants cities s
   = (Raise ValueError, s)).
Proof.
  split.
  - intros Hc.
    destruct (yields_generate_restaurants num_restaurants cities Hc s)
      as (data & s1 & E & Hids & Hall).
    exists data, s1. split; [exact E|]. split; [exact Hids | exact Hall].
  - unfold generate_restaurants. intros Hc Hn. destruct cities; [|discriminate Hc].
    destruct (Z.to_nat num_restaurants) as [|k] eqn:Ek; [lia|].
    simpl. apply bind_raise. unfold add_restaurant.
    apply bind_raise. reflexivity.
Qed.

End Facts.
End Stage1Tables.

(* ================================================================== *)
(** * Stage 1: users *)

Module UserTable.
Import Stage1 Stage1Spec OrderSpec RunFacts SessionFacts Stage1Tables.

(** ** Sorted lists of dates *)

Lemma sorted_app (l1 l2 : list Z) :
  StronglySorted Z.le l1 -> StronglySorted Z.le l2 ->
  (forall x y, In x l1 -> In y l2 -> x <= y) ->
  StronglySorted Z.le (l1 ++ l2).
Proof.
  intros H1 H2 Hle. induction H1 as [|x l1 Hs IH Hx]; simpl; [exact H2|].
  constructor.
  - apply IH. intros a b Ha Hb. apply Hle; [right; exact Ha | exact Hb].
  - apply Forall_app. split; [exact Hx|].
    apply Forall_forall. intros y Hy. apply Hle; [left; reflexivity | exact Hy].
Qed.

Lemma sorted_repeat (d : Z) n : StronglySorted Z.le (repeat d n).
Proof.
  induction n as [|n IH]; simpl; constructor; [exact IH|].
  apply Forall_forall. intros y Hy. apply repeat_spec in Hy. lia.
Qed.

Lemma sorted_firstn n (l : list Z) :
  StronglySorted Z.le l -> StronglySorted Z.le (firstn n l).
Proof.
  intros Hs. revert n. induction Hs as [|x l Hs IH Hx]; intros n.
  - rewrite firstn_nil. constructor.
  - destruct n as [|n]; simpl; constructor; [apply IH|].
    apply Forall_forall. intros y Hy. rewrite Forall_forall in Hx.
    apply Hx. exact (firstn_In _ _ _ Hy).
Qed.

Lemma sorted_slice n (l : list Z) :
  StronglySorted Z.le l -> StronglySorted Z.le (slice_to n l).
Proof. intros Hs. unfold slice_to. destruct (n <? 0); apply sorted_firstn, Hs. Qed.

Lemma days_increase start_ m :
  forall i, StronglySorted Z.lt (map (fun k => add_days start_ (Z.of_nat k))
                                     (seq i m)).
Proof.
  induction m as [|m IH]; intros i; simpl; constructor; [apply IH|].
  apply Forall_forall. intros y Hy. apply in_map_iff in Hy.
  destruct Hy as (k & <- & Hk). apply in_seq in Hk.
  unfold add_days, minutes_per_day. lia.
Qed.

Lemma day_range_increases start_ end_ :
  StronglySorted Z.lt (day_range start_ end_).
Proof. apply days_increase. Qed.

Lemma before_in_sorted (pre post : list Z) x :
  StronglySorted Z.lt (pre ++ x :: post) -> Forall (fun d => d < x) pre.
Proof.
  induction pre as [|y pre IH]; simpl; intros Hs; [constructor|].
  inversion Hs as [|? ? Hrest Hy]; subst. constructor; [|exact (IH Hrest)].
  rewrite Forall_forall in Hy. apply Hy. apply in_app_iff. right. left. reflexivity.
Qed.

Lemma firstn_snoc {A} (l : list A) j d :
  nth_error l j = Some d -> firstn (S j) l = firstn j l ++ [d].
Proof.
  revert j. induction l as [|x l IH]; intros j E.
  - destruct j; discriminate E.
  - destruct j as [|j]; simpl in *.
    + inversion E. reflexivity.
    + f_equal. exact (IH j E).
Qed.

Lemma seq_at (N : nat) (pre post : list Z) (i : Z) :
  map Z.of_nat (seq 1 N) = pre ++ i :: post -> i = Z.of_nat (S (length pre)).
Proof.
  intros E.
  assert (Hlen : (length pre < N)%nat).
  { apply (f_equal (@List.length Z)) in E.
    rewrite length_map, length_seq, length_app in E. simpl in E. lia. }
  apply (f_equal (fun l => nth (length pre) l 0)) in E.
  rewrite nth_middle in E. rewrite <- E.
  change 0 with (Z.of_nat 0). rewrite map_nth, seq_nth by exact Hlen.
  reflexivity.
Qed.

Section Facts.
Context {F : Type} `{Num F}.
Variable fake : Faker.

(** ** The signup schedule *)

Lemma yields_schedule start_ end_ base :
  yields (foreach (day_range start_ end_) (schedule_day (F := F) start_ base) [])
         (fun dates => StronglySorted Z.le dates /\
                       Forall (fun d => In d (day_range start_ end_)) dates).
Proof.
  pose (I := fun (pre dates : list Z) =>
               StronglySorted Z.le dates /\ Forall (fun d => In d pre) dates).
  eapply yields_weaken.
  - apply (yields_foreach_at I).
    + intros pre day post dates Hl (Hs & Hin). unfold schedule_day.
      eapply yields_bind; [apply yields_random_uniform|]. intros u _.
      apply yields_ret. unfold I. split.
      * apply sorted_app; [exact Hs | apply sorted_repeat|].
        intros x y Hx Hy. apply repeat_spec in Hy. subst y.
        rewrite Forall_forall in Hin. apply Hin in Hx.
        pose proof (day_range_increases start_ end_) as Hinc. rewrite Hl in Hinc.
        apply before_in_sorted in Hinc. rewrite Forall_forall in Hinc.
        apply Hinc in Hx. lia.
      * apply Forall_app. split.
        -- eapply Forall_impl; [|exact Hin]. intros d Hd.
           apply in_app_iff. left. exact Hd.
        -- apply Forall_forall. intros d Hd. apply repeat_spec in Hd. subst d.
           apply in_app_iff. right. left. reflexivity.
    + split; constructor.
  - intros dates Hd. exact Hd.
Qed.

(** ** One row *)

Lemma yields_fake_user_name : yields (fake_user_name fake) (fun _ => True).
Proof.
  unfold fake_user_name. eapply yields_bind; [exact yields_fk_draw|].
  intros d _. apply yields_ret. exact I.
Qed.

Lemma yields_fake_email : yields (fake_email fake) (fun _ => True).
Proof.
  unfold fake_email. eapply yields_bind; [exact yields_fk_draw|].
  intros d _. apply yields_ret. exact I.
Qed.

Lemma yields_fake_sha256 : yields (fake_sha256 fake) (fun _ => True).
Proof.
  unfold fake_sha256. eapply yields_bind; [exact yields_fk_draw|].
  intros d _. apply yields_ret. exact I.
Qed.

Lemma yields_add_user cities channels start_ dates i (data : list User.t) :
  (0 < length cities)%nat -> length channels = 10%nat ->
  yields (add_user (F := F) fake cities channels start_ dates i data)
         (fun data' =>
            exists u, data' = data ++ [u] /\ User.UserID u = i /\
                      user_row cities channels u /\
                      match nth_error dates (Z.to_nat (i - 1)) with
                      | Some d => User.SignUpDate u = d
                      | None => fallback_signup start_ (User.SignUpDate u)
                      end).
Proof.
  intros Hc Hch. unfold add_user.
  eapply yields_bind; [apply yields_sample1; exact Hc|]. intros city Hcity.
  eapply yields_bind.
  { replace (length channels =? length (channel_weights (F := F)))%nat with true
      by (rewrite Hch; reflexivity).
    apply yields_np_choice. rewrite length_map, Hch. lia. }
  intros channel_id Hchannel.
  eapply (yields_bind _ _
            (fun d => match nth_error dates (Z.to_nat (i - 1)) with
                      | Some d' => d = d'
                      | None => fallback_signup start_ d
                      end)).
  { destruct (nth_error dates (Z.to_nat (i - 1))) as [d|].
    - apply yields_ret. reflexivity.
    - eapply yields_bind; [apply (yields_randint 0 364); lia|]. intros k Hk.
      apply yields_ret. exists k. split; [exact Hk | reflexivity]. }
  intros signup Hsignup.
  eapply yields_bind; [apply yields_fake_user_name|]. intros username _.
  eapply yields_bind; [apply yields_fake_email|]. intros mail _.
  eapply yields_bind; [apply yields_fake_sha256|]. intros hash _.
  eapply yields_bind; [apply yields_fake_phone_number|]. intros phone _.
  eapply yields_bind; [apply yields_fake_address|]. intros addr _.
  eapply yields_bind; [apply (yields_randint 0 30); lia|]. intros offset Hoffset.
  eapply yields_bind; [apply yields_choice; simpl; lia|]. intros active _.
  eapply yields_bind; [apply yields_choice; simpl; lia|]. intros dietary Hdiet.
  apply yields_ret. eexists. split; [reflexivity|]. split; [reflexivity|].
  split.
  - unfold user_row.
    cbn [User.CityID User.AcquisitionChannelID User.ReferredBy
         User.LastLoginDate User.SignUpDate User.Preferences User.Address].
    split; [exists city; split; [exact Hcity | reflexivity]|].
    split; [exact Hchannel|]. split; [reflexivity|].
    split; [exists offset; split; [exact Hoffset | reflexivity]|].
    split; [apply in_map; exact Hdiet | apply replace_newlines_clean].
  - cbn [User.SignUpDate]. exact Hsignup.
Qed.

(** ** The table *)

Lemma yields_users_loop cities channels start_ dates (N : nat) :
  (0 < length cities)%nat -> length channels = 10%nat ->
  yields (foreach (map Z.of_nat (seq 1 N))
                  (add_user (F := F) fake cities channels start_ dates) [])
         (fun users =>
            map User.UserID users = map Z.of_nat (seq 1 N) /\
            Forall (user_row cities channels) users /\
            exists fb,
              map User.SignUpDate users = firstn N dates ++ fb /\
              Forall (fallback_signup start_) fb).
Proof.
  intros Hc Hch.
  pose (I := fun (pre : list Z) (users : list User.t) =>
               map User.UserID users = pre /\
               Forall (user_row cities channels) users /\
               exists fb,
                 map User.SignUpDate users = firstn (length pre) dates ++ fb /\
                 Forall (fallback_signup start_) fb /\
                 length fb = (length pre - length dates)%nat).
  eapply yields_weaken.
  - apply (yields_foreach_at I).
    + intros pre i post users Hl (Hids & Hrows & fb & Hdates & Hfb & Hlen).
      apply seq_at in Hl. subst i.
      eapply yields_weaken; [apply yields_add_user; assumption|].
      intros users' (u & -> & Hu & Hrow & Hsign).
      replace (Z.to_nat (Z.of_nat (S (length pre)) - 1)) with (length pre)
        in Hsign by lia.
      unfold I. rewrite !map_app, Hids. cbn [map]. rewrite Hu.
      split; [reflexivity|].
      split; [apply Forall_app; split;
              [exact Hrows | constructor; [exact Hrow | constructor]]|].
      rewrite length_app. cbn [List.length]. rewrite Nat.add_1_r.
      destruct (nth_error dates (length pre)) as [d|] eqn:En.
      * assert (Hlt : (length pre < length dates)%nat)
          by (apply nth_error_Some; congruence).
        destruct fb; [|simpl in Hlen; lia]. exists [].
        rewrite Hdates, Hsign, (firstn_snoc _ _ _ En), !app_nil_r.
        split; [reflexivity|]. split; [apply Forall_nil | cbn [List.length]; lia].
      * apply nth_error_None in En.
        exists (fb ++ [User.SignUpDate u]).
        rewrite Hdates, !firstn_all2 by lia. rewrite app_assoc.
        split; [reflexivity|].
        split; [apply Forall_app; split;
                [exact Hfb | constructor; [exact Hsign | constructor]]|].
        rewrite length_app. cbn [List.length]. lia.
    + unfold I. split; [reflexivity|]. split; [constructor|].
      exists []. repeat split; constructor.
  - intros users (Hids & Hrows & fb & Hdates & Hfb & _).
    rewrite length_map, length_seq in Hdates.
    split; [exact Hids|]. split; [exact Hrows|]. exists fb. split; assumption.
Qed.

Lemma yields_generate_users
  (num_users : Z) (cities : list City.t) (channels : list Channel.t)
  (start_date end_date : Z) :
  (0 < length cities)%nat -> length channels = 10%nat ->
  yields (generate_users (F := F) fake num_users cities channels
                         start_date end_date)
         (fun users =>
            map User.UserID users = ids_from 1 (Z.to_nat num_users) /\
            Forall (user_row cities channels) users /\
            exists scheduled fallback,
              map User.SignUpDate users = scheduled ++ fallback /\
              Sorted Z.le scheduled /\
              Forall (fun d => In d (day_range start_date end_date)) scheduled /\
              Forall (fallback_signup start_date) fallback).
Proof.
  intros Hc Hch s. unfold generate_users.
  destruct (yields_schedule start_date end_date (num_users / 365) s)
    as (dates & s1 & E1 & Hsorted & Hdays).
  rewrite (bind_ok _ _ _ _ _ E1).
  destruct (yields_users_loop cities channels start_date
              (slice_to num_users dates) (Z.to_nat num_users) Hc Hch s1)
    as (users & s2 & E2 & Hids & Hrows & fb & Hdates & Hfb).
  exists users, s2. split; [exact E2|].
  split; [rewrite Hids; apply ids_from_seq|]. split; [exact Hrows|].
  exists (firstn (Z.to_nat num_users) (slice_to num_users dates)), fb.
  split; [exact Hdates|]. split.
  - apply StronglySorted_Sorted, sorted_firstn, sorted_slice, Hsorted.
  - split; [|exact Hfb]. apply Forall_forall. intros d Hd.
    apply firstn_In, slice_to_incl in Hd.
    rewrite Forall_forall in Hdays. exact (Hdays d Hd).
Qed.

(** Asked for no user, [generate_users] returns the table without a
    row, whatever the cities and channels. *)
Lemma generate_users_none
  (num_users : Z) (cities : list City.t) (channels : list Channel.t)
  (start_date end_date : Z) :
  num_users <= 0 ->
  yields (generate_users (F := F) fake num_users cities channels
                         start_date end_date)
         (fun users => users = []).
Proof.
  intros Hn s. unfold generate_users.
  destruct (yields_schedule start_date end_date (num_users / 365) s)
    as (dates & s1 & E1 & _).
  rewrite (bind_ok _ _ _ _ _ E1).
  replace (Z.to_nat num_users) with 0%nat by lia.
  exists [], s1. split; reflexivity.
Qed.

Lemma generate_users_raises
  (num_users : Z) (channels : list Channel.t) (start_date end_date : Z)
  (s : Rand) :
  1 <= num_users ->
  exists s',
    generate_users (F := F) fake num_users [] channels start_date end_date s
    = (Raise ValueError, s').
Proof.
  intros Hn. unfold generate_users.
  destruct (yields_schedule start_date end_date (num_users / 365) s)
    as (dates & s1 & E1 & _).
  rewrite (bind_ok _ _ _ _ _ E1).
  destruct (Z.to_nat num_users) as [|k] eqn:Ek; [lia|]. simpl.
  unfold add_user at 1.
  exists s1. apply bind_raise, bind_raise. reflexivity.
Qed.

(** [generate_users]: with a city to draw from and the ten channels it
    returns [num_users] rows with the ids 1, 2, ... in row order.  A row
    has the id of a city of the cities table and of a channel of the
    channels table, no referrer, a last login 0 to 30 days after the
    signup, one of the four dietary preferences and an address without
    a line break.  The signup dates follow the schedule: first, in
    ascending order, dates of the days from the start to the end date,
    then, once the schedule has run out, dates up to 364 days after the
    start date.  On a cities table without a row it raises ValueError
    as soon as one user is asked for. *)
Theorem users_table
  (num_users : Z) (cities : list City.t) (channels : list Channel.t)
  (start_date end_date : Z) (s : Rand) :
  ((0 < length cities)%nat -> length channels = 10%nat ->
   exists users s',
     generate_users (F := F) fake num_users cities channels start_date end_date s
     = (Ok users, s') /\
     map User.UserID users = ids_from 1 (Z.to_nat num_users) /\
     Forall (user_row cities channels) users /\
     exists scheduled fallback,
       map User.SignUpDate users = scheduled ++ fallback /\
       Sorted Z.le scheduled /\
       Forall (fun d => In d (day_range start_date end_date)) scheduled /\
       Forall (fallback_signup start_date) fallback) /\
  (1 <= num_users -> cities = [] ->
   exists s',
     generate_users (F := F) fake num_users cities channels start_date end_date s
     = (Raise ValueError, s')).
Proof.
  split.
  - intros Hc Hch.
    destruct (yields_generate_users num_users cities channels start_date end_date
                Hc Hch s) as (users & s' & E & Hrows).
    exists users, s'. split; [exact E | exact Hrows].
  - intros Hn ->. apply generate_users_raises. exact Hn.
Qed.

End Facts.
End UserTable.

(* ================================================================== *)
(** * Stage 1: the referral table as a whole *)

Module ReferralTable.
Import Stage1 Stage1Spec OrderSpec RunFacts SessionFacts ReferralFacts.

Lemma kept_or_referred_id users u u' :
  kept_or_referred users u u' -> User.UserID u' = User.UserID u.
Proof. intros [->|(_ & r & _ & ->)]; reflexivity. Qed.

Lemma kept_or_referred_date users u u' :
  kept_or_referred users u u' -> User.SignUpDate u' = User.SignUpDate u.
Proof. intros [->|(_ & r & _ & ->)]; reflexivity. Qed.

Lemma kept_refl users l : Forall2 (kept_or_referred users) l l.
Proof. induction l; constructor; [left; reflexivity | assumption]. Qed.

Lemma set_referred_by_kept users r l cur idx user :
  Forall2 (kept_or_referred users) l cur ->
  nth_error l idx = Some user -> User.AcquisitionChannelID user = 5 ->
  In r users ->
  Forall2 (kept_or_referred users) l (set_referred_by idx (User.UserID r) cur).
Proof.
  intros Hall. revert idx.
  induction Hall as [|u u' l cur Hu Hall IH]; intros idx Hn Hch Hr;
    [constructor|].
  destruct idx as [|idx]; simpl in *.
  - inversion Hn; subst u. constructor; [|exact Hall].
    right. split; [exact Hch|]. exists r. split; [exact Hr|].
    destruct Hu as [->|(_ & r0 & _ & ->)]; reflexivity.
  - constructor; [exact Hu | apply IH; assumption].
Qed.

Lemma channel_5_rows users p :
  In p (users_with_channel_5 users) ->
  nth_error users (fst p) = Some (snd p) /\
  User.AcquisitionChannelID (snd p) = 5.
Proof.
  destruct p as [i u]. unfold users_with_channel_5. intros Hp.
  apply filter_In in Hp. destruct Hp as [Hp Hch].
  destruct (combine_seq_nth _ _ _ _ Hp) as [_ Hn].
  rewrite Nat.sub_0_r in Hn. split; [exact Hn | apply Z.eqb_eq; exact Hch].
Qed.

Lemma yields_refer users p cur refs :
  In p (users_with_channel_5 users) ->
  Forall2 (kept_or_referred users) users cur ->
  map Referral.ReferralID refs = ids_from 1 (length refs) ->
  Forall (referral_row users) refs ->
  yields (refer p (cur, refs))
         (fun acc =>
            Forall2 (kept_or_referred users) users (fst acc) /\
            map Referral.ReferralID (snd acc) = ids_from 1 (length (snd acc)) /\
            Forall (referral_row users) (snd acc)).
Proof.
  intros Hp Hcur Hids Hrows.
  destruct (channel_5_rows _ _ Hp) as [Hn Hch]. destruct p as [idx user].
  cbn [fst snd] in Hn, Hch. unfold refer.
  destruct (0 <? length (potential_referrers cur user))%nat eqn:C.
  - apply Nat.ltb_lt in C.
    eapply yields_bind; [apply yields_sample1; exact C|]. intros referrer Hr.
    unfold potential_referrers in Hr. apply filter_In in Hr.
    destruct Hr as [Hin Hcond]. apply andb_true_iff in Hcond.
    destruct Hcond as [Hlt Hne]. apply Z.ltb_lt in Hlt.
    apply negb_true_iff, Z.eqb_neq in Hne.
    destruct (Forall2_In_r _ _ _ _ Hcur Hin) as (r0 & Hr0 & Hrel).
    pose proof (kept_or_referred_date _ _ _ Hrel) as Hdate.
    apply kept_or_referred_id in Hrel.
    eapply yields_bind; [apply yields_choice; simpl; lia|]. intros reward Hw.
    eapply yields_bind; [apply yields_choice; simpl; lia|]. intros status Hs.
    apply yields_ret. cbn [fst snd].
    split; [rewrite Hrel; apply (set_referred_by_kept users r0 users cur idx user);
            assumption|].
    split.
    + rewrite map_app, length_app, Hids. cbn [map List.length Referral.ReferralID].
      apply ids_snoc; [reflexivity | lia].
    + apply Forall_app. split; [exact Hrows|]. constructor; [|constructor].
      unfold referral_row.
      cbn [Referral.ReferrerUserID Referral.ReferredUserID
           Referral.RewardAmount Referral.RewardStatus Referral.ReferralDate].
      split; [exact Hne|]. split; [exact Hw|].
      split; [simpl in Hs; simpl; tauto|].
      exists r0, user. split; [exact Hr0|].
      split; [exact (nth_error_In _ _ Hn)|]. split; [exact Hrel|].
      split; [reflexivity|]. split; [reflexivity|]. rewrite <- Hdate. exact Hlt.
  - apply yields_ret. cbn [fst snd]. repeat split; assumption.
Qed.

Lemma yields_add_referrals (users : list User.t) :
  users <> [] ->
  yields (add_referrals users)
         (fun out =>
            Forall2 (kept_or_referred users) users (fst out) /\
            map Referral.ReferralID (snd out) = ids_from 1 (length (snd out)) /\
            Forall (referral_row users) (snd out)).
Proof.
  intros Hne. unfold add_referrals. destruct users as [|u0 users0] eqn:Husers;
    [contradiction|].
  rewrite <- Husers in *. clear Husers Hne u0 users0.
  apply (yields_foreach_in
           (fun acc : list User.t * list Referral.t =>
              Forall2 (kept_or_referred users) users (fst acc) /\
              map Referral.ReferralID (snd acc)
              = ids_from 1 (length (snd acc)) /\
              Forall (referral_row users) (snd acc))).
  - intros p [cur refs] Hp (H1 & H2 & H3). apply yields_refer; assumption.
  - cbn [fst snd]. split; [apply kept_refl|].
    split; [reflexivity | constructor].
Qed.

(** [add_referrals]: on a users table without a row it raises KeyError
    (the table has no channel column to select on).  On any other table
    it returns: the rows of the users table are the rows it was given,
    in the same order, each one unchanged or, for a user of channel 5,
    with the id of a user of the table as its referrer; the referral
    rows have the ids 1, 2, ... in row order, as referrer and referred
    user two users of the table with different ids, the referrer's
    signup strictly before the referred user's, a reward of 50, 75 or
    100, the status "Paid" or "Pending", and the referred user's signup
    date as their date. *)
Theorem referrals_table (users : list User.t) (s : Rand) :
  (users = [] ->
   add_referrals users s = (Raise (KeyError "AcquisitionChannelID"), s)) /\
  (users <> [] ->
   exists users' referrals s',
     add_referrals users s = (Ok (users', referrals), s') /\
     Forall2 (kept_or_referred users) users users' /\
     map Referral.ReferralID referrals = ids_from 1 (length referrals) /\
     Forall (referral_row users) referrals).
Proof.
  split; [intros ->; reflexivity|]. intros Hne.
  destruct (yields_add_referrals users Hne s)
    as ([users' referrals] & s' & E & H1 & H2 & H3).
  exists users', referrals, s'. repeat split; assumption.
Qed.

End ReferralTable.

(* ================================================================== *)
(** * Stage 1: the dates helper *)

Module DateFacts.
Import Stage1 RunFacts Stage1Tables UserTable.

(** ** [sorted] *)

Lemma insert_sorted_perm x l : Permutation (x :: l) (insert_sorted x l).
Proof.
  induction l as [|y l IH]; simpl; [apply Permutation_refl|].
  destruct (x <=? y); [apply Permutation_refl|].
  eapply Permutation_trans; [apply perm_swap|]. apply perm_skip. exact IH.
Qed.

Lemma sorted_perm l : Permutation l (sorted l).
Proof.
  induction l as [|x l IH]; simpl; [constructor|].
  eapply Permutation_trans; [apply perm_skip; exact IH|].
  apply insert_sorted_perm.
Qed.

Lemma insert_sorted_sorted x l :
  StronglySorted Z.le l -> StronglySorted Z.le (insert_sorted x l).
Proof.
  induction 1 as [|y l Hs IH Hy]; simpl; [repeat constructor|].
  destruct (x <=? y) eqn:E.
  - apply Z.leb_le in E. constructor; [constructor; assumption|].
    constructor; [exact E|]. eapply Forall_impl; [|exact Hy].
    intros z Hz. simpl in Hz. lia.
  - apply Z.leb_gt in E. constructor; [exact IH|].
    apply Forall_forall. intros z Hz.
    apply (Permutation_in _ (Permutation_sym (insert_sorted_perm x l))) in Hz.
    destruct Hz as [<-|Hz]; [lia|]. rewrite Forall_forall in Hy. exact (Hy z Hz).
Qed.

Lemma sorted_sorted l : StronglySorted Z.le (sorted l).
Proof.
  induction l as [|x l IH]; simpl; [constructor|].
  apply insert_sorted_sorted. exact IH.
Qed.

Section Facts.
Context {F : Type} `{Num F}.

Lemma yields_add_event start_ days_diff (dates : list Z) (P : Z -> Prop) k :
  0 <= days_diff ->
  (forall j, 0 <= j <= days_diff -> P (add_days start_ j)) ->
  (k <= length dates)%nat -> Forall P dates ->
  yields (add_event (F := F) start_ days_diff dates)
         (fun dates' => (S k <= length dates')%nat /\ Forall P dates').
Proof.
  intros Hd HP Hk Hall. unfold add_event.
  eapply yields_bind; [apply (yields_randint 0 days_diff); exact Hd|].
  intros j Hj. cbv beta in Hj. apply HP in Hj.
  eapply (yields_bind _ _
            (fun l => (k <= length l)%nat /\ Forall P l)).
  - destruct (5 <=? weekday (add_days start_ j)).
    + eapply yields_bind; [exact yields_random_random|]. intros r _.
      apply yields_ret. destruct (fltb r (lit 4 10)).
      * rewrite length_app. cbn [List.length].
        split; [lia|]. apply Forall_app. split; [exact Hall|].
        constructor; [exact Hj | constructor].
      * split; assumption.
    + apply yields_ret. split; assumption.
  - intros l [Hl HPl]. apply yields_ret. rewrite length_app. cbn [List.length].
    split; [lia|]. apply Forall_app. split; [exact HPl|].
    constructor; [exact Hj | constructor].
Qed.

(** [generate_dates_with_patterns]: when the end is not before the
    start it returns exactly [num_events] dates (none for a negative
    number), in ascending order, each one a whole number of days, from 0
    to the days between start and end, after the start.  When the end is
    a day or more before the start it raises ValueError as soon as one
    date is asked for. *)
Theorem dates_with_patterns (start_ end_ : Z) (num_events : Z) (s : Rand) :
  (0 <= days_between end_ start_ ->
   exists dates s',
     generate_dates_with_patterns (F := F) start_ end_ num_events s
     = (Ok dates, s') /\
     length dates = Z.to_nat num_events /\
     Sorted Z.le dates /\
     Forall (fun d => exists k, 0 <= k <= days_between end_ start_ /\
                                d = add_days start_ k) dates) /\
  (days_between end_ start_ < 0 -> 1 <= num_events ->
   generate_dates_with_patterns (F := F) start_ end_ num_events s
   = (Raise ValueError, s)).
Proof.
  unfold generate_dates_with_patterns. split.
  - intros Hd.
    pose (P := fun d => exists k, 0 <= k <= days_between end_ start_ /\
                                  d = add_days start_ k).
    pose (I := fun (k : nat) (dates : list Z) =>
                 (k <= length dates)%nat /\ Forall P dates).
    destruct (yields_repeat_n I (add_event (F := F) start_
                                           (days_between end_ start_))
                (Z.to_nat num_events)
                ltac:(intros k st [Hk Hst];
                      apply (yields_add_event _ _ _ P k); try assumption;
                      intros j Hj; exists j; split; [exact Hj | reflexivity])
                0%nat [] ltac:(split; [apply Nat.le_refl | constructor]) s)
      as (dates & s1 & E & Hlen & Hall).
    rewrite (bind_ok _ _ _ _ _ E). eexists. eexists.
    split; [reflexivity|]. cbn [Nat.add] in Hlen.
    pose proof (Permutation_length (sorted_perm dates)) as Hsl.
    split.
    { apply Nat2Z.inj. rewrite slice_to_length.
      destruct (num_events <? 0) eqn:En.
      - apply Z.ltb_lt in En.
        replace (Z.to_nat num_events) with 0%nat in E |- * by lia.
        cbn [repeat_n] in E. apply ret_inv in E. destruct E as [-> _].
        cbn [sorted fold_right List.length]. lia.
      - apply Z.ltb_ge in En. lia. }
    split.
    { apply StronglySorted_Sorted, sorted_slice, sorted_sorted. }
    apply Forall_forall. intros d Hin. apply slice_to_incl in Hin.
    apply (Permutation_in _ (Permutation_sym (sorted_perm dates))) in Hin.
    rewrite Forall_forall in Hall. exact (Hall d Hin).
  - intros Hd Hn. destruct (Z.to_nat num_events) as [|n] eqn:En; [lia|].
    simpl. apply bind_raise, bind_raise. unfold add_event.
    apply bind_raise. apply randint_raises. exact Hd.
Qed.

End Facts.
End DateFacts.

(* ================================================================== *)
(** * Stage 1: the script as a whole *)

Module Stage1Run.
Import Stage1 Stage1Spec OrderSpec RunFacts Stage1Tables UserTable ReferralTable.

Lemma generate_cities_length num_cities :
  Z.of_nat (length (generate_cities num_cities))
  = if num_cities <? 0 then Z.max 0 (50 + num_cities) else Z.min num_cities 50.
Proof.
  unfold generate_cities, enumerate1.
  rewrite length_map, length_combine, length_map, length_seq, Nat.min_id.
  rewrite slice_to_length. replace (Z.of_nat (length indian_cities)) with 50
    by reflexivity.
  destruct (num_cities <? 0); lia.
Qed.

Lemma kept_ids users l l' :
  Forall2 (kept_or_referred users) l l' -> map User.UserID l' = map User.UserID l.
Proof.
  induction 1 as [|u u' l l' Hu _ IH]; [reflexivity|].
  simpl. rewrite IH, (kept_or_referred_id _ _ _ Hu). reflexivity.
Qed.

(** The rows after [add_referrals] keep the city and the channel they
    were given, and a referrer is a user of the table. *)
Lemma kept_rows_linked cities channels users l l' :
  Forall2 (kept_or_referred users) l l' ->
  Forall (user_row cities channels) l ->
  Forall (fun u => In (User.CityID u) (map City.CityID cities) /\
                   In (User.AcquisitionChannelID u)
                      (map Channel.ChannelID channels) /\
                   match User.ReferredBy u with
                   | Some v => In v (map User.UserID users)
                   | None => True
                   end) l'.
Proof.
  induction 1 as [|u u' l l' Hu _ IH]; intros Hrows; [constructor|].
  inversion Hrows as [|? ? Hrow Hrest]; subst. constructor; [|exact (IH Hrest)].
  destruct Hrow as ((city & Hcity & Hcid) & Hch & Hnone & _).
  assert (Hc : In (User.CityID u) (map City.CityID cities))
    by (rewrite Hcid; apply in_map; exact Hcity).
  destruct Hu as [->|(_ & r & Hr & ->)].
  - split; [exact Hc|]. split; [exact Hch|]. rewrite Hnone. exact I.
  - cbn [referred_by User.CityID User.AcquisitionChannelID User.ReferredBy].
    split; [exact Hc|]. split; [exact Hch|]. apply in_map. exact Hr.
Qed.

Section Facts.
Context {F : Type} `{Num F}.
Variable fake : Faker.
Variable today : Z.

Lemma menu_rows_linked (restaurants : list (Restaurant.t F)) groups :
  Forall2 (fun r g => (20 <= length g <= 40)%nat /\ Forall (menu_row r) g)
          restaurants groups ->
  Forall (fun m => In (Menu.RestaurantID m)
                      (map Restaurant.RestaurantID restaurants))
         (List.concat groups).
Proof.
  induction 1 as [|r g restaurants groups [_ Hg] _ IH]; simpl; [constructor|].
  apply Forall_app. split.
  - eapply Forall_impl; [|exact Hg]. intros m (Hm & _). left. symmetry. exact Hm.
  - eapply Forall_impl; [|exact IH]. intros m Hm. right. exact Hm.
Qed.

(** The script of Stage 1, from the configuration to the six tables.
    Asked for no user it stops with KeyError: the users table comes out
    without a row, and [add_referrals] finds no channel column in it.
    Asked for a user but for no city (a number of cities of 0, or of -50
    or below) it stops with ValueError.  With at least one user and one
    city it returns the six tables, with as many users and restaurants
    as asked for, and every key in them points at a row that exists:
    the city, the channel and the referrer of a user, the two users of
    a referral, the city of a restaurant and the restaurant of a menu
    row. *)
Theorem stage1_outcome (config : Config) (s : Rand) :
  (num_users config <= 0 ->
   exists s',
     generate_all (F := F) fake today config s
     = (Raise (KeyError "AcquisitionChannelID"), s')) /\
  (1 <= num_users config -> num_cities config = 0 \/ num_cities config <= -50 ->
   exists s',
     generate_all (F := F) fake today config s = (Raise ValueError, s')) /\
  (1 <= num_users config ->
   0 < num_cities config \/ -50 < num_cities config < 0 ->
   exists tables s',
     generate_all (F := F) fake today config s = (Ok tables, s') /\
     cities_csv tables = generate_cities (num_cities config) /\
     acquisition_channels_csv tables = generate_acquisition_channels /\
     length (users_csv tables) = Z.to_nat (num_users config) /\
     length (restaurants_csv tables) = Z.to_nat (num_restaurants config) /\
     linked tables).
Proof.
  unfold generate_all.
  pose proof (generate_cities_length (num_cities config)) as Hcities.
  set (cities := generate_cities (num_cities config)) in *.
  split; [|split].
  - intros Hn.
    destruct (generate_users_none fake (num_users config) cities
                generate_acquisition_channels (start_date config)
                (end_date config) Hn s) as (users & s1 & E1 & ->).
    exists s1. rewrite (bind_ok _ _ _ _ _ E1). reflexivity.
  - intros Hn Hc.
    assert (Hlen : length cities = 0%nat)
      by (destruct (num_cities config <? 0) eqn:E;
          [apply Z.ltb_lt in E | apply Z.ltb_ge in E]; lia).
    apply length_zero_iff_nil in Hlen. rewrite Hlen.
    destruct (generate_users_raises fake (num_users config)
                generate_acquisition_channels (start_date config)
                (end_date config) s Hn) as (s1 & E1).
    exists s1. apply bind_raise. exact E1.
  - intros Hn Hc.
    assert (Hlen : (0 < length cities)%nat)
      by (destruct (num_cities config <? 0) eqn:E;
          [apply Z.ltb_lt in E | apply Z.ltb_ge in E]; lia).
    destruct (yields_generate_users fake (num_users config) cities
                generate_acquisition_channels (start_date config)
                (end_date config) Hlen eq_refl s)
      as (users & s1 & E1 & Hids & Hrows & _).
    assert (Hne : users <> []).
    { intros ->. apply (f_equal (@List.length Z)) in Hids.
      rewrite ids_from_length in Hids. simpl in Hids. lia. }
    destruct (yields_add_referrals users Hne s1)
      as ([users' referrals] & s2 & E2 & Hkept & _ & Hrefs).
    cbn [fst snd] in Hkept, Hrefs.
    destruct (yields_generate_restaurants fake today (num_restaurants config)
                cities Hlen s2) as (restaurants & s3 & E3 & Hrids & Hrrows).
    destruct (yields_generate_menu fake restaurants s3)
      as (menu & s4 & E4 & _ & groups & Hmenu & Hgroups).
    eexists. exists s4.
    split.
    { rewrite (bind_ok _ _ _ _ _ E1), (bind_ok _ _ _ _ _ E2).
      rewrite (bind_ok _ _ _ _ _ E3), (bind_ok _ _ _ _ _ E4). reflexivity. }
    cbn [cities_csv acquisition_channels_csv users_csv restaurants_csv].
    split; [reflexivity|]. split; [reflexivity|].
    pose proof (kept_ids _ _ _ Hkept) as Hsame.
    split.
    { rewrite <- (Forall2_length Hkept), <- (length_map User.UserID), Hids.
      apply ids_from_length. }
    split.
    { rewrite <- (length_map Restaurant.RestaurantID), Hrids.
      apply ids_from_length. }
    unfold linked.
    cbn [cities_csv acquisition_channels_csv users_csv referrals_csv
         restaurants_csv menu_csv].
    rewrite Hsame. split; [exact (kept_rows_linked _ _ _ _ _ Hkept Hrows)|].
    split.
    { eapply Forall_impl; [|exact Hrefs].
      intros rho (_ & _ & _ & r & u & Hr & Hu & Er & Eu & _).
      rewrite Er, Eu. split; apply in_map; assumption. }
    split.
    { eapply Forall_impl; [|exact Hrrows].
      intros r ((city & base & Hcity & Ecity & _) & _).
      rewrite Ecity. apply in_map. exact Hcity. }
    rewrite Hmenu. apply menu_rows_linked. exact Hgroups.
Qed.

End Facts.
End Stage1Run.

(* ================================================================== *)
(** * The tables of small runs *)

Module SmallRuns.
Import Examples Samples OrderSpec Stage1Spec.

(** Three users over two days, drawn from two cities. *)
Lemma users_table_witness :
  exists users s',
    Stage1.generate_users (F := float) toy_faker 3 (Stage1.generate_cities 2)
      Stage1.generate_acquisition_channels 0 (2 * minutes_per_day)
      (rand_of [] [])
    = (Ok users, s') /\
    map User.UserID users = ids_from 1 3 /\
    Forall (user_row (Stage1.generate_cities 2)
                     Stage1.generate_acquisition_channels) users.
Proof.
  destruct (proj1 (UserTable.users_table (F := float) toy_faker 3
                     (Stage1.generate_cities 2)
                     Stage1.generate_acquisition_channels
                     0 (2 * minutes_per_day) (rand_of [] [])))
    as (users & s' & E & Hids & Hrows & _); [simpl; lia | reflexivity |].
  exists users, s'. split; [exact E|]. split; [exact Hids | exact Hrows].
Defined.

(** The referrals of the three users of [referral_users]. *)
Lemma referrals_table_witness :
  exists users' referrals s',
    Stage1.add_referrals referral_users (rand_of [] [])
    = (Ok (users', referrals), s') /\
    Forall2 (kept_or_referred referral_users) referral_users users' /\
    map Referral.ReferralID referrals = ids_from 1 (length referrals) /\
    Forall (referral_row referral_users) referrals.
Proof.
  apply (proj2 (ReferralTable.referrals_table referral_users (rand_of [] []))).
  discriminate.
Defined.

(** Two restaurants in the first six cities. *)
Lemma restaurants_table_witness :
  exists restaurants s',
    Stage1.generate_restaurants (F := float) toy_faker 0 2
      (Stage1.generate_cities 6) (rand_of [] [0; 5])
    = (Ok restaurants, s') /\
    map Restaurant.RestaurantID restaurants = ids_from 1 (Z.to_nat 2) /\
    Forall (restaurant_row (Stage1.generate_cities 6)) restaurants.
Proof.
  apply (proj1 (Stage1Tables.restaurants_table (F := float) toy_faker 0 2
                  (Stage1.generate_cities 6) (rand_of [] [0; 5]))).
  simpl. lia.
Defined.

(** Five dates in a range of ten days. *)
Lemma dates_with_patterns_witness :
  exists dates s',
    Stage1.generate_dates_with_patterns (F := float) 0 (10 * minutes_per_day) 5
      (rand_of [] [])
    = (Ok dates, s') /\
    length dates = Z.to_nat 5 /\
    Sorted Z.le dates /\
    Forall (fun d => exists k,
                0 <= k <= days_between (10 * minutes_per_day) 0 /\
                d = add_days 0 k) dates.
Proof.
  apply (proj1 (DateFacts.dates_with_patterns (F := float)
                  0 (10 * minutes_per_day) 5 (rand_of [] []))).
  vm_compute. discriminate.
Defined.

(** The script of Stage 1 for one user in one city. *)
Lemma stage1_outcome_witness :
  exists tables s',
    Stage1.generate_all (F := float) toy_faker 0 one_user (rand_of [] [])
    = (Ok tables, s') /\
    Stage1.cities_csv tables = Stage1.generate_cities (Stage1.num_cities one_user) /\
    Stage1.acquisition_channels_csv tables = Stage1.generate_acquisition_channels /\
    length (Stage1.users_csv tables) = Z.to_nat (Stage1.num_users one_user) /\
    length (Stage1.restaurants_csv tables)
    = Z.to_nat (Stage1.num_restaurants one_user) /\
    linked tables.
Proof.
  apply (proj2 (proj2 (Stage1Run.stage1_outcome (F := float) toy_faker 0
                         one_user (rand_of [] [])))).
  - simpl. lia.
  - left. simpl. lia.
Defined.

(** The sessions of a user who signs up on 2025-01-01. *)
Lemma sessions_signup_after_end_witness :
  exists s',
    Stage3.generate_user_sessions (Stage3.CONFIG (F := float)) new_year_users
                                  cart_orders (rand_of [] [])
    = (Raise ValueError, s').
Proof.
  apply (proj2 (SessionFacts.sessions_signup_after_end
                  (Stage3.CONFIG (F := float)) new_year_users cart_orders
                  (rand_of [] []))).
  - simpl. lia.
  - exists (user 1 1 (366 * minutes_per_day)).
    split; [left; reflexivity | vm_compute; reflexivity].
Defined.

(** The cart of the two orders of [cart_orders], at the rate 0.3. *)
Lemma cart_outcome_witness :
  exists cart s',
    Stage3.generate_cart_items Stage3.CONFIG two_item_users two_item_restaurants
                               two_item_menu cart_orders cart_lines
                               (rand_of [] [])
    = (Ok cart, s').
Proof.
  apply (proj2 (proj2 (CartRows.cart_outcome Stage3.CONFIG two_item_users
                         two_item_restaurants two_item_menu cart_orders
                         cart_lines (rand_of [] [])))).
  - vm_compute. reflexivity.
  - right. split; vm_compute; lia.
Defined.

End SmallRuns.

(* ================================================================== *)
(** * Stage 2: when the order generator returns *)

Module OrderRuns.
Import Stage2 OrderSpec OrderFacts OrderDetail RunFacts OrderTables Cohorts
       OrderRows.

Section Facts.
Context {F : Type} `{Num F}.

Lemma user_rows_found (users : list User.t) (id : Z) :
  In id (map User.UserID users) -> (0 < length (user_rows users id))%nat.
Proof.
  intros Hin. apply in_map_iff in Hin. destruct Hin as (u & Hid & Hu).
  assert (Hrow : In u (user_rows users id)).
  { unfold user_rows. apply filter_In. split; [exact Hu|].
    apply Z.eqb_eq. exact Hid. }
  destruct (user_rows users id); [destruct Hrow | simpl; lia].
Qed.

Lemma candidates_found (restaurants : list (Restaurant.t F)) (city : Z) :
  (0 < length (filter (fun r => Restaurant.IsActive r) restaurants))%nat ->
  (0 < length (candidate_restaurants restaurants city))%nat.
Proof.
  intros Hactive. unfold candidate_restaurants.
  destruct (length (filter _ restaurants) =? 0)%nat eqn:E; [exact Hactive|].
  apply Nat.eqb_neq in E. lia.
Qed.

Lemma active_found (restaurants : list (Restaurant.t F)) :
  (exists r, In r restaurants /\ Restaurant.IsActive r = true) ->
  (0 < length (filter (fun r => Restaurant.IsActive r) restaurants))%nat.
Proof.
  intros (r & Hr & Hact).
  assert (Hin : In r (filter (fun r => Restaurant.IsActive r) restaurants))
    by (apply filter_In; split; assumption).
  destruct (filter _ restaurants); [destruct Hin | simpl; lia].
Qed.

Lemma yields_add_items oid (sel : list (Menu.t F)) acc :
  yields (foreach sel (add_item oid) acc) (fun _ => True).
Proof.
  apply (yields_foreach_in (fun _ => True)); [|exact I].
  intros item [[total lines] id] _ _. unfold add_item.
  eapply yields_bind; [apply yields_choice; simpl; lia|]. intros q _.
  apply yields_ret. exact I.
Qed.

Lemma yields_order_iteration (users : list User.t)
  (restaurants : list (Restaurant.t F)) (menu : list (Menu.t F))
  (pool : list Z) (day : Z) (st : GenState F) :
  (0 < length pool)%nat ->
  incl pool (map User.UserID users) ->
  (0 < length (filter (fun r => Restaurant.IsActive r) restaurants))%nat ->
  yields (order_iteration users restaurants menu pool day st) (fun _ => True).
Proof.
  intros Hpool Hincl Hactive. unfold order_iteration.
  eapply yields_bind; [apply yields_choice; exact Hpool|]. intros user_id Hid.
  apply Hincl, user_rows_found in Hid.
  eapply yields_bind; [apply yields_iloc0; exact Hid|]. intros user _.
  eapply yields_bind;
    [apply yields_sample1, candidates_found; exact Hactive|].
  intros restaurant _.
  eapply yields_bind; [apply yields_hour|]. intros hour _.
  eapply yields_bind; [apply (yields_randint 0 59); lia|]. intros minute _.
  destruct (length (available_menu menu (Restaurant.RestaurantID restaurant))
            =? 0)%nat; [apply yields_ret; exact I|].
  eapply yields_bind; [apply yields_np_choice; simpl; lia|].
  intros num_items Hnum.
  assert (Hfit : 0 <= Z.min num_items
                        (Z.of_nat (length (available_menu menu
                           (Restaurant.RestaurantID restaurant))))
                 <= Z.of_nat (length (available_menu menu
                           (Restaurant.RestaurantID restaurant))))
    by (simpl in Hnum; lia).
  eapply yields_bind; [apply yields_sample; exact Hfit|]. intros sel _.
  eapply yields_bind; [apply yields_add_items|]. intros [[total lines] id] _.
  eapply yields_bind; [apply yields_choice; simpl; lia|]. intros fee _.
  eapply (yields_bind _ _ (fun _ => True)).
  { destruct (fltb (of_Z 500) total); [|apply yields_ret; exact I].
    eapply yields_bind; [apply yields_choice; simpl; lia|]. intros r _.
    apply yields_ret. exact I. }
  intros discount _.
  eapply yields_bind;
    [apply yields_choice; rewrite length_app, !repeat_length; lia|].
  intros status _.
  eapply yields_bind; [apply yields_iloc0; exact Hid|]. intros address_row _.
  eapply yields_bind; [apply yields_choice; simpl; lia|]. intros payment _.
  apply yields_ret. exact I.
Qed.

Lemma yields_bot_iteration (users : list User.t)
  (restaurants : list (Restaurant.t F)) (menu : list (Menu.t F))
  (bot_user : Z) (day : Z) (st : GenState F) :
  In bot_user (map User.UserID users) ->
  (0 < length restaurants)%nat ->
  yields (bot_iteration users restaurants menu bot_user day st) (fun _ => True).
Proof.
  intros Hbot Hrest. unfold bot_iteration.
  eapply yields_bind; [apply yields_sample1; exact Hrest|]. intros restaurant _.
  destruct (length (available_menu menu (Restaurant.RestaurantID restaurant))
            =? 0)%nat eqn:E; [apply yields_ret; exact I|].
  apply Nat.eqb_neq in E.
  eapply yields_bind; [apply yields_sample1; lia|]. intros item _.
  eapply yields_bind; [apply (yields_randint 0 23); lia|]. intros hour _.
  eapply yields_bind; [apply (yields_randint 0 59); lia|]. intros minute _.
  eapply yields_bind; [apply yields_iloc0, user_rows_found; exact Hbot|].
  intros address_row _. apply yields_ret. exact I.
Qed.

(** The sizes of the four cohorts add up to the size of the table. *)
Lemma cohort_lengths (users : list User.t) (pw wk bots rg : list Z) :
  NoDup (map User.UserID users) ->
  NoDup (pw ++ wk ++ bots ++ rg) ->
  (forall x, In x (pw ++ wk ++ bots ++ rg) <-> In x (map User.UserID users)) ->
  (length pw + length wk + length bots + length rg = length users)%nat.
Proof.
  intros Hnd Hnd' Hiff.
  pose proof (Permutation_length (NoDup_Permutation Hnd' Hnd Hiff)) as Hlen.
  rewrite !length_app, length_map in Hlen. lia.
Qed.

(** [generate_orders] returns, in every state of the generators, on a
    users table with distinct ids when the three cohort sizes are not
    negative and add up to at most the number of users, there is a power
    user or a regular user to place the orders of a weekday, and some
    restaurant is active.  Neither the menu nor the configured number
    of orders matters: an order drawn at a restaurant without an
    available item is skipped. *)
Theorem orders_return
  (users : list User.t) (restaurants : list (Restaurant.t F))
  (menu : list (Menu.t F)) (config : Config F) (s : Rand) (p w b : Z) :
  NoDup (map User.UserID users) ->
  cohort_sizes users config = (p, w, b) ->
  0 <= p -> 0 <= w -> 0 <= b -> p + w + b <= Z.of_nat (length users) ->
  0 < p \/ p + w + b < Z.of_nat (length users) ->
  (exists r, In r restaurants /\ Restaurant.IsActive r = true) ->
  exists orders items s',
    generate_orders users restaurants menu config s = (Ok (orders, items), s').
Proof.
  intros Hnd Hsizes Hp Hw Hb Hfit Hpool Hactive.
  pose proof (active_found _ Hactive) as Hact.
  assert (Hrest : (0 < length restaurants)%nat).
  { destruct Hactive as (r & Hr & _). destruct restaurants; [destruct Hr|].
    simpl. lia. }
  destruct (segment_users_cases users config s p w b Hnd Hsizes)
    as [(_ & _ & _ & _ & [[[pw wk] bots] rg] & s1 & Hseg) | (Hbad & _)]; [|lia].
  destruct (segment_users_spec _ _ _ _ _ _ _ _ Hnd Hseg) as (Hlens & Hnd' & Hiff).
  pose proof (cohort_lengths _ _ _ _ _ Hnd Hnd' Hiff) as Hsum.
  rewrite Hsizes in Hlens. inversion Hlens as [[Hlp Hlw Hlb]]. clear Hlens.
  assert (Hweekday : (0 < length (pw ++ rg))%nat)
    by (rewrite length_app; lia).
  assert (Hin : forall l, incl l (pw ++ wk ++ bots ++ rg) ->
                          incl l (map User.UserID users)).
  { intros l Hl x Hx. apply Hiff, Hl, Hx. }
  unfold generate_orders. rewrite (bind_ok _ _ _ _ _ Hseg).
  assert (Hdaily : yields (daily_loop users restaurants menu config pw wk rg
                                      initial_state) (fun _ => True)).
  { unfold daily_loop. apply (yields_foreach_in (fun _ => True)); [|exact I].
    intros day st _ _. unfold day_iteration.
    refine (yields_weaken _ _ _
              (yields_repeat_n (fun _ _ => True) _ _ _ 0%nat st I) _); [|auto].
    intros k st' _. apply yields_order_iteration; [| |exact Hact].
    - destruct (5 <=? weekday day); rewrite !length_app in *; lia.
    - apply Hin. destruct (5 <=? weekday day); intros x Hx;
        rewrite !in_app_iff in *; tauto. }
  destruct (Hdaily s1) as (st & s2 & Eday & _).
  rewrite (bind_ok _ _ _ _ _ Eday).
  assert (Hbots : yields (bot_pass users restaurants menu config bots st)
                         (fun _ => True)).
  { unfold bot_pass. apply (yields_foreach_in (fun _ => True)); [|exact I].
    intros bot st' Hbot _. unfold bot_burst.
    eapply yields_bind; [apply (yields_randint 0 300); lia|]. intros d _.
    eapply yields_bind; [apply (yields_randint 50 100); lia|]. intros n _.
    refine (yields_weaken _ _ _
              (yields_repeat_n (fun _ _ => True) _ _ _ 0%nat st' I) _); [|auto].
    intros k st'' _. apply yields_bot_iteration; [|exact Hrest].
    apply Hiff. apply firstn_In in Hbot. rewrite !in_app_iff. tauto. }
  destruct (Hbots s2) as (st' & s3 & Ebot & _).
  rewrite (bind_ok _ _ _ _ _ Ebot). eexists _, _, _. reflexivity.
Qed.

End Facts.

(** ** On the small inputs *)

Lemma orders_return_witness :
  exists orders items s',
    generate_orders Samples.ten_users Examples.two_item_restaurants
                    Examples.two_order_menu (Examples.one_day (F := float) 1 1)
                    (Examples.rand_of [] [])
    = (Ok (orders, items), s').
Proof.
  apply (orders_return Samples.ten_users Examples.two_item_restaurants
           Examples.two_order_menu (Examples.one_day 1 1)
           (Examples.rand_of [] []) 2 1 1).
  - exact ten_users_distinct.
  - vm_compute. reflexivity.
  - lia.
  - lia.
  - lia.
  - simpl. lia.
  - left. lia.
  - eexists. split; [left; reflexivity | reflexivity].
Defined.

End OrderRuns.
